(** * zkLogin wallet: the account and transaction engine

    A shallow embedding of the two wallet services of the repository,
    [MultiProviderZkLoginService] (ephemeral key + attached proof) and
    [HybridWalletService] (direct deterministic key), together with the
    fragments of JavaScript they rely on: IEEE-754 doubles, BigInt,
    strings of code units, [localStorage] / [sessionStorage].

    External collaborators (the Sui client, the Ed25519 and zkLogin
    library functions, the clock and the random source) are explicit
    arguments: a ledger is a record of responses indexed by the number of
    calls already made, so that it may answer two identical queries
    differently. *)

From Stdlib Require Import ZArith List Ascii String Bool Lia.
From Stdlib Require Import Floats.SpecFloat.
From stdpp Require Import gmap strings list.

(* ===================================================================== *)
(** ** Strings of the JavaScript fragment *)
(* ===================================================================== *)

Module JsString.
Local Open Scope Z_scope.

(** A character of a model string is one code unit below 256. *)
Definition code (c : ascii) : Z := Z.of_N (N_of_ascii c).

Definition chars (s : string) : list ascii := list_ascii_of_string s.
Definition str (l : list ascii) : string := string_of_list_ascii l.

(** Strings whose characters matter only through [charCodeAt] are kept
    as lists of UTF-16 code units. *)
Definition units (s : string) : list Z := map code (chars s).

Definition digitChar (d : Z) : ascii :=
  if d <? 10 then ascii_of_N (Z.to_N (48 + d)) else ascii_of_N (Z.to_N (87 + d)).

(** Most significant digit first; the loop of [Number.prototype.toString]
    on a non-negative integer. *)
Fixpoint digitsFrom (radix : Z) (fuel : nat) (n : Z) (acc : list ascii) : list ascii :=
  match fuel with
  | O => acc
  | S fuel' =>
      let acc' := digitChar (n mod radix) :: acc in
      if n / radix =? 0 then acc' else digitsFrom radix fuel' (n / radix) acc'
  end.

Definition natDigits (radix : Z) (n : Z) : list ascii :=
  digitsFrom radix (S (Z.to_nat (Z.log2 n))) n [].

(** [n.toString(radix)] for an integer [n >= 0] printed without exponent. *)
Definition toStringRadix (radix : Z) (n : Z) : string := str (natDigits radix n).

(** [b.toString()] for a BigInt [b]: every digit. *)
Definition bigintString (b : Z) : string :=
  if b <? 0 then String "-" (toStringRadix 10 (- b)) else toStringRadix 10 b.

(** [s.padStart(n, "0")] *)
Definition padStart0 (n : nat) (s : list ascii) : list ascii :=
  repeat "0"%char (n - length s) ++ s.

(** [s.repeat(k)] *)
Fixpoint repeatStr (k : nat) (s : list ascii) : list ascii :=
  match k with
  | O => []
  | S k' => s ++ repeatStr k' s
  end.

(** [s.substring(0, n)] *)
Definition substring0 (n : nat) (s : list ascii) : list ascii := firstn n s.

Definition isDigit (c : ascii) : bool := (48 <=? code c) && (code c <=? 57).

(** Value of a hexadecimal digit, either case. *)
Definition hexValue (c : ascii) : option Z :=
  let n := code c in
  if (48 <=? n) && (n <=? 57) then Some (n - 48)
  else if (97 <=? n) && (n <=? 102) then Some (n - 87)
  else if (65 <=? n) && (n <=? 70) then Some (n - 55)
  else None.

(** The white space [parseInt] and [parseFloat] skip, within the code
    units of the model: TAB, LF, VT, FF, CR, SP, NBSP. *)
Definition isWhiteSpace (c : ascii) : bool :=
  let n := code c in
  ((9 <=? n) && (n <=? 13)) || (n =? 32) || (n =? 160).

(** The line terminators a regular expression's [.] refuses. *)
Definition isLineTerminator (c : ascii) : bool :=
  let n := code c in (n =? 10) || (n =? 13).

Fixpoint dropWhile (p : ascii -> bool) (s : list ascii) : list ascii :=
  match s with
  | [] => []
  | c :: r => if p c then dropWhile p r else s
  end.

Fixpoint spanDigits (s : list ascii) : list ascii * list ascii :=
  match s with
  | [] => ([], [])
  | c :: r =>
      if isDigit c then let '(ds, rest) := spanDigits r in (c :: ds, rest)
      else ([], s)
  end.

Definition digitsValue (ds : list ascii) : Z :=
  fold_left (fun acc d => 10 * acc + (code d - 48)) ds 0.

Fixpoint startsWith (p s : list ascii) : bool :=
  match p, s with
  | [], _ => true
  | a :: p', b :: s' => if Ascii.eqb a b then startsWith p' s' else false
  | _ :: _, [] => false
  end.

(** A JavaScript value is falsy when it is the empty string. *)
Definition truthy (s : string) : bool :=
  match s with EmptyString => false | _ => true end.
End JsString.

(* ===================================================================== *)
(** ** Numbers: IEEE-754 binary64 over the Standard Library's [spec_float] *)
(* ===================================================================== *)

Module JsNumber.
Import JsString.
Local Open Scope Z_scope.

Definition prec : Z := 53.
Definition emax : Z := 1024.

Abbreviation number := spec_float.

(** [Number(b)] for a BigInt [b]: round to nearest, ties to even. *)
Definition ofBigInt (z : Z) : number := binary_normalize prec emax z 0 false.

Definition add : number -> number -> number := SFadd prec emax.
Definition sub : number -> number -> number := SFsub prec emax.
Definition mul : number -> number -> number := SFmul prec emax.
Definition div : number -> number -> number := SFdiv prec emax.

(** [x > y] and [x === y]; both are false when an operand is NaN. *)
Definition gt (x y : number) : bool := SFltb y x.
Definition strictEq (x y : number) : bool := SFeqb x y.

Definition billion : number := ofBigInt 1000000000.

(** [BigInt(Math.floor(x))]; [None] is the RangeError raised for NaN and
    the infinities. *)
Definition floorToBigInt (x : number) : option Z :=
  match x with
  | S754_zero _ => Some 0
  | S754_finite s m e =>
      let v := if s then Z.neg m else Z.pos m in
      Some (if 0 <=? e then v * 2 ^ e else v / 2 ^ (- e))
  | S754_infinity _ | S754_nan => None
  end.

(** The integer [n] for which [n / 10^f - m * 2^e] is closest to zero,
    the larger one on a tie. *)
Definition scaledRound (f : Z) (m : positive) (e : Z) : Z :=
  let num := Z.pos m * 10 ^ f in
  if 0 <=? e then num * 2 ^ e
  else (2 * num + 2 ^ (- e)) / 2 ^ (- e + 1).

(** The digits of [n] with a decimal point before the last [f] ones. *)
Definition fixedDigits (f : nat) (n : Z) : list ascii :=
  let ds := padStart0 (S f) (natDigits 10 n) in
  let k := (length ds - f)%nat in
  match f with
  | O => ds
  | _ => firstn k ds ++ "."%char :: skipn k ds
  end.

(** Shortest decimal that reads back as [x], for an integer-valued
    [x = X >= 10^21]: [Number::toString]'s choice of digits. *)
Fixpoint shortestDecimal (fuel : nat) (k : Z) (nd : Z) (X : Z) (x : number) : Z :=
  match fuel with
  | O => X
  | S fuel' =>
      let p := 10 ^ (nd - k) in
      let lo := (X / p) * p in
      let hi := lo + p in
      match strictEq (ofBigInt lo) x, strictEq (ofBigInt hi) x with
      | true, true =>
          if X - lo <? hi - X then lo
          else if hi - X <? X - lo then hi
          else if Z.even (X / p) then lo else hi
      | true, false => lo
      | false, true => hi
      | false, false => shortestDecimal fuel' (k + 1) nd X x
      end
  end.

Fixpoint stripTrailingZeros (rev_ds : list ascii) : list ascii :=
  match rev_ds with
  | c :: r => if Ascii.eqb c "0" then stripTrailingZeros r else rev_ds
  | [] => []
  end.

Definition exponential (X : Z) (x : number) : list ascii :=
  let nd := Z.of_nat (length (natDigits 10 X)) in
  let ds := natDigits 10 (shortestDecimal 17 1 nd X x) in
  let sig := rev (stripTrailingZeros (rev ds)) in
  let ex := chars "e+" ++ natDigits 10 (Z.of_nat (length ds) - 1) in
  match sig with
  | [] => ex
  | [d] => d :: ex
  | d :: more => d :: "."%char :: more ++ ex
  end.

(** [x.toFixed(f)] *)
Definition toFixed (f : nat) (x : number) : string :=
  match x with
  | S754_nan => "NaN"
  | S754_infinity s => if s then "-Infinity" else "Infinity"
  | S754_zero _ => str (fixedDigits f 0)
  | S754_finite s m e =>
      let body :=
        if (0 <=? e) && (10 ^ 21 <=? Z.pos m * 2 ^ e)
        then exponential (Z.pos m * 2 ^ e) (S754_finite false m e)
        else fixedDigits f (scaledRound (Z.of_nat f) m e) in
      str (if s then "-"%char :: body else body)
  end.

(** [x.toString()] for a number [x] that holds an integer: every digit
    below 10^21, and from there on the shortest digits that read back
    as [x], with an exponent. *)
Definition integerToString (x : number) : string :=
  match x with
  | S754_nan => "NaN"
  | S754_infinity s => if s then "-Infinity" else "Infinity"
  | S754_zero _ => "0"
  | S754_finite s m e =>
      let X := if 0 <=? e then Z.pos m * 2 ^ e else Z.pos m / 2 ^ (- e) in
      let body :=
        if 10 ^ 21 <=? X then exponential X (S754_finite false m e)
        else natDigits 10 X in
      str (if s then "-"%char :: body else body)
  end.

(** [n.toString()] for the number that holds the integer [n]. A number
    is a double: an integer that no double holds stands for the double
    nearest to it, as when it is read from JSON. *)
Definition decimal (n : Z) : string := integerToString (ofBigInt n).

(** The double nearest to [M * 10^E], [M >= 0]. *)
Definition ofDecimal (neg : bool) (M E : Z) : number :=
  match M with
  | Z0 => S754_zero neg
  | Zpos _ =>
      if 0 <=? E
      then binary_normalize prec emax ((if neg then - M else M) * 10 ^ E) 0 neg
      else
        let '(q, e', l) := SFdiv_core_binary prec emax M 0 (10 ^ (- E)) 0 in
        binary_round_aux prec emax neg q e' l
  | Zneg _ => S754_nan
  end.

Definition parseExponent (s : list ascii) : Z :=
  match s with
  | c :: r =>
      if Ascii.eqb c "e" || Ascii.eqb c "E" then
        let '(neg, r') :=
          match r with
          | sg :: t =>
              if Ascii.eqb sg "-" then (true, t)
              else if Ascii.eqb sg "+" then (false, t) else (false, r)
          | [] => (false, r)
          end in
        match spanDigits r' with
        | ([], _) => 0
        | (ds, _) => if neg then - digitsValue ds else digitsValue ds
        end
      else 0
  | [] => 0
  end.

(** The longest prefix that is a [StrUnsignedDecimalLiteral]. *)
Definition parseUnsigned (neg : bool) (s : list ascii) : number :=
  if startsWith (chars "Infinity") s then S754_infinity neg
  else
    let '(ip, r) := spanDigits s in
    match r with
    | c :: r1 =>
        if Ascii.eqb c "." then
          let '(fp, r2) := spanDigits r1 in
          match ip, fp with
          | [], [] => S754_nan
          | _, _ =>
              ofDecimal neg (digitsValue (ip ++ fp))
                (parseExponent r2 - Z.of_nat (length fp))
          end
        else
          match ip with
          | [] => S754_nan
          | _ => ofDecimal neg (digitsValue ip) (parseExponent r)
          end
    | [] =>
        match ip with
        | [] => S754_nan
        | _ => ofDecimal neg (digitsValue ip) 0
        end
    end.

(** [parseFloat(s)] *)
Definition parseFloat (s : string) : number :=
  match dropWhile isWhiteSpace (chars s) with
  | c :: r =>
      if Ascii.eqb c "-" then parseUnsigned true r
      else if Ascii.eqb c "+" then parseUnsigned false r
      else parseUnsigned false (c :: r)
  | [] => S754_nan
  end.
End JsNumber.

(* ===================================================================== *)
(** ** Effects: exceptions, the ledger client and the console *)
(* ===================================================================== *)

Module Effects.
Import JsString.
Local Open Scope Z_scope.

Definition bytes := list Z.

(** A coin object as [getCoins] reports it; [balance] is what
    [BigInt(coin.balance)] yields. *)
Record Coin := { coinObjectId : string; balance : Z }.

Inductive Argument :=
| GasCoin
| Object (id : string)
| NestedResult (command result : nat).

Inductive Command :=
| SplitCoins (coin : Argument) (amounts : list Z)
| TransferObjects (objects : list Argument) (recipient : string).

(** What the transaction builder has recorded when [build] is called. *)
Record Transaction := {
  commands : list Command;
  sender : option string;
  gasPrice : option Z;
  gasBudget : option Z
}.

Record GasUsed := { computationCost : Z; storageCost : Z; storageRebate : Z }.

(** [result.effects?.status?.status], [.error] and [.gasUsed], absent
    fields read as [None] and absent costs as 0. *)
Record ExecResult := {
  digest : string;
  status : option string;
  error : option string;
  gasUsed : GasUsed
}.

Inductive Filter :=
| FromOrToAddress (addr : string)
| FromAddress (addr : string)
| ToAddress (addr : string).

(** One entry of [effects.objectChanges]. *)
Record EffectChange := {
  ec_type : string;
  ec_objectType : option string;
  ec_owner : option string
}.

(** One entry of the block's own [objectChanges]: [tc_balance] is
    [Number(fields.balance || fields.value || fields.amount)] when the
    change carries an object with data, a type and fields and one of
    the three is truthy. *)
Record TopChange := {
  tc_type : string;
  tc_dataType : option string;
  tc_balance : option JsNumber.number
}.

(** A transaction block as [queryTransactionBlocks] reports it.
    [tb_inputAmount] is the number after the first ["amount":] of the
    serialised input, when there is one. *)
Record TxBlock := {
  tb_digest : string;
  tb_sender : option string;
  tb_status : option string;
  tb_timestampMs : option Z;
  tb_effectChanges : list EffectChange;
  tb_objectChanges : option (list TopChange);
  tb_inputAmount : option Z
}.

(** A JavaScript exception is its message. *)
Inductive outcome (A : Type) :=
| Returns (a : A)
| Throws (message : string).
Arguments Returns {A} a.
Arguments Throws {A} message.

(** The Sui client. Every response may depend on how many calls the
    client has already served. *)
Record Ledger := {
  getCoins : nat -> string -> outcome (list Coin);
  getBalance : nat -> string -> outcome Z;
  getLatestSuiSystemState : nat -> outcome Z;
  getReferenceGasPrice : nat -> outcome Z;
  build : nat -> Transaction -> outcome bytes;
  executeTransactionBlock : nat -> bytes -> string -> outcome ExecResult;
  signAndExecuteTransaction : nat -> bytes -> Transaction -> outcome ExecResult;
  queryTransactionBlocks : nat -> Filter -> outcome (list TxBlock)
}.

Inductive Call :=
| CallGetCoins (owner : string)
| CallGetBalance (owner : string)
| CallSystemState
| CallGasPrice
| CallBuild (tx : Transaction)
| CallExecute (txBytes : bytes) (signature : string)
| CallSignAndExecute (signer : bytes) (tx : Transaction)
| CallQuery (f : Filter).

(** What a run leaves behind: the ledger calls made, oldest first, and
    the labels passed to [console.error]. *)
Record Events := { calls : list Call; console : list string }.

Definition noEvents : Events := {| calls := []; console := [] |}.

(** A method of a service whose fields and storage are [S]: it runs from
    a state and the events so far, and returns or throws; what it did to
    the state before throwing stays done. *)
Definition M (S A : Type) : Type := S -> Events -> outcome A * S * Events.

Section Monad.
Context {S : Type}.

Definition ret {A} (a : A) : M S A := fun s ev => (Returns a, s, ev).
Definition throw {A} (message : string) : M S A := fun s ev => (Throws message, s, ev).

Definition bind {A B} (c : M S A) (k : A -> M S B) : M S B :=
  fun s ev =>
    match c s ev with
    | (Returns a, s', ev') => k a s' ev'
    | (Throws m, s', ev') => (Throws m, s', ev')
    end.

(** [try { body } catch (error) { handler(error.message) }] *)
Definition tryCatch {A} (body : M S A) (handler : string -> M S A) : M S A :=
  fun s ev =>
    match body s ev with
    | (Returns a, s', ev') => (Returns a, s', ev')
    | (Throws m, s', ev') => handler m s' ev'
    end.

Definition get : M S S := fun s ev => (Returns s, s, ev).
Definition put (s : S) : M S unit := fun _ ev => (Returns tt, s, ev).

Definition consoleError (label : string) : M S unit :=
  fun s ev =>
    (Returns tt, s, {| calls := calls ev; console := console ev ++ [label] |}).

(** A ledger call: answered by the ledger at the current call count,
    then recorded. *)
Definition request {A} (c : Call) (answer : nat -> outcome A) : M S A :=
  fun s ev =>
    (answer (length (calls ev)), s,
     {| calls := calls ev ++ [c]; console := console ev |}).

(** A library call, which returns or throws and leaves no trace. *)
Definition lift {A} (o : outcome A) : M S A := fun s ev => (o, s, ev).
End Monad.

Definition result {S A} (r : outcome A * S * Events) : outcome A := fst (fst r).
Definition after {S A} (r : outcome A * S * Events) : S := snd (fst r).
Definition trace {S A} (r : outcome A * S * Events) : Events := snd r.

Declare Scope js_scope.
Delimit Scope js_scope with js.
Notation "'let*' x ':=' c 'in' k" := (bind c (fun x => k))
  (at level 10, x name, c at level 100, k at level 200,
   format "'[v' 'let*'  x  ':='  c  'in' '/' k ']'") : js_scope.
Notation "'do*' c 'in' k" := (bind c (fun _ => k))
  (at level 10, c at level 100, k at level 200,
   format "'[v' 'do*'  c  'in' '/' k ']'") : js_scope.

Definition u64Max : Z := 18446744073709551615.

Definition msgInvalidU64 (value : Z) : string :=
  "Invalid u64 value: " +:+ bigintString value
  +:+ ". Expected value in range 0-18446744073709551615".

(** [tx.pure.u64(value)] for a BigInt: the SDK serialises the value at
    once and throws when it is no unsigned 64-bit integer. *)
Definition pureU64 (value : Z) : outcome unit :=
  if (0 <=? value) && (value <=? u64Max) then Returns tt
  else Throws (msgInvalidU64 value).

(** The same for the amounts of one call, in their order. *)
Fixpoint pureU64s (amounts : list Z) : outcome unit :=
  match amounts with
  | [] => Returns tt
  | amount :: rest =>
      match pureU64 amount with
      | Throws message => Throws message
      | Returns _ => pureU64s rest
      end
  end.

(** What else the transaction builder of the SDK may refuse at once, by
    throwing, when [tx.splitCoins] and [tx.transferObjects] are called:
    the recipient, for one, is serialised as an address. The other
    methods only record. *)
Record Builder := {
  splitCoins : Argument -> list Z -> outcome unit;
  transferObjects : list Argument -> string -> outcome unit
}.

(** The call of the builder that records the command [c]:
    [tx.splitCoins] passes every amount through [tx.pure.u64]. *)
Definition addCommand (b : Builder) (c : Command) : outcome unit :=
  match c with
  | SplitCoins coin amounts =>
      match pureU64s amounts with
      | Throws message => Throws message
      | Returns _ => splitCoins b coin amounts
      end
  | TransferObjects objects recipient => transferObjects b objects recipient
  end.

(** The calls that record [cmds], one after the other: the commands
    recorded, unless a call throws. *)
Fixpoint addCommands (b : Builder) (cmds : list Command) : outcome (list Command) :=
  match cmds with
  | [] => Returns []
  | c :: rest =>
      match addCommand b c with
      | Throws message => Throws message
      | Returns _ =>
          match addCommands b rest with
          | Throws message => Throws message
          | Returns recorded => Returns (c :: recorded)
          end
      end
  end.

Definition executed (c : Call) : bool :=
  match c with
  | CallExecute _ _ | CallSignAndExecute _ _ => true
  | _ => false
  end.
End Effects.

(* ===================================================================== *)
(** ** What the two services share: identities, keys, browser storage *)
(* ===================================================================== *)

Module Browser.
Import JsString JsNumber Effects.
Local Open Scope Z_scope.

(** A field of a decoded provider claim. [JNum n] is the number that
    holds the integer [n]; as a number is a double, an integer that no
    double holds names the double nearest to it. *)
Inductive jsval :=
| JUndefined
| JNull
| JStr (s : string)
| JNum (n : Z).

(** [!!v] *)
Definition truthyVal (v : jsval) : bool :=
  match v with
  | JUndefined | JNull => false
  | JStr s => truthy s
  | JNum n => negb (n =? 0)
  end.

(** [a || b] *)
Definition orElse (a b : jsval) : jsval := if truthyVal a then a else b.

(** A value inside a template literal. *)
Definition template (v : jsval) : string :=
  match v with
  | JUndefined => "undefined"
  | JNull => "null"
  | JStr s => s
  | JNum n => decimal n
  end.

(** [v?.toString()] *)
Definition optToString (v : jsval) : jsval :=
  match v with
  | JUndefined | JNull => JUndefined
  | JStr s => JStr s
  | JNum n => JStr (decimal n)
  end.

Inductive Provider := github | google.

Definition providerName (p : Provider) : string :=
  match p with
  | github => "github"
  | google => "google"
  end.

(** The provider a string read from [sessionStorage] names, if any. *)
Definition providerOf (s : string) : option Provider :=
  if String.eqb s "github" then Some github
  else if String.eqb s "google" then Some google
  else None.

Record User := {
  email : jsval;
  loginTime : Z;
  provider : Provider;
  login : jsval;
  name : jsval;
  picture : jsval
}.

(** The decoded provider claim, [JSON.parse(atob(userToken))]. *)
Record Claim := {
  c_sub : jsval;
  c_id : jsval;
  c_email : jsval;
  c_login : jsval;
  c_name : jsval;
  c_avatar_url : jsval;
  c_picture : jsval
}.

(** [text.split("@")[0]] *)
Fixpoint beforeAt (s : list ascii) : list ascii :=
  match s with
  | [] => []
  | c :: r => if Ascii.eqb c "@" then [] else c :: beforeAt r
  end.

(** An Ed25519 key pair is its 32-byte secret. *)
Definition Keypair := bytes.

(** [Ed25519Keypair.fromSecretKey(secretKey)] accepts 32 bytes. *)
Definition fromSecretKey (secretKey : bytes) : outcome Keypair :=
  if (length secretKey =? 32)%nat then Returns secretKey
  else Throws ("Wrong secretKey size. Expected 32 bytes, got "
               +:+ decimal (Z.of_nat (length secretKey)) +:+ ".").

(** [localStorage] and [sessionStorage]: strings under string keys. *)
Record Storage := {
  localStorage : gmap string string;
  sessionStorage : gmap string string
}.

Definition setLocal (k v : string) (sto : Storage) : Storage :=
  {| localStorage := <[k := v]> (localStorage sto);
     sessionStorage := sessionStorage sto |}.

Definition removeLocal (k : string) (sto : Storage) : Storage :=
  {| localStorage := delete k (localStorage sto);
     sessionStorage := sessionStorage sto |}.

Definition setSession (k v : string) (sto : Storage) : Storage :=
  {| localStorage := localStorage sto;
     sessionStorage := <[k := v]> (sessionStorage sto) |}.

Definition clearSession (sto : Storage) : Storage :=
  {| localStorage := localStorage sto; sessionStorage := ∅ |}.

(** The [sessionExpiry] of a session read from storage: the field may
    be missing, hold [null], or hold a number. *)
Inductive Expiry :=
| ExpiryMissing
| ExpiryNull
| ExpiryAt (time : Z).

(** [Date.now() > session.sessionExpiry]: [undefined] compares as NaN,
    which nothing exceeds, and [null] as 0. *)
Definition expired (now : Z) (expiry : Expiry) : bool :=
  match expiry with
  | ExpiryMissing => false
  | ExpiryNull => now >? 0
  | ExpiryAt time => now >? time
  end.

(** The field of the service after [this.sessionExpiry =
    session.sessionExpiry]; [None] is [null] or [undefined]. *)
Definition expiryValue (expiry : Expiry) : option Z :=
  match expiry with
  | ExpiryAt time => Some time
  | ExpiryMissing | ExpiryNull => None
  end.

(** The [sessionExpiry] of the object that is serialised, from the
    field of the service: a number, or [null]. *)
Definition expiryOf (sessionExpiry : option Z) : Expiry :=
  match sessionExpiry with
  | Some time => ExpiryAt time
  | None => ExpiryNull
  end.

(** [getItem] of a key whose value is then tested with [!value]. *)
Definition getTruthy (m : gmap string string) (k : string) : option string :=
  match m !! k with
  | Some v => if truthy v then Some v else None
  | None => None
  end.

(** [ToInt32] *)
Definition toInt32 (z : Z) : Z := (z + 2 ^ 31) mod 2 ^ 32 - 2 ^ 31.

(** One turn of the hash loop:
    [hash = (hash << 5) - hash + char; hash = hash & hash]. *)
Definition hashStep (hash char : Z) : Z :=
  toInt32 (toInt32 (Z.shiftl (toInt32 hash) 5) - hash + char).

(** The loop over the code units of a string. *)
Definition hashUnits (identity : list Z) : Z := fold_left hashStep identity 0.

Fixpoint includes (needle hay : list ascii) : bool :=
  match hay with
  | [] => startsWith needle []
  | _ :: r => startsWith needle hay || includes needle r
  end.
End Browser.

(* ===================================================================== *)
(** ** [MultiProviderZkLoginService]: ephemeral key and attached proof *)
(* ===================================================================== *)

Module ZkLogin.
Import JsString JsNumber Effects Browser.
Local Open Scope Z_scope.
Local Open Scope js_scope.

Record ZkProof := {
  proofPoints_a : list string;
  proofPoints_b : list (list string);
  proofPoints_c : list string;
  issBase64Details_value : string;
  issBase64Details_indexMod4 : Z;
  headerBase64 : string;
  addressSeed : string
}.

(** The fields of the service object together with the page's storage. *)
Record Service := {
  user : option User;
  walletAddress : option string;
  ephemeralKeyPair : option Keypair;
  zkProof : option ZkProof;
  userSalt : option string;
  maxEpoch : option Z;
  sessionExpiry : option Z;
  storage : Storage
}.

(** The object [saveSecureSession] serialises and [restoreSession]
    reads. The expiry is compared on reading, so it keeps apart a
    missing field and [null]; the other fields are only assigned, and
    for them both read as [None]. *)
Record SessionData := {
  sd_user : option User;
  sd_walletAddress : option string;
  sd_sessionExpiry : Expiry;
  sd_userSalt : option string;
  sd_zkProof : option ZkProof;
  sd_maxEpoch : option Z
}.

Record UserData := {
  u_sub : jsval;
  u_email : jsval;
  u_login : jsval;
  u_name : jsval;
  u_picture : jsval;
  u_provider : Provider
}.

(** Built-ins and library functions the service calls. [parseSession]
    is [JSON.parse] followed by the field reads of [restoreSession];
    [None] when either throws. [secretKeyJson] is
    [JSON.stringify(Array.from(keypair.getSecretKey()))] and
    [parseKeyArray] is [new Uint8Array(JSON.parse(text))].
    [jwtToAddress] receives what [createPseudoJWT] puts into the token:
    the user data, the provider, the nonce and the clock reading, and
    then the salt. [genAddressSeed] is
    [genAddressSeed(BigInt(salt), "sub", sub, clientId).toString()].
    [builder] is the SDK's transaction builder. *)
Record Library := {
  builder : Builder;
  clientId : Provider -> string;
  stringifySession : SessionData -> string;
  parseSession : string -> option SessionData;
  secretKeyJson : Keypair -> string;
  parseKeyArray : string -> outcome bytes;
  decodeToken : string -> outcome Claim;
  generateNonce : Keypair -> Z -> string -> outcome string;
  jwtToAddress : UserData -> Provider -> string -> Z -> string -> outcome string;
  genAddressSeed : string -> jsval -> string -> outcome string;
  btoa : string -> string;
  jwtHeader : string;
  sign : Keypair -> bytes -> outcome bytes;
  getZkLoginSignature : ZkProof -> option Z -> bytes -> outcome string;
  toLocaleDateString : Z -> string
}.

Definition issuer (p : Provider) : string :=
  match p with
  | github => "https://github.com"
  | google => "https://accounts.google.com"
  end.

(** A service object just constructed in a page whose storage is [sto]. *)
Definition newService (sto : Storage) : Service :=
  {| user := None; walletAddress := None; ephemeralKeyPair := None;
     zkProof := None; userSalt := None; maxEpoch := None;
     sessionExpiry := None; storage := sto |}.

Definition withStorage (sto : Storage) (s : Service) : Service :=
  {| user := user s; walletAddress := walletAddress s;
     ephemeralKeyPair := ephemeralKeyPair s; zkProof := zkProof s;
     userSalt := userSalt s; maxEpoch := maxEpoch s;
     sessionExpiry := sessionExpiry s; storage := sto |}.

Definition sessionKey : string := "zklogin_session".

Definition saltKey (p : Provider) (sub : jsval) : string :=
  "zklogin_salt_" +:+ providerName p +:+ "_" +:+ template sub.

Definition msgNotAuthenticated : string := "Not authenticated with zkLogin".
Definition msgNoSui : string :=
  "Wallet has no SUI. Please use the faucet first to get some SUI.".
Definition msgInsufficientBalance (balance amount : string) : string :=
  "Insufficient balance. You have " +:+ balance
    +:+ " SUI but trying to send " +:+ amount +:+ " SUI.".
Definition msgNoCoins : string :=
  "No SUI coins found in wallet. Please use the faucet first.".
Definition msgMergeNotImplemented : string :=
  "Transaction requires coin merging which is not yet implemented. Try sending a smaller amount.".
Definition msgTransactionFailed (reason : option string) : string :=
  "Transaction failed: " +:+ default "undefined" reason.
Definition msgSigningFailed : string :=
  "Transaction signing failed. This wallet uses mock zkLogin which cannot create real transactions. Please use a real zkLogin implementation.".
Definition msgMissingKeyOrProof : string :=
  "Missing ephemeral keypair or zkLogin proof".
Definition msgNotConfigured (p : Provider) : string :=
  providerName p +:+ " client ID not configured".
Definition msgNotAnInteger (x : number) : string :=
  "The number " +:+ toFixed 0 x
    +:+ " cannot be converted to a BigInt because it is not an integer".

Definition msgNoProvider : string := "No provider information found in session".
Definition msgMissingKeypair : string := "Missing ephemeral keypair".
Definition msgInvalidKeyLength (n : nat) : string :=
  "Invalid key length: " +:+ decimal (Z.of_nat n) +:+ ", expected at least 32 bytes".
Definition msgUnsupported (p : string) : string := "Unsupported provider: " +:+ p.
Definition msgNoSplit : string := "userData.email?.split is not a function".

Definition coinType : string := "0x2::sui::SUI".

Inductive CallbackResult :=
| CallbackSuccess (address : option string)
| CallbackFailure (error : string).

(** [normalizeUserData(userData, provider)] *)
Definition normalizeUserData (userData : Claim) (provider : string) : outcome UserData :=
  match providerOf provider with
  | Some github =>
      Returns {| u_sub := orElse (c_sub userData) (optToString (c_id userData));
                 u_email := c_email userData;
                 u_login := c_login userData;
                 u_name := c_name userData;
                 u_picture := c_avatar_url userData;
                 u_provider := github |}
  | Some google =>
      match c_email userData with
      | JNum _ => Throws msgNoSplit
      | e =>
          Returns {| u_sub := c_sub userData;
                     u_email := c_email userData;
                     u_login :=
                       match e with
                       | JStr s => JStr (str (beforeAt (chars s)))
                       | _ => JUndefined
                       end;
                     u_name := c_name userData;
                     u_picture := c_picture userData;
                     u_provider := google |}
      end
  | None => Throws (msgUnsupported provider)
  end.

(** [hashString(str)] *)
Definition hashString (text : string) : string :=
  str (padStart0 64 (natDigits 16 (Z.abs (hashUnits (units text))))).

(** The private key taken from the stored key array. *)
Definition privateKeyOf (fullKeyArray : bytes) : outcome bytes :=
  if (length fullKeyArray =? 32)%nat then Returns fullKeyArray
  else if (32 <=? length fullKeyArray)%nat then Returns (firstn 32 fullKeyArray)
  else Throws (msgInvalidKeyLength (length fullKeyArray)).

Inductive SendResult :=
| SendSuccess (txId gasUsed : string)
| SendFailure (error : string).

Inductive LoginStart :=
| LoginUrl (provider : Provider) (clientId nonce : string) (stamp : Z)
| LoginError (error : string).

Record HistoryRecord := {
  hr_id : string;
  hr_type : string;
  hr_amount : string;
  hr_date : string;
  hr_status : string;
  hr_recipient : option string;
  hr_sender : option string
}.

(** [!this.walletAddress] fails for a non-empty string only. *)
Definition address (s : Service) : option string :=
  match walletAddress s with
  | Some a => if truthy a then Some a else None
  | None => None
  end.

(** The loop of [getBalance]: [totalBalance += BigInt(coin.balance)]. *)
Definition sumBalances (coins : list Coin) : Z :=
  fold_left (fun totalBalance coin => totalBalance + balance coin) coins 0.

(** The loop of [sendTransaction] step 3, which stops at the first coin
    with [coinBalance >= amountInMist]. *)
Fixpoint findSuitableCoin (amountInMist : Z) (coins : list Coin) : option Coin :=
  match coins with
  | [] => None
  | coin :: rest =>
      if balance coin >=? amountInMist then Some coin
      else findSuitableCoin amountInMist rest
  end.

(** Step 4, the commands the builder is asked to record: split when
    the coin holds more than the amount, else send the coin whole. *)
Definition paymentCommands (suitableCoin : Coin) (amountInMist : Z)
    (recipient : string) : list Command :=
  if balance suitableCoin >? amountInMist then
    [ SplitCoins (Object (coinObjectId suitableCoin)) [amountInMist];
      TransferObjects [NestedResult 0 0] recipient ]
  else
    [ TransferObjects [Object (coinObjectId suitableCoin)] recipient ].

(** Steps 3 and 4 together, from the coins fetched in step 2: the
    commands of the transaction, unless no coin covers the amount or
    the builder refuses one of them. *)
Definition selectPayment (b : Builder) (amountInMist : Z) (coins : list Coin)
    (recipient : string) : outcome (list Command) :=
  match findSuitableCoin amountInMist coins with
  | None => Throws msgMergeNotImplemented
  | Some suitableCoin =>
      addCommands b (paymentCommands suitableCoin amountInMist recipient)
  end.

Definition totalGas (g : GasUsed) : string :=
  toFixed 6
    (div (sub (add (ofBigInt (computationCost g)) (ofBigInt (storageCost g)))
              (ofBigInt (storageRebate g)))
         billion).

Section Service.
Context (lib : Library) (ledger : Ledger).

Abbreviation Method := (M Service).

Definition updateStorage (f : Storage -> Storage) : Method unit :=
  let* s := get in put (withStorage (f (storage s)) s).

(** The assignments to the fields of the service. *)
Definition setUser (u : option User) : Method unit :=
  let* s := get in
  put {| user := u; walletAddress := walletAddress s;
         ephemeralKeyPair := ephemeralKeyPair s; zkProof := zkProof s;
         userSalt := userSalt s; maxEpoch := maxEpoch s;
         sessionExpiry := sessionExpiry s; storage := storage s |}.

Definition setWalletAddress (a : option string) : Method unit :=
  let* s := get in
  put {| user := user s; walletAddress := a;
         ephemeralKeyPair := ephemeralKeyPair s; zkProof := zkProof s;
         userSalt := userSalt s; maxEpoch := maxEpoch s;
         sessionExpiry := sessionExpiry s; storage := storage s |}.

Definition setEphemeralKeyPair (k : option Keypair) : Method unit :=
  let* s := get in
  put {| user := user s; walletAddress := walletAddress s;
         ephemeralKeyPair := k; zkProof := zkProof s;
         userSalt := userSalt s; maxEpoch := maxEpoch s;
         sessionExpiry := sessionExpiry s; storage := storage s |}.

Definition setZkProof (p : option ZkProof) : Method unit :=
  let* s := get in
  put {| user := user s; walletAddress := walletAddress s;
         ephemeralKeyPair := ephemeralKeyPair s; zkProof := p;
         userSalt := userSalt s; maxEpoch := maxEpoch s;
         sessionExpiry := sessionExpiry s; storage := storage s |}.

Definition setUserSalt (salt : option string) : Method unit :=
  let* s := get in
  put {| user := user s; walletAddress := walletAddress s;
         ephemeralKeyPair := ephemeralKeyPair s; zkProof := zkProof s;
         userSalt := salt; maxEpoch := maxEpoch s;
         sessionExpiry := sessionExpiry s; storage := storage s |}.

Definition setMaxEpoch (e : option Z) : Method unit :=
  let* s := get in
  put {| user := user s; walletAddress := walletAddress s;
         ephemeralKeyPair := ephemeralKeyPair s; zkProof := zkProof s;
         userSalt := userSalt s; maxEpoch := e;
         sessionExpiry := sessionExpiry s; storage := storage s |}.

Definition setSessionExpiry (e : option Z) : Method unit :=
  let* s := get in
  put {| user := user s; walletAddress := walletAddress s;
         ephemeralKeyPair := ephemeralKeyPair s; zkProof := zkProof s;
         userSalt := userSalt s; maxEpoch := maxEpoch s;
         sessionExpiry := e; storage := storage s |}.

(** [logout()] *)
Definition logout : Method unit :=
  let* s := get in
  put {| user := None; walletAddress := None; ephemeralKeyPair := None;
         zkProof := None; userSalt := None; maxEpoch := None;
         sessionExpiry := None;
         storage := clearSession (removeLocal sessionKey (storage s)) |}.

(** [saveSecureSession()]; its one caller has set the expiry to a
    number just before. *)
Definition saveSecureSession : Method unit :=
  let* s := get in
  let sessionData :=
    {| sd_user := user s; sd_walletAddress := walletAddress s;
       sd_sessionExpiry := expiryOf (sessionExpiry s); sd_userSalt := userSalt s;
       sd_zkProof := zkProof s; sd_maxEpoch := maxEpoch s |} in
  updateStorage (setLocal sessionKey (stringifySession lib sessionData)).

(** [restoreSession()] at clock reading [now]. *)
Definition restoreSession (now : Z) : Method bool :=
  tryCatch
    (let* s := get in
     match getTruthy (localStorage (storage s)) sessionKey with
     | None => ret false
     | Some data =>
         match parseSession lib data with
         | None => throw "SyntaxError"
         | Some session =>
             if expired now (sd_sessionExpiry session) then
               do* logout in ret false
             else
               do* setUser (sd_user session) in
               do* setWalletAddress (sd_walletAddress session) in
               do* setSessionExpiry (expiryValue (sd_sessionExpiry session)) in
               do* setUserSalt (sd_userSalt session) in
               do* setZkProof (sd_zkProof session) in
               do* setMaxEpoch (sd_maxEpoch session) in
               ret true
         end
     end)
    (fun _ => ret false).

(** [getUserSalt(userData, provider)]; [draw] is the integer that
    [Math.floor(Math.random() * 2 ** 64).toString()] prints. *)
Definition getUserSalt (sub : jsval) (provider : Provider) (draw : Z) : Method string :=
  let* s := get in
  let key := saltKey provider sub in
  match getTruthy (localStorage (storage s)) key with
  | Some salt => ret salt
  | None =>
      let salt := toStringRadix 10 draw in
      do* updateStorage (setLocal key salt) in
      ret salt
  end.

(** [initiateLogin(provider)]: [fresh] is the key pair drawn by
    [new Ed25519Keypair()], [randomness] the value of
    [generateRandomness()] and [now] the clock reading. *)
Definition initiateLogin (provider : Provider) (fresh : Keypair)
    (randomness : string) (now : Z) : Method LoginStart :=
  tryCatch
    (if truthy (clientId lib provider) then
       do* setEphemeralKeyPair (Some fresh) in
       let* epoch := request CallSystemState (getLatestSuiSystemState ledger) in
       do* setMaxEpoch (Some (epoch + 10)) in
       let* nonce := lift (generateNonce lib fresh (epoch + 10) randomness) in
       do* updateStorage
             (fun sto =>
                setSession "zklogin_provider" (providerName provider)
                  (setSession "zklogin_nonce" nonce
                     (setSession "zklogin_randomness" randomness
                        (setSession "zklogin_max_epoch" (decimal (epoch + 10))
                           (setSession "zklogin_ephemeral_keypair"
                              (secretKeyJson lib fresh) sto))))) in
       ret (LoginUrl provider (clientId lib provider) nonce now)
     else throw (msgNotConfigured provider))
    (fun message =>
       do* consoleError "Failed to initiate login" in
       ret (LoginError message)).

(** [generateZkLoginAddress(userData, salt, provider)] at clock
    reading [now]. *)
Definition generateZkLoginAddress (userData : UserData) (salt : string)
    (provider : Provider) (now : Z) : Method string :=
  let* s := get in
  let nonce :=
    default (providerName provider +:+ "-nonce")
      (getTruthy (sessionStorage (storage s)) "zklogin_nonce") in
  match jwtToAddress lib userData provider nonce now salt with
  | Returns a => ret a
  | Throws _ =>
      let addressSeed :=
        hashString (template (u_sub userData) +:+ salt +:+ providerName provider) in
      ret ("0x" +:+ str (substring0 64 (chars addressSeed)))
  end.

(** [generateMockZkProof(userData, provider)] *)
Definition generateMockZkProof (userData : UserData) (provider : Provider)
    : Method ZkProof :=
  let* s := get in
  let* seed := lift (genAddressSeed lib (default "null" (userSalt s))
                       (u_sub userData) (clientId lib provider)) in
  ret {| proofPoints_a := ["mock_proof_a_" +:+ providerName provider];
         proofPoints_b := [["mock_proof_b_" +:+ providerName provider]];
         proofPoints_c := ["mock_proof_c_" +:+ providerName provider];
         issBase64Details_value := btoa lib (issuer provider);
         issBase64Details_indexMod4 := 0;
         headerBase64 := btoa lib (jwtHeader lib);
         addressSeed := seed |}.

(** [handleOAuthCallback(userToken)] at clock reading [now], the
    random source yielding [draw] if a salt has to be made. *)
Definition handleOAuthCallback (userToken : string) (now draw : Z)
    : Method CallbackResult :=
  tryCatch
    (let* s := get in
     match getTruthy (sessionStorage (storage s)) "zklogin_provider" with
     | None => throw msgNoProvider
     | Some providerText =>
         match getTruthy (sessionStorage (storage s)) "zklogin_ephemeral_keypair" with
         | None => throw msgMissingKeypair
         | Some keypairData =>
             let* fullKeyArray := lift (parseKeyArray lib keypairData) in
             let* privateKey := lift (privateKeyOf fullKeyArray) in
             let* kp := lift (fromSecretKey privateKey) in
             do* setEphemeralKeyPair (Some kp) in
             let* userData := lift (decodeToken lib userToken) in
             let* normalizedUserData := lift (normalizeUserData userData providerText) in
             let provider := u_provider normalizedUserData in
             let* salt := getUserSalt (u_sub normalizedUserData) provider draw in
             do* setUserSalt (Some salt) in
             let* addr := generateZkLoginAddress normalizedUserData salt provider now in
             do* setWalletAddress (Some addr) in
             let* proof := generateMockZkProof normalizedUserData provider in
             do* setZkProof (Some proof) in
             do* setUser
                   (Some {| email := u_email normalizedUserData;
                            loginTime := now;
                            provider := provider;
                            login := u_login normalizedUserData;
                            name := u_name normalizedUserData;
                            picture := u_picture normalizedUserData |}) in
             do* setSessionExpiry (Some (now + 24 * 60 * 60 * 1000)) in
             do* saveSecureSession in
             let* s' := get in
             ret (CallbackSuccess (walletAddress s'))
         end
     end)
    (fun message =>
       do* consoleError "OAuth callback failed" in
       ret (CallbackFailure message)).

(** [getBalance()] *)
Definition getBalance : Method string :=
  tryCatch
    (let* s := get in
     match address s with
     | None => ret "0"
     | Some owner =>
         let* coins := request (CallGetCoins owner) (fun n => getCoins ledger n owner) in
         let totalBalance := sumBalances coins in
         ret (toFixed 6 (div (ofBigInt totalBalance) billion))
     end)
    (fun _ => do* consoleError "Failed to get balance" in ret "0").

(** [createZkLoginSignature(txBytes)] *)
Definition createZkLoginSignature (txBytes : bytes) : Method string :=
  tryCatch
    (let* s := get in
     match ephemeralKeyPair s, zkProof s with
     | Some keyPair, Some proof =>
         let* ephemeralSignature := lift (sign lib keyPair txBytes) in
         lift (getZkLoginSignature lib proof (maxEpoch s) ephemeralSignature)
     | _, _ => throw msgMissingKeyOrProof
     end)
    (fun message =>
       do* consoleError "Failed to create zkLogin signature" in
       throw message).

(** [sendTransaction(recipient, amount)] *)
Definition sendTransaction (recipient amount : string) : Method SendResult :=
  tryCatch
    (let* s := get in
     match zkProof s, ephemeralKeyPair s, address s with
     | Some _, Some _, Some owner =>
         (* step 1: the balance precondition *)
         let* balance := getBalance in
         let balanceNum := parseFloat balance in
         let amountNum := parseFloat amount in
         if strictEq balanceNum (ofBigInt 0) then throw msgNoSui
         else if gt amountNum balanceNum then
           throw (msgInsufficientBalance balance amount)
         else
           (* step 2: the coins of the wallet *)
           let* coins := request (CallGetCoins owner) (fun n => getCoins ledger n owner) in
           if (length coins =? 0)%nat then throw msgNoCoins
           else
             (* step 3: a coin that covers the amount *)
             match floorToBigInt (mul amountNum billion) with
             | None => throw (msgNotAnInteger (mul amountNum billion))
             | Some amountInMist =>
                 (* step 4: the transaction block *)
                 let* cmds :=
                   lift (selectPayment (builder lib) amountInMist coins recipient) in
                 let* price := request CallGasPrice (getReferenceGasPrice ledger) in
                 let tx := {| commands := cmds; sender := Some owner;
                              gasPrice := Some price; gasBudget := Some 10000000 |} in
                 let* txBytes := request (CallBuild tx) (fun n => build ledger n tx) in
                 (* step 5: sign and execute *)
                 tryCatch
                   (let* zkLoginSignature := createZkLoginSignature txBytes in
                    let* res := request (CallExecute txBytes zkLoginSignature)
                                  (fun n => executeTransactionBlock ledger n txBytes
                                              zkLoginSignature) in
                    match status res with
                    | Some st =>
                        if String.eqb st "success"
                        then ret (SendSuccess (digest res) (totalGas (gasUsed res)))
                        else throw (msgTransactionFailed (error res))
                    | None => throw (msgTransactionFailed (error res))
                    end)
                   (fun _ =>
                      do* consoleError "zkLogin signature creation failed" in
                      throw msgSigningFailed)
             end
     | _, _, _ => throw msgNotAuthenticated
     end)
    (fun message =>
       do* consoleError "Transaction failed" in
       ret (SendFailure message)).

(** The body of the [map] callback of [getTransactionHistory]. *)
Definition processTx (owner : string) (tx : TxBlock) : HistoryRecord :=
  let objectChanges := tb_effectChanges tx in
  let isReceived := negb (bool_decide (tb_sender tx = Some owner)) in
  let sender :=
    if isReceived then
      Some (match tb_sender tx with
            | Some a => if truthy a then a else "Unknown"
            | None => "Unknown"
            end)
    else None in
  let createdObjects :=
    filter (fun change =>
              String.eqb (ec_type change) "created"
              && match ec_objectType change with
                 | Some t => includes (chars "Coin") (chars t)
                 | None => false
                 end = true) objectChanges in
  let transferredObjects :=
    filter (fun change => String.eqb (ec_type change) "transferred" = true)
      objectChanges in
  let recipient :=
    if isReceived then None
    else match transferredObjects with
         | first :: _ =>
             Some (match ec_owner first with
                   | Some o => if truthy o then o else "Unknown"
                   | None => "Unknown"
                   end)
         | [] => None
         end in
  let amount0 :=
    if isReceived then
      match createdObjects with [] => "0" | _ => "1.000" end
    else
      match transferredObjects with [] => "0" | _ => "0.100" end in
  let amount :=
    match tb_inputAmount tx with
    | Some amountInMist => toFixed 6 (div (ofBigInt amountInMist) billion)
    | None => amount0
    end in
  {| hr_id := tb_digest tx;
     hr_type := if isReceived then "Received" else "Sent";
     hr_amount := amount;
     hr_date := toLocaleDateString lib (default 0 (tb_timestampMs tx));
     hr_status :=
       match tb_status tx with
       | Some st => if String.eqb st "success" then "Success" else "Failed"
       | None => "Failed"
       end;
     hr_recipient := recipient;
     hr_sender := sender |}.

(** The record returned when the history query fails. *)
Definition mockFaucetRecord (now : Z) : HistoryRecord :=
  {| hr_id := "mock_faucet_tx"; hr_type := "Received"; hr_amount := "1.000";
     hr_date := toLocaleDateString lib now; hr_status := "Success";
     hr_recipient := None; hr_sender := Some "Testnet Faucet" |}.

(** [getTransactionHistory()] at clock reading [now]. *)
Definition getTransactionHistory (now : Z) : Method (list HistoryRecord) :=
  tryCatch
    (let* s := get in
     match address s with
     | None => ret []
     | Some owner =>
         let* txHistory :=
           request (CallQuery (FromOrToAddress owner))
             (fun n => queryTransactionBlocks ledger n (FromOrToAddress owner)) in
         ret (map (processTx owner) txHistory)
     end)
    (fun _ =>
       do* consoleError "Failed to get real transaction history" in
       ret [mockFaucetRecord now]).
End Service.
End ZkLogin.

(* ===================================================================== *)
(** ** [HybridWalletService]: a key derived from the identity *)
(* ===================================================================== *)

Module Hybrid.
Import JsString JsNumber Effects Browser.
Local Open Scope Z_scope.
Local Open Scope js_scope.

Record Service := {
  keypair : option Keypair;
  user : option User;
  walletAddress : option string;
  sessionExpiry : option Z;
  storage : Storage
}.

(** The object [saveSession] serialises and [restoreSession] reads;
    the expiry keeps apart a missing field and [null], the other
    fields read both as [None]. *)
Record SessionData := {
  sd_privateKey : option string;
  sd_user : option User;
  sd_walletAddress : option string;
  sd_sessionExpiry : Expiry
}.

Record UserData := {
  u_sub : jsval;
  u_id : jsval;
  u_email : jsval;
  u_login : jsval;
  u_name : jsval;
  u_picture : jsval;
  u_provider : Provider
}.

(** Built-ins and library functions the service calls. [secretKeyBytes]
    is [Buffer.from(keypair.getSecretKey())]; [bufferFromHex] is
    [Buffer.from(text, "hex")], [None] when it throws; [builder] is the
    SDK's transaction builder. *)
Record Library := {
  builder : Builder;
  stringifySession : SessionData -> string;
  parseSession : string -> option SessionData;
  decodeToken : string -> outcome Claim;
  secretKeyBytes : Keypair -> bytes;
  toSuiAddress : Keypair -> string;
  bufferToHex : bytes -> string;
  bufferFromHex : option string -> outcome bytes;
  toLocaleDateString : Z -> string
}.

Definition newService (sto : Storage) : Service :=
  {| keypair := None; user := None; walletAddress := None;
     sessionExpiry := None; storage := sto |}.

Definition sessionKey : string := "hybrid_wallet_session".

Definition msgNoProvider : string := "No provider information found in session".
Definition msgUnsupported (p : string) : string := "Unsupported provider: " +:+ p.
Definition msgNotInitialized : string := "Wallet not initialized".
Definition msgNoMatch : string := "Cannot read properties of null (reading 'map')".
Definition msgNoSplit : string := "userData.email?.split is not a function".
Definition msgNoUser : string := "Cannot read properties of null (reading 'email')".

Inductive LoginResult :=
| LoginSuccess (address privateKey : string)
| LoginFailure (error : string).

Record HistoryRecord := {
  hr_id : string;
  hr_type : string;
  hr_amount : string;
  hr_date : string;
  hr_status : string
}.

Definition address (s : Service) : option string :=
  match walletAddress s with
  | Some a => if truthy a then Some a else None
  | None => None
  end.

(** *** Deterministic wallet generation *)

(** [Math.abs(hash).toString(16).padStart(16, "0").repeat(4).substring(0, 64)] *)
Definition seedOfHash (hash : Z) : string :=
  str (substring0 64 (repeatStr 4 (padStart0 16 (natDigits 16 (Z.abs hash))))).

Definition identityString (userData : UserData) (provider : string) : string :=
  provider +:+ "-" +:+ template (orElse (u_sub userData) (u_id userData))
    +:+ "-" +:+ template (u_email userData).

(** [createDeterministicSeed(userData, provider)] *)
Definition createDeterministicSeed (userData : UserData) (provider : string) : string :=
  seedOfHash (hashUnits (units (identityString userData provider))).

(** [seed.match(/.{1,2}/g)]: greedy runs of one or two characters that
    are not line terminators. *)
Fixpoint matchPairs (s : list ascii) : list (list ascii) :=
  match s with
  | [] => []
  | a :: rest =>
      if isLineTerminator a then matchPairs rest
      else
        match rest with
        | [] => [[a]]
        | b :: rest' =>
            if isLineTerminator b then [a] :: matchPairs rest'
            else [a; b] :: matchPairs rest'
        end
  end.

Fixpoint hexPrefixValue (acc : option Z) (s : list ascii) : option Z :=
  match s with
  | [] => acc
  | c :: r =>
      match hexValue c with
      | Some d => hexPrefixValue (Some (16 * default 0 acc + d)) r
      | None => acc
      end
  end.

(** [parseInt(text, 16)]; [None] is NaN. *)
Definition parseInt16 (text : list ascii) : option Z :=
  let s1 := dropWhile isWhiteSpace text in
  let '(neg, s2) :=
    match s1 with
    | c :: r =>
        if Ascii.eqb c "-" then (true, r)
        else if Ascii.eqb c "+" then (false, r) else (false, s1)
    | [] => (false, s1)
    end in
  let s3 :=
    match s2 with
    | z :: x :: r =>
        if Ascii.eqb z "0" && (Ascii.eqb x "x" || Ascii.eqb x "X") then r else s2
    | _ => s2
    end in
  match hexPrefixValue None s3 with
  | Some v => Some (if neg then - v else v)
  | None => None
  end.

(** An element stored into a [Uint8Array]. *)
Definition toUint8 (v : option Z) : Z := default 0 v mod 256.

(** The 32 bytes [privateKey[i] = seedBytes[i % seedBytes.length]]. *)
Definition cycle32 (seedBytes : list Z) : list Z :=
  map (fun i => nth (i mod length seedBytes)%nat seedBytes 0) (seq 0 32).

(** [createKeypairFromSeed(seed)] *)
Definition createKeypairFromSeed (seed : string) : outcome Keypair :=
  match matchPairs (chars seed) with
  | [] => Throws msgNoMatch
  | pairs =>
      let seedBytes := map (fun byte => toUint8 (parseInt16 byte)) pairs in
      fromSecretKey (cycle32 seedBytes)
  end.

(** [normalizeUserData(userData, provider)] *)
Definition normalizeUserData (userData : Claim) (provider : string) : outcome UserData :=
  match providerOf provider with
  | Some github =>
      Returns {| u_sub := orElse (c_sub userData) (optToString (c_id userData));
                 u_id := c_id userData;
                 u_email := c_email userData;
                 u_login := c_login userData;
                 u_name := c_name userData;
                 u_picture := c_avatar_url userData;
                 u_provider := github |}
  | Some google =>
      match c_email userData with
      | JNum _ => Throws msgNoSplit
      | e =>
          Returns {| u_sub := c_sub userData;
                     u_id := c_sub userData;
                     u_email := c_email userData;
                     u_login :=
                       match e with
                       | JStr s => JStr (str (beforeAt (chars s)))
                       | _ => JUndefined
                       end;
                     u_name := c_name userData;
                     u_picture := c_picture userData;
                     u_provider := google |}
      end
  | None => Throws (msgUnsupported provider)
  end.

(** *** History reconciliation *)

(** [l.findIndex(p)]; [None] is -1. *)
Fixpoint findIndex {A} (p : A -> bool) (l : list A) : option nat :=
  match l with
  | [] => None
  | x :: r => if p x then Some O else option_map S (findIndex p r)
  end.

(** [l.filter((x, index) => p(x, index))], the indices starting at [i]. *)
Fixpoint filterFrom {A} (p : A -> nat -> bool) (i : nat) (l : list A) : list A :=
  match l with
  | [] => []
  | x :: r => if p x i then x :: filterFrom p (S i) r else filterFrom p (S i) r
  end.

(** [allTxs.filter((tx, index, self) =>
      index === self.findIndex((t) => t.digest === tx.digest))] *)
Definition uniqueTxs (allTxs : list TxBlock) : list TxBlock :=
  filterFrom
    (fun tx index =>
       bool_decide
         (findIndex (fun t => String.eqb (tb_digest t) (tb_digest tx)) allTxs
          = Some index))
    O allTxs.

Definition isNaN (x : number) : bool :=
  match x with S754_nan => true | _ => false end.

(** The loop of [extractAmount] over [tx.objectChanges]. *)
Fixpoint extractFrom (changes : list TopChange) : string :=
  match changes with
  | [] => "0"
  | change :: rest =>
      if String.eqb (tc_type change) "TransferObject" then
        match tc_dataType change with
        | None => extractFrom rest
        | Some t =>
            if includes (chars "coin::Coin") (chars t) then
              match tc_balance change with
              | Some amountNum =>
                  if isNaN amountNum then extractFrom rest
                  else toFixed 9 (div amountNum billion)
              | None => extractFrom rest
              end
            else extractFrom rest
        end
      else extractFrom rest
  end.

(** [extractAmount(tx)] *)
Definition extractAmount (tx : TxBlock) : string :=
  match tb_objectChanges tx with
  | None => "0"
  | Some changes => extractFrom changes
  end.

Inductive SendResult :=
| SendSuccess (txId gasUsed : string)
| SendFailure (error : string).

Section Service.
Context (lib : Library) (ledger : Ledger).

Abbreviation Method := (M Service).

(** [logout()] *)
Definition logout : Method unit :=
  let* s := get in
  put {| keypair := None; user := None; walletAddress := None;
         sessionExpiry := None;
         storage := clearSession (removeLocal sessionKey (storage s)) |}.

(** [saveSession()] *)
Definition saveSession : Method unit :=
  let* s := get in
  match keypair s, user s with
  | Some kp, Some _ =>
      let sessionData :=
        {| sd_privateKey := Some (bufferToHex lib (secretKeyBytes lib kp));
           sd_user := user s;
           sd_walletAddress := walletAddress s;
           sd_sessionExpiry := expiryOf (sessionExpiry s) |} in
      put {| keypair := keypair s; user := user s;
             walletAddress := walletAddress s;
             sessionExpiry := sessionExpiry s;
             storage := setLocal sessionKey (stringifySession lib sessionData)
                          (storage s) |}
  | _, _ => ret tt
  end.

(** [keypair.getPublicKey().toSuiAddress()] *)
Definition walletAddressOf (kp : Keypair) : string := toSuiAddress lib kp.

(** The wallet of an identity: the key pair made from its seed and
    the address of that key pair. *)
Definition deterministicWallet (userData : UserData) (provider : string)
    : outcome (Keypair * string) :=
  match createKeypairFromSeed (createDeterministicSeed userData provider) with
  | Returns kp => Returns (kp, walletAddressOf kp)
  | Throws message => Throws message
  end.

(** [handleOAuthCallback(userToken)] at clock reading [now]. *)
Definition handleOAuthCallback (userToken : string) (now : Z) : Method LoginResult :=
  tryCatch
    (let* s := get in
     match getTruthy (sessionStorage (storage s)) "oauth_provider" with
     | None => throw msgNoProvider
     | Some provider =>
         let* userData := lift (decodeToken lib userToken) in
         let* normalizedUserData := lift (normalizeUserData userData provider) in
         let deterministicSeed := createDeterministicSeed normalizedUserData provider in
         let* kp := lift (createKeypairFromSeed deterministicSeed) in
         let addr := walletAddressOf kp in
         do* put {| keypair := Some kp;
                    user := Some {| email := u_email normalizedUserData;
                                    loginTime := now;
                                    provider := u_provider normalizedUserData;
                                    login := u_login normalizedUserData;
                                    name := u_name normalizedUserData;
                                    picture := u_picture normalizedUserData |};
                    walletAddress := Some addr;
                    sessionExpiry := Some (now + 24 * 60 * 60 * 1000);
                    storage := storage s |} in
         do* saveSession in
         ret (LoginSuccess addr (bufferToHex lib (secretKeyBytes lib kp)))
     end)
    (fun message =>
       do* consoleError "OAuth callback failed" in
       ret (LoginFailure message)).

(** [restoreSession()] at clock reading [now]. *)
Definition restoreSession (now : Z) : Method bool :=
  tryCatch
    (let* s := get in
     match getTruthy (localStorage (storage s)) sessionKey with
     | None => ret false
     | Some data =>
         match parseSession lib data with
         | None => throw "SyntaxError"
         | Some session =>
             if expired now (sd_sessionExpiry session) then
               do* logout in ret false
             else
               let* keyBytes := lift (bufferFromHex lib (sd_privateKey session)) in
               let* kp := lift (fromSecretKey (firstn 32 keyBytes)) in
               do* put {| keypair := Some kp;
                          user := sd_user session;
                          walletAddress := Some (walletAddressOf kp);
                          sessionExpiry := expiryValue (sd_sessionExpiry session);
                          storage := storage s |} in
               match sd_user session with
               | Some _ => ret true
               | None => throw msgNoUser
               end
         end
     end)
    (fun _ =>
       do* consoleError "Failed to restore session" in
       ret false).

(** [getBalance()] *)
Definition getBalance : Method string :=
  tryCatch
    (let* s := get in
     match address s with
     | None => ret "0"
     | Some owner =>
         let* totalBalance :=
           request (CallGetBalance owner) (fun n => Effects.getBalance ledger n owner) in
         ret (toFixed 6 (div (ofBigInt totalBalance) billion))
     end)
    (fun _ => do* consoleError "Failed to get balance" in ret "0").

(** [sendTransaction(recipient, amount)] *)
Definition sendTransaction (recipient amount : string) : Method SendResult :=
  tryCatch
    (let* s := get in
     match keypair s, address s with
     | Some kp, Some _ =>
         match floorToBigInt (mul (parseFloat amount) billion) with
         | None => throw (ZkLogin.msgNotAnInteger (mul (parseFloat amount) billion))
         | Some amountInMist =>
             let* cmds :=
               lift (addCommands (builder lib)
                       [ SplitCoins GasCoin [amountInMist];
                         TransferObjects [NestedResult 0 0] recipient ]) in
             let tx := {| commands := cmds;
                          sender := None; gasPrice := None; gasBudget := None |} in
             let* res := request (CallSignAndExecute kp tx)
                           (fun n => signAndExecuteTransaction ledger n kp tx) in
             match status res with
             | Some st =>
                 if String.eqb st "success"
                 then ret (SendSuccess (digest res) (ZkLogin.totalGas (gasUsed res)))
                 else throw (ZkLogin.msgTransactionFailed (error res))
             | None => throw (ZkLogin.msgTransactionFailed (error res))
             end
         end
     | _, _ => throw msgNotInitialized
     end)
    (fun message =>
       do* consoleError "Real transaction failed" in
       ret (SendFailure message)).

(** The record built for one transaction block. *)
Definition historyRecord (owner : string) (tx : TxBlock) : HistoryRecord :=
  {| hr_id := tb_digest tx;
     hr_type := if bool_decide (tb_sender tx = Some owner) then "Sent" else "Received";
     hr_amount := extractAmount tx;
     hr_date := toLocaleDateString lib (default 0 (tb_timestampMs tx));
     hr_status :=
       match tb_status tx with
       | Some st => if String.eqb st "success" then "Success" else "Failed"
       | None => "Failed"
       end |}.

(** The merge, deduplication and classification of
    [getTransactionHistory], from the two query results. *)
Definition reconcile (owner : string) (sent received : list TxBlock)
    : list HistoryRecord :=
  let allTxs := sent ++ received in
  map (historyRecord owner) (uniqueTxs allTxs).

(** [getTransactionHistory()] *)
Definition getTransactionHistory : Method (list HistoryRecord) :=
  tryCatch
    (let* s := get in
     match address s with
     | None => ret []
     | Some owner =>
         let* sent :=
           request (CallQuery (FromAddress owner))
             (fun n => queryTransactionBlocks ledger n (FromAddress owner)) in
         let* received :=
           request (CallQuery (ToAddress owner))
             (fun n => queryTransactionBlocks ledger n (ToAddress owner)) in
         ret (reconcile owner sent received)
     end)
    (fun _ =>
       do* consoleError "Failed to get transaction history" in
       ret []).
End Service.
End Hybrid.

(* ===================================================================== *)
(** ** Reference definitions and runs of the services *)
(* ===================================================================== *)

Module Reference.
Import JsString JsNumber Effects Browser.
Local Open Scope Z_scope.

(** The balance of an address as the data model defines it: the sum of
    the balances of its coins. *)
Fixpoint totalBalance (coins : list Coin) : Z :=
  match coins with
  | [] => 0
  | coin :: rest => balance coin + totalBalance rest
  end.

(** Deduplication by transaction id that keeps the first occurrence:
    a block is dropped when its id was [seen] before. *)
Fixpoint keepFirst (seen : list string) (txs : list TxBlock) : list TxBlock :=
  match txs with
  | [] => []
  | tx :: rest =>
      if bool_decide (tb_digest tx ∈ seen) then keepFirst seen rest
      else tx :: keepFirst (seen ++ [tb_digest tx]) rest
  end.

(** The same ledger with another answer to the epoch query. *)
Definition withEpoch (epoch : nat -> outcome Z) (l : Ledger) : Ledger :=
  {| getCoins := getCoins l;
     getBalance := getBalance l;
     getLatestSuiSystemState := epoch;
     getReferenceGasPrice := getReferenceGasPrice l;
     build := build l;
     executeTransactionBlock := executeTransactionBlock l;
     signAndExecuteTransaction := signAndExecuteTransaction l;
     queryTransactionBlocks := queryTransactionBlocks l |}.

(** The same session with another [maxEpoch]. *)
Definition withMaxEpoch (maxEpoch : option Z) (s : ZkLogin.Service) : ZkLogin.Service :=
  {| ZkLogin.user := ZkLogin.user s;
     ZkLogin.walletAddress := ZkLogin.walletAddress s;
     ZkLogin.ephemeralKeyPair := ZkLogin.ephemeralKeyPair s;
     ZkLogin.zkProof := ZkLogin.zkProof s;
     ZkLogin.userSalt := ZkLogin.userSalt s;
     ZkLogin.maxEpoch := maxEpoch;
     ZkLogin.sessionExpiry := ZkLogin.sessionExpiry s;
     ZkLogin.storage := ZkLogin.storage s |}.

(** The same library, except that [getZkLoginSignature] is handed
    [maxEpoch] whatever the caller passes. *)
Definition signingAt (maxEpoch : option Z) (lib : ZkLogin.Library) : ZkLogin.Library :=
  {| ZkLogin.builder := ZkLogin.builder lib;
     ZkLogin.clientId := ZkLogin.clientId lib;
     ZkLogin.stringifySession := ZkLogin.stringifySession lib;
     ZkLogin.parseSession := ZkLogin.parseSession lib;
     ZkLogin.secretKeyJson := ZkLogin.secretKeyJson lib;
     ZkLogin.parseKeyArray := ZkLogin.parseKeyArray lib;
     ZkLogin.decodeToken := ZkLogin.decodeToken lib;
     ZkLogin.generateNonce := ZkLogin.generateNonce lib;
     ZkLogin.jwtToAddress := ZkLogin.jwtToAddress lib;
     ZkLogin.genAddressSeed := ZkLogin.genAddressSeed lib;
     ZkLogin.btoa := ZkLogin.btoa lib;
     ZkLogin.jwtHeader := ZkLogin.jwtHeader lib;
     ZkLogin.sign := ZkLogin.sign lib;
     ZkLogin.getZkLoginSignature :=
       fun proof _ userSignature => ZkLogin.getZkLoginSignature lib proof maxEpoch userSignature;
     ZkLogin.toLocaleDateString := ZkLogin.toLocaleDateString lib |}.

Definition isByte (b : Z) : Prop := 0 <= b < 256.

(** The [k] hexadecimal digits of [n], most significant first, zeros
    included. *)
Fixpoint hexFixed (k : nat) (n : Z) : list ascii :=
  match k with
  | O => []
  | S k' => hexFixed k' (n / 16) ++ [digitChar (n mod 16)]
  end.

(** Eight bytes: four zeros and the four bytes of [n], most significant
    first. *)
Definition hashBlock (n : Z) : list Z :=
  [0; 0; 0; 0; n / 2 ^ 24 mod 256; n / 2 ^ 16 mod 256; n / 2 ^ 8 mod 256; n mod 256].

(** What [getBalance] makes of the answer to its coin query: the total
    as a double, divided by 10^9 and printed with six decimals, or "0"
    when the query threw. *)
Definition reportedBalance (answer : outcome (list Coin)) : string :=
  match answer with
  | Returns coins => toFixed 6 (div (ofBigInt (ZkLogin.sumBalances coins)) billion)
  | Throws _ => "0"
  end.

(** The events after [getBalance] put its coin query for [owner]. *)
Definition afterBalance (owner : string) (answer : outcome (list Coin))
    (ev : Events) : Events :=
  {| calls := calls ev ++ [CallGetCoins owner];
     console := match answer with
                | Returns _ => console ev
                | Throws _ => console ev ++ ["Failed to get balance"]
                end |}.

(** The ledger calls one [sendTransaction] may add, in their order: the
    coin query of the balance, the coin query of the selection, the gas
    price, the build and the execution; a send may stop after any of
    them. *)
Definition sendPipeline (new : list Call) : bool :=
  match new with
  | [] => true
  | [CallGetCoins _] => true
  | [CallGetCoins o; CallGetCoins o'] => String.eqb o o'
  | [CallGetCoins o; CallGetCoins o'; CallGasPrice] => String.eqb o o'
  | [CallGetCoins o; CallGetCoins o'; CallGasPrice; CallBuild _] => String.eqb o o'
  | [CallGetCoins o; CallGetCoins o'; CallGasPrice; CallBuild _; CallExecute _ _] =>
      String.eqb o o'
  | _ => false
  end.

(** A Hoare triple for a method: from a state that satisfies [P] the
    method either returns [a] in a state that satisfies [Q a], or throws
    in a state that satisfies [E]. *)
Definition triple {S A} (P : S -> Prop) (m : M S A) (Q : A -> S -> Prop)
    (E : S -> Prop) : Prop :=
  forall s ev,
    P s ->
    match m s ev with
    | (Returns a, s', _) => Q a s'
    | (Throws _, s', _) => E s'
    end.

(** A property of the state that a method keeps whether it returns or
    throws. *)
Definition keeps {S A} (I : S -> Prop) (m : M S A) : Prop :=
  triple I m (fun _ => I) I.

(** A method whose own [try]/[catch] returns from every failure. *)
Definition neverThrows {S A} (m : M S A) : Prop :=
  triple (fun _ => True) m (fun _ _ => True) (fun _ => False).

(** A character the [.] of a regular expression accepts. *)
Definition plainChar (c : ascii) : Prop := isLineTerminator c = false.

(** The test of the deduplicating filter: the blocks with the digest of
    [tx]. *)
Definition sameDigest (tx : TxBlock) : TxBlock -> bool :=
  fun t => String.eqb (tb_digest t) (tb_digest tx).

(** A method that keeps every property of the state. *)
Definition readOnly {S A} (m : M S A) : Prop := forall I : S -> Prop, keeps I m.

(** The public operations of the proof-scheme service, with the values
    they draw from the clock, the random source and the user. *)
Inductive Op :=
| OpInitiateLogin (provider : Provider) (fresh : Keypair) (randomness : string) (now : Z)
| OpHandleOAuthCallback (userToken : string) (now draw : Z)
| OpRestoreSession (now : Z)
| OpLogout
| OpGetBalance
| OpSendTransaction (recipient amount : string)
| OpGetTransactionHistory (now : Z).

(** The operations that log a user in. *)
Definition isLogin (op : Op) : bool :=
  match op with
  | OpInitiateLogin _ _ _ _ | OpHandleOAuthCallback _ _ _ => true
  | _ => false
  end.

(** One operation as a method whose result is dropped. *)
Definition perform (lib : ZkLogin.Library) (ledger : Ledger) (op : Op)
    : M ZkLogin.Service unit :=
  match op with
  | OpInitiateLogin provider fresh randomness now =>
      bind (ZkLogin.initiateLogin lib ledger provider fresh randomness now) (fun _ => ret tt)
  | OpHandleOAuthCallback userToken now draw =>
      bind (ZkLogin.handleOAuthCallback lib userToken now draw) (fun _ => ret tt)
  | OpRestoreSession now => bind (ZkLogin.restoreSession lib now) (fun _ => ret tt)
  | OpLogout => ZkLogin.logout
  | OpGetBalance => bind (ZkLogin.getBalance ledger) (fun _ => ret tt)
  | OpSendTransaction recipient amount =>
      bind (ZkLogin.sendTransaction lib ledger recipient amount) (fun _ => ret tt)
  | OpGetTransactionHistory now =>
      bind (ZkLogin.getTransactionHistory lib ledger now) (fun _ => ret tt)
  end.

(** A sequence of operations, run one after the other; the state and the
    events they leave. *)
Fixpoint performAll (lib : ZkLogin.Library) (ledger : Ledger) (ops : list Op)
    (s : ZkLogin.Service) (ev : Events) : ZkLogin.Service * Events :=
  match ops with
  | [] => (s, ev)
  | op :: rest =>
      let r := perform lib ledger op s ev in
      performAll lib ledger rest (after r) (trace r)
  end.

(** The salt [localStorage] holds for a subject, if any. *)
Definition storedSalt (p : Provider) (sub : jsval) (s : ZkLogin.Service) : option string :=
  getTruthy (localStorage (ZkLogin.storage s)) (ZkLogin.saltKey p sub).

Definition saltIs (p : Provider) (sub : jsval) (salt : string) (s : ZkLogin.Service) : Prop :=
  storedSalt p sub s = Some salt.

Definition noEphemeralKey (s : ZkLogin.Service) : Prop :=
  ZkLogin.ephemeralKeyPair s = None.

(** The service after [logout()]: every field cleared, the session entry
    removed from [localStorage], [sessionStorage] emptied. *)
Definition loggedOut (s : ZkLogin.Service) : ZkLogin.Service :=
  {| ZkLogin.user := None; ZkLogin.walletAddress := None;
     ZkLogin.ephemeralKeyPair := None; ZkLogin.zkProof := None;
     ZkLogin.userSalt := None; ZkLogin.maxEpoch := None;
     ZkLogin.sessionExpiry := None;
     ZkLogin.storage := clearSession (removeLocal ZkLogin.sessionKey (ZkLogin.storage s)) |}.

(** The service with the six fields of a persisted session reinstated;
    the ephemeral key pair and the storage stay as they were. *)
Definition reinstated (session : ZkLogin.SessionData) (s : ZkLogin.Service)
    : ZkLogin.Service :=
  {| ZkLogin.user := ZkLogin.sd_user session;
     ZkLogin.walletAddress := ZkLogin.sd_walletAddress session;
     ZkLogin.ephemeralKeyPair := ZkLogin.ephemeralKeyPair s;
     ZkLogin.zkProof := ZkLogin.sd_zkProof session;
     ZkLogin.userSalt := ZkLogin.sd_userSalt session;
     ZkLogin.maxEpoch := ZkLogin.sd_maxEpoch session;
     ZkLogin.sessionExpiry := expiryValue (ZkLogin.sd_sessionExpiry session);
     ZkLogin.storage := ZkLogin.storage s |}.

(** The direct-key service with a persisted session reinstated from the
    bytes its stored key decodes to. *)
Definition reinstatedHybrid (lib : Hybrid.Library) (session : Hybrid.SessionData)
    (keyBytes : bytes) (s : Hybrid.Service) : Hybrid.Service :=
  {| Hybrid.keypair := Some (firstn 32 keyBytes);
     Hybrid.user := Hybrid.sd_user session;
     Hybrid.walletAddress := Some (Hybrid.toSuiAddress lib (firstn 32 keyBytes));
     Hybrid.sessionExpiry := expiryValue (Hybrid.sd_sessionExpiry session);
     Hybrid.storage := Hybrid.storage s |}.

(** The direct-key service after its [logout()]. *)
Definition loggedOutHybrid (s : Hybrid.Service) : Hybrid.Service :=
  {| Hybrid.keypair := None; Hybrid.user := None; Hybrid.walletAddress := None;
     Hybrid.sessionExpiry := None;
     Hybrid.storage := clearSession (removeLocal Hybrid.sessionKey (Hybrid.storage s)) |}.
End Reference.

(* ===================================================================== *)
(** ** Concrete pages, libraries and ledgers *)
(* ===================================================================== *)

Module Scenarios.
Import JsString JsNumber Effects Browser Reference.
Local Open Scope Z_scope.

Definition emptyStorage : Storage := {| localStorage := ∅; sessionStorage := ∅ |}.

Definition coin (name : string) (mist : Z) : Coin :=
  {| coinObjectId := name; balance := mist |}.

Definition sui : Z := 1000000000.

Definition alice : string := "0xa11ce".
Definition bob : string := "0xb0b".

Definition someProof : ZkLogin.ZkProof :=
  {| ZkLogin.proofPoints_a := ["mock_proof_a_github"];
     ZkLogin.proofPoints_b := [["mock_proof_b_github"]];
     ZkLogin.proofPoints_c := ["mock_proof_c_github"];
     ZkLogin.issBase64Details_value := "aHR0cHM6Ly9naXRodWIuY29t";
     ZkLogin.issBase64Details_indexMod4 := 0;
     ZkLogin.headerBase64 := "e30";
     ZkLogin.addressSeed := "12345" |}.

Definition someKey : Keypair := repeat 7 32.

Definition someUser : User :=
  {| email := JStr "alice@example.org"; loginTime := 1000; provider := github;
     login := JStr "alice"; name := JNull; picture := JNull |}.

Definition sessionExpiring (expiry : Expiry) : ZkLogin.SessionData :=
  {| ZkLogin.sd_user := Some someUser;
     ZkLogin.sd_walletAddress := Some alice;
     ZkLogin.sd_sessionExpiry := expiry;
     ZkLogin.sd_userSalt := Some "42";
     ZkLogin.sd_zkProof := Some someProof;
     ZkLogin.sd_maxEpoch := Some 10 |}.


(** The text a scenario library writes for an expiry, and how it reads
    it back: "session:" and the digits for a number, "session:null"
    for [null], "session" alone when the field is missing. *)
Definition expiryText (expiry : Expiry) : string :=
  match expiry with
  | ExpiryAt time => "session:" +:+ bigintString time
  | ExpiryNull => "session:null"
  | ExpiryMissing => "session"
  end.

Definition expiryRead (text : string) : option Expiry :=
  if String.eqb text "session" then Some ExpiryMissing
  else if String.eqb text "session:null" then Some ExpiryNull
  else if startsWith (chars "session:") (chars text)
  then Some (ExpiryAt (digitsValue (skipn 8 (chars text))))
  else None.

(** A builder that refuses nothing further. *)
Definition plainBuilder : Builder :=
  {| splitCoins := fun _ _ => Returns tt;
     transferObjects := fun _ _ => Returns tt |}.

(** A library whose JSON reads the text of an expiry as
    [sessionExpiring] and nothing else, and whose signing functions
    succeed. *)
Definition zkLibDecoding (decoded : outcome Claim) : ZkLogin.Library :=
  {| ZkLogin.builder := plainBuilder;
     ZkLogin.clientId := fun _ => "client";
     ZkLogin.stringifySession := fun d => expiryText (ZkLogin.sd_sessionExpiry d);
     ZkLogin.parseSession :=
       fun text =>
         match expiryRead text with
         | Some expiry => Some (sessionExpiring expiry)
         | None => None
         end;
     ZkLogin.secretKeyJson := fun _ => "[7]";
     ZkLogin.parseKeyArray := fun _ => Returns someKey;
     ZkLogin.decodeToken := fun _ => decoded;
     ZkLogin.generateNonce := fun _ _ _ => Returns "nonce";
     ZkLogin.jwtToAddress := fun _ _ _ _ _ => Returns alice;
     ZkLogin.genAddressSeed := fun _ _ _ => Returns "12345";
     ZkLogin.btoa := fun t => t;
     ZkLogin.jwtHeader := "{}";
     ZkLogin.sign := fun _ _ => Returns [1; 2; 3];
     ZkLogin.getZkLoginSignature := fun _ _ _ => Returns "zk-signature";
     ZkLogin.toLocaleDateString := fun _ => "1/1/1970" |}.

(** The same library when no token can be decoded. *)
Definition zkLib : ZkLogin.Library := zkLibDecoding (Throws "SyntaxError").

(** What GitHub tells of Alice. *)
Definition aliceClaim : Claim :=
  {| c_sub := JUndefined; c_id := JNum 1001; c_email := JStr "alice@example.org";
     c_login := JStr "alice"; c_name := JStr "Alice";
     c_avatar_url := JStr "https://example.org/a.png"; c_picture := JUndefined |}.

Definition okResult : ExecResult :=
  {| digest := "digest"; status := Some "success"; error := None;
     gasUsed := {| computationCost := 1000000; storageCost := 2000000;
                   storageRebate := 500000 |} |}.

(** A ledger that holds [coins] for every owner, stands at [epoch], and
    answers an execution with [execution]. *)
Definition ledgerWith (coins : list Coin) (epoch : Z)
    (execution : outcome ExecResult) : Ledger :=
  {| getCoins := fun _ _ => Returns coins;
     getBalance := fun _ _ => Returns (ZkLogin.sumBalances coins);
     getLatestSuiSystemState := fun _ => Returns epoch;
     getReferenceGasPrice := fun _ => Returns 1000;
     build := fun _ _ => Returns [0; 1];
     executeTransactionBlock := fun _ _ _ => execution;
     signAndExecuteTransaction := fun _ _ _ => execution;
     queryTransactionBlocks := fun _ _ => Returns [] |}.

(** A ledger that answers the query for sent transactions with [sent]
    and the query for received ones with [received]. *)
Definition historyLedger (sent received : list TxBlock) : Ledger :=
  {| getCoins := fun _ _ => Returns [];
     getBalance := fun _ _ => Returns 0;
     getLatestSuiSystemState := fun _ => Returns 0;
     getReferenceGasPrice := fun _ => Returns 1000;
     build := fun _ _ => Returns [0; 1];
     executeTransactionBlock := fun _ _ _ => Throws "not used";
     signAndExecuteTransaction := fun _ _ _ => Throws "not used";
     queryTransactionBlocks :=
       fun _ filter =>
         match filter with
         | FromAddress _ => Returns sent
         | ToAddress _ => Returns received
         | FromOrToAddress _ => Returns (sent ++ received)
         end |}.

(** A ledger none of whose queries can be answered. *)
Definition offline : Ledger :=
  {| getCoins := fun _ _ => Throws "fetch failed";
     getBalance := fun _ _ => Throws "fetch failed";
     getLatestSuiSystemState := fun _ => Throws "fetch failed";
     getReferenceGasPrice := fun _ => Throws "fetch failed";
     build := fun _ _ => Throws "fetch failed";
     executeTransactionBlock := fun _ _ _ => Throws "fetch failed";
     signAndExecuteTransaction := fun _ _ _ => Throws "fetch failed";
     queryTransactionBlocks := fun _ _ => Throws "fetch failed" |}.

(** A proof-scheme service after a login, with [maxEpoch] 10. *)
Definition loggedIn : ZkLogin.Service :=
  {| ZkLogin.user := Some someUser;
     ZkLogin.walletAddress := Some alice;
     ZkLogin.ephemeralKeyPair := Some someKey;
     ZkLogin.zkProof := Some someProof;
     ZkLogin.userSalt := Some "42";
     ZkLogin.maxEpoch := Some 10;
     ZkLogin.sessionExpiry := Some 86400000;
     ZkLogin.storage := emptyStorage |}.

(** A page whose [localStorage] holds a proof-scheme session that expires
    at [expiry], and Alice's salt. *)
Definition pageWithSession (expiry : Z) : Storage :=
  {| localStorage :=
       <[ZkLogin.sessionKey := expiryText (ExpiryAt expiry)]>
         (<[ZkLogin.saltKey github (JStr "1001") := "42"]> ∅);
     sessionStorage := <["zklogin_provider" := "github"]> ∅ |}.

Definition hybridUser : Hybrid.UserData :=
  {| Hybrid.u_sub := JStr "1001"; Hybrid.u_id := JNum 1001;
     Hybrid.u_email := JStr "alice@example.org"; Hybrid.u_login := JStr "alice";
     Hybrid.u_name := JStr "Alice"; Hybrid.u_picture := JNull;
     Hybrid.u_provider := github |}.

(** The same identity with another display name and picture, and a
    subject given by the numeric id alone. *)
Definition hybridUserAgain : Hybrid.UserData :=
  {| Hybrid.u_sub := JUndefined; Hybrid.u_id := JNum 1001;
     Hybrid.u_email := JStr "alice@example.org"; Hybrid.u_login := JStr "alice";
     Hybrid.u_name := JStr "A. Liddell"; Hybrid.u_picture := JStr "https://example.org/a.png";
     Hybrid.u_provider := github |}.

Definition hybridSessionExpiring (expiry : Expiry) : Hybrid.SessionData :=
  {| Hybrid.sd_privateKey := Some "key";
     Hybrid.sd_user := Some someUser;
     Hybrid.sd_walletAddress := Some alice;
     Hybrid.sd_sessionExpiry := expiry |}.


(** A library for the direct-key service whose JSON reads the text of
    an expiry as [hybridSessionExpiring], and whose stored key decodes
    to 64 bytes. *)
Definition hybridLibDecoding (decoded : outcome Claim) : Hybrid.Library :=
  {| Hybrid.builder := plainBuilder;
     Hybrid.stringifySession := fun d => expiryText (Hybrid.sd_sessionExpiry d);
     Hybrid.parseSession :=
       fun text =>
         match expiryRead text with
         | Some expiry => Some (hybridSessionExpiring expiry)
         | None => None
         end;
     Hybrid.decodeToken := fun _ => decoded;
     Hybrid.secretKeyBytes := fun kp => kp ++ kp;
     Hybrid.toSuiAddress := fun _ => alice;
     Hybrid.bufferToHex := fun _ => "key";
     Hybrid.bufferFromHex :=
       fun text => match text with
                   | Some _ => Returns (someKey ++ someKey)
                   | None => Throws "TypeError"
                   end;
     Hybrid.toLocaleDateString := fun _ => "1/1/1970" |}.

Definition hybridLib : Hybrid.Library := hybridLibDecoding (Throws "SyntaxError").

Definition block (digest : string) (from : string) : TxBlock :=
  {| tb_digest := digest; tb_sender := Some from; tb_status := Some "success";
     tb_timestampMs := Some 0; tb_effectChanges := []; tb_objectChanges := None;
     tb_inputAmount := None |}.

Definition hybridService : Hybrid.Service :=
  {| Hybrid.keypair := Some someKey; Hybrid.user := Some someUser;
     Hybrid.walletAddress := Some alice; Hybrid.sessionExpiry := Some 86400000;
     Hybrid.storage := emptyStorage |}.

(** The page a provider redirects to after a proof-scheme login was
    started: provider and ephemeral key in [sessionStorage], and Alice's
    salt from an earlier login. *)
Definition callbackPage : Storage :=
  {| localStorage := <[ZkLogin.saltKey github (JStr "1001") := "42"]> ∅;
     sessionStorage :=
       <["zklogin_provider" := "github"]>
         (<["zklogin_ephemeral_keypair" := "[7]"]> ∅) |}.

(** The same for the direct-key service. *)
Definition oauthPage : Storage :=
  {| localStorage := ∅; sessionStorage := <["oauth_provider" := "github"]> ∅ |}.

End Scenarios.

(* ===================================================================== *)
(** ** Networks, address format and the faucet *)
(* ===================================================================== *)

Module Network.
Import JsString Browser.
Local Open Scope Z_scope.

(** [hay.includes(needle)] on strings. *)
Definition stringIncludes (hay needle : string) : bool :=
  includes (chars needle) (chars hay).

(** [process.env.NEXT_PUBLIC_SUI_RPC_URL || fallback]; [env] is the
    variable, absent as [None]. *)
Definition rpcUrlOf (env : option string) (fallback : string) : string :=
  match env with
  | Some url => if truthy url then url else fallback
  | None => fallback
  end.

Definition isHexDigit (c : ascii) : bool :=
  match hexValue c with
  | Some _ => true
  | None => false
  end.

(** [text.match(/^0x[a-fA-F0-9]{64}$/)] is not null. *)
Definition isSuiAddress (text : string) : bool :=
  match chars text with
  | zero :: x :: digits =>
      Ascii.eqb zero "0" && Ascii.eqb x "x"
      && (length digits =? 64)%nat && forallb isHexDigit digits
  | _ => false
  end.

(** The network methods of [MultiProviderZkLoginService], on the
    resolved RPC URL. *)
Module Zk.
Definition isTestnet (rpcUrl : string) : bool :=
  stringIncludes rpcUrl "testnet" || stringIncludes rpcUrl "fullnode.testnet.sui.io".

Definition isDevnet (rpcUrl : string) : bool :=
  stringIncludes rpcUrl "devnet" || stringIncludes rpcUrl "fullnode.devnet.sui.io".

Definition getNetworkName (rpcUrl : string) : string :=
  if isTestnet rpcUrl then "Testnet"
  else if isDevnet rpcUrl then "Devnet"
  else "Mainnet".

Definition isFaucetAvailable (rpcUrl : string) : bool :=
  isTestnet rpcUrl || isDevnet rpcUrl.
End Zk.

(** The network methods of [HybridWalletService]. *)
Module Direct.
Definition isDevnet (rpcUrl : string) : bool := stringIncludes rpcUrl "devnet".

Definition isTestnet (rpcUrl : string) : bool := stringIncludes rpcUrl "testnet".

Definition getNetworkName (rpcUrl : string) : string :=
  if isTestnet rpcUrl then "Testnet"
  else if isDevnet rpcUrl then "Devnet"
  else "Mainnet".

Definition isFaucetAvailable (rpcUrl : string) : bool :=
  isTestnet rpcUrl || isDevnet rpcUrl.
End Direct.
End Network.

Module Faucet.
Import JsString JsNumber Effects Browser Network.
Local Open Scope Z_scope.
Local Open Scope js_scope.

(** What the faucet hands back, as far as the clients read it:
    [result.transferredGasObjects?.[0]?.id], [result.task],
    [result.digest] and [result.id], each undefined, null, a string or
    a number. *)
Record Payload := {
  p_gasObjectId : jsval;
  p_task : jsval;
  p_digest : jsval;
  p_id : jsval
}.

(** The JSON body of a reply of [/api/faucet]; [b_success] is whether
    [data.success] is truthy, and [b_result] is [None] when
    [data.result] is absent, null or without fields. *)
Record Body := {
  b_success : bool;
  b_error : jsval;
  b_result : option Payload;
  b_method : jsval
}.

Inductive Json :=
| JsonNull
| JsonObject (body : Body).

(** A reply as [fetch] resolves it; [r_json] is what [response.json()]
    gives. *)
Record Response := {
  r_ok : bool;
  r_status : Z;
  r_json : outcome Json
}.

Inductive FaucetResult :=
| FaucetSuccess (txId : jsval) (amount : string)
| FaucetFailure (error : string).

Definition msgNoWallet : string := "No wallet address available".
Definition msgFaucetUnavailable (network : string) : string :=
  "Faucet is only available on testnet or devnet. Current network: " +:+ network.
Definition msgInvalidFormat : string := "Invalid wallet address format".
Definition msgRateLimit : string :=
  "Rate limit exceeded. Please wait before requesting again.".
Definition msgInvalidFormat400 : string := "Invalid wallet address format.".
Definition msgUnknownServerError : string := "Unknown server error".
Definition msgServerError (status : Z) : string := "Server error: " +:+ decimal status.
Definition msgReadOfNull (field : string) : string :=
  "Cannot read properties of null (reading '" +:+ field +:+ "')".

Definition msgTooManyRequests : string :=
  "Too many requests. Please wait a few minutes before trying again.".
Definition msgCheckWallet : string :=
  "Invalid wallet address. Please check your wallet setup.".
Definition msgConnection : string :=
  "Network connection issue. Please check your internet and try again.".
Definition msgFailedToGet (errorMessage : string) : string :=
  "Failed to get SUI: " +:+ errorMessage.

(** [value || fallback] read as the message of [new Error(...)]. *)
Definition messageOr (value : jsval) (fallback : string) : string :=
  if truthyVal value then template value else fallback.

Definition resultField (field : Payload -> jsval) (b : Body) : jsval :=
  match b_result b with
  | Some p => field p
  | None => JUndefined
  end.

(** The requests posted to [/api/faucet], oldest first: the address
    each one carried. *)
Definition Posts := list string.

(** [await fetch("/api/faucet", { method: "POST", body: { address } })] *)
Definition post (fetch : string -> outcome Response) (address : string)
    : M Posts Response :=
  fun posted ev => (fetch address, posted ++ [address], ev).

(** The [catch] of the proof-based [requestFaucetSui]: the message
    shown for a failure. *)
Definition explain (errorMessage : string) : string :=
  if stringIncludes errorMessage "rate limit" || stringIncludes errorMessage "429"
  then msgTooManyRequests
  else if stringIncludes errorMessage "address" || stringIncludes errorMessage "400"
  then msgCheckWallet
  else if stringIncludes errorMessage "fetch" || stringIncludes errorMessage "network"
  then msgConnection
  else msgFailedToGet errorMessage.

(** [requestFaucetSui()] of [MultiProviderZkLoginService], for a service
    whose wallet address is [walletAddress] in a build whose RPC URL is
    [rpcUrl]. *)
Definition requestFaucetSuiZk (rpcUrl : string) (fetch : string -> outcome Response)
    (walletAddress : option string) : M Posts FaucetResult :=
  tryCatch
    (match walletAddress with
     | None => throw msgNoWallet
     | Some address =>
         if negb (truthy address) then throw msgNoWallet
         else if negb (Zk.isFaucetAvailable rpcUrl)
         then throw (msgFaucetUnavailable (Zk.getNetworkName rpcUrl))
         else if negb (isSuiAddress address) then throw msgInvalidFormat
         else
           let* response := post fetch address in
           if negb (r_ok response) then
             let errorData :=
               match r_json response with
               | Returns data => data
               | Throws _ =>
                   JsonObject {| b_success := false; b_error := JStr msgUnknownServerError;
                                 b_result := None; b_method := JUndefined |}
               end in
             match errorData with
             | JsonNull => throw (msgReadOfNull "error")
             | JsonObject body =>
                 let errorMessage :=
                   messageOr (b_error body) (msgServerError (r_status response)) in
                 do* consoleError "Server responded with error" in
                 if r_status response =? 429 then throw msgRateLimit
                 else if r_status response =? 400 then throw msgInvalidFormat400
                 else throw errorMessage
             end
           else
             let* data := lift (r_json response) in
             match data with
             | JsonNull => throw (msgReadOfNull "success")
             | JsonObject body =>
                 if b_success body then
                   let txId :=
                     orElse (resultField p_gasObjectId body)
                       (orElse (resultField p_task body)
                          (orElse (resultField p_digest body)
                             (orElse (resultField p_id body)
                                (JStr (template (b_method body) +:+ "-success"))))) in
                   ret (FaucetSuccess txId "1.0")
                 else throw (messageOr (b_error body) msgUnknownServerError)
             end
     end)
    (fun errorMessage =>
       do* consoleError "Faucet request failed" in
       ret (FaucetFailure (explain errorMessage))).

(** [requestFaucetSui()] of [HybridWalletService]. *)
Definition requestFaucetSuiDirect (fetch : string -> outcome Response)
    (walletAddress : option string) : M Posts FaucetResult :=
  tryCatch
    (match walletAddress with
     | None => throw msgNoWallet
     | Some address =>
         if negb (truthy address) then throw msgNoWallet
         else
           let* response := post fetch address in
           if negb (r_ok response) then
             let errorData :=
               match r_json response with
               | Returns data => data
               | Throws _ =>
                   JsonObject {| b_success := false; b_error := JStr "Server error";
                                 b_result := None; b_method := JUndefined |}
               end in
             match errorData with
             | JsonNull => throw (msgReadOfNull "error")
             | JsonObject body =>
                 throw (messageOr (b_error body) (msgServerError (r_status response)))
             end
           else
             let* data := lift (r_json response) in
             match data with
             | JsonNull => throw (msgReadOfNull "success")
             | JsonObject body =>
                 if b_success body then
                   ret (FaucetSuccess
                          (orElse (resultField p_gasObjectId body) (JStr "faucet-success"))
                          "1.0")
                 else throw (messageOr (b_error body) "Faucet request failed")
             end
     end)
    (fun errorMessage =>
       do* consoleError "Faucet failed" in
       ret (FaucetFailure errorMessage)).
End Faucet.

(* ===================================================================== *)
(** ** The server routes *)
(* ===================================================================== *)

Module FaucetRoute.
Import JsString JsNumber Effects Browser Network Faucet.
Local Open Scope Z_scope.
Local Open Scope js_scope.

(** What [request.json()] gives: [null], or a value whose [address]
    field is read ([JUndefined] when it has none). *)
Inductive RequestJson :=
| RequestNull
| RequestObject (address : jsval).

(** A reply of the faucet service itself. *)
Record DirectResponse := {
  d_ok : bool;
  d_status : Z;
  d_text : outcome string;
  d_json : outcome (option Payload)
}.

(** What the route reaches for: [requestSuiFromFaucetV2] of the SDK
    for a network and a recipient (the import of the module included),
    and [fetch] of a faucet URL for a recipient. *)
Record Upstream := {
  sdk : string -> string -> outcome (option Payload);
  direct : string -> string -> outcome DirectResponse
}.

Inductive RouteCall :=
| CallSdk (network recipient : string)
| CallDirect (url recipient : string).

Record RouteBody := {
  rb_success : bool;
  rb_error : option string;
  rb_result : option Payload;
  rb_method : option string;
  rb_network : option string
}.

Record RouteResponse := { rr_status : Z; rr_body : RouteBody }.

Definition devnetRpc : string := "https://fullnode.devnet.sui.io:443".
Definition devnetFaucet : string := "https://faucet.devnet.sui.io/v2/gas".
Definition testnetFaucet : string := "https://faucet.testnet.sui.io/v2/gas".

Definition msgInvalidAddress : string := "Invalid address format".
Definition msgDestructure : string :=
  "Cannot destructure property 'address' of '(intermediate value)' as it is null.".
Definition msgNoMatchMethod : string := "address.match is not a function".
Definition msgFaucetApi (status : Z) (errorText : string) : string :=
  "Faucet API error: " +:+ decimal status +:+ " - " +:+ errorText.

Definition refusal (status : Z) (message : string) : RouteResponse :=
  {| rr_status := status;
     rr_body := {| rb_success := false; rb_error := Some message; rb_result := None;
                   rb_method := None; rb_network := None |} |}.

Definition granted (result : option Payload) (method network : string) : RouteResponse :=
  {| rr_status := 200;
     rr_body := {| rb_success := true; rb_error := None; rb_result := result;
                   rb_method := Some method; rb_network := Some network |} |}.

Definition callSdk (up : Upstream) (network recipient : string)
    : M (list RouteCall) (option Payload) :=
  fun made ev => (sdk up network recipient, made ++ [CallSdk network recipient], ev).

Definition callDirect (up : Upstream) (url recipient : string)
    : M (list RouteCall) DirectResponse :=
  fun made ev => (direct up url recipient, made ++ [CallDirect url recipient], ev).

(** The route once the address has passed the format check. *)
Definition serve (env : option string) (up : Upstream) (address : string)
    : M (list RouteCall) RouteResponse :=
  let rpcUrl := rpcUrlOf env devnetRpc in
  let isDevnet := stringIncludes rpcUrl "devnet" in
  tryCatch
    (let network := if isDevnet then "devnet" else "testnet" in
     let* result := callSdk up network address in
     ret (granted result "sdk" network))
    (fun _ =>
       let faucetUrl := if isDevnet then devnetFaucet else testnetFaucet in
       let* faucetResponse := callDirect up faucetUrl address in
       if negb (d_ok faucetResponse) then
         let* errorText := lift (d_text faucetResponse) in
         do* consoleError "Server: Direct API failed" in
         if d_status faucetResponse =? 429 then ret (refusal 429 msgRateLimit)
         else throw (msgFaucetApi (d_status faucetResponse) errorText)
       else
         let* result := lift (d_json faucetResponse) in
         ret (granted result "direct" (if isDevnet then "devnet" else "testnet"))).

(** [POST(request)] of [/api/faucet]. *)
Definition POST (env : option string) (up : Upstream) (requestJson : outcome RequestJson)
    : M (list RouteCall) RouteResponse :=
  tryCatch
    (let* parsed := lift requestJson in
     match parsed with
     | RequestNull => throw msgDestructure
     | RequestObject address =>
         let invalid :=
           do* consoleError "Server: Invalid address format" in
           ret (refusal 400 msgInvalidAddress) in
         match address with
         | JStr text =>
             if truthy text && isSuiAddress text then serve env up text else invalid
         | JNum n => if n =? 0 then invalid else throw msgNoMatchMethod
         | JUndefined | JNull => invalid
         end
     end)
    (fun message =>
       do* consoleError "Server: Faucet request failed" in
       ret (refusal 500 message)).

(** An address the format check of [POST] refuses: a falsy value, or a
    string that is not 0x and 64 hexadecimal digits. *)
Definition malformed (address : jsval) : Prop :=
  truthyVal address = false \/ exists text, address = JStr text /\ isSuiAddress text = false.

(** The network [GET()] of [/api/faucet] reports. *)
Definition statusNetwork (env : option string) : string :=
  let rpcUrl := rpcUrlOf env devnetRpc in
  if stringIncludes rpcUrl "devnet" then "devnet"
  else if stringIncludes rpcUrl "testnet" then "testnet"
  else "mainnet".

Definition optionText (v : option string) : jsval :=
  match v with
  | Some text => JStr text
  | None => JUndefined
  end.

(** The route as the browser's [fetch] sees it: the posted address
    arrives as the [address] field of the request, and the reply is
    read back from its JSON text. *)
Definition viaRoute (env : option string) (up : Upstream) (address : string)
    : outcome Response :=
  match result (POST env up (Returns (RequestObject (JStr address))) [] noEvents) with
  | Returns reply =>
      Returns {| r_ok := (200 <=? rr_status reply) && (rr_status reply <=? 299);
                 r_status := rr_status reply;
                 r_json :=
                   Returns (JsonObject
                              {| b_success := rb_success (rr_body reply);
                                 b_error := optionText (rb_error (rr_body reply));
                                 b_result := rb_result (rr_body reply);
                                 b_method := optionText (rb_method (rr_body reply)) |}) |}
  | Throws message => Throws message
  end.
End FaucetRoute.

Module CallbackRoute.
Import JsString JsNumber Effects Browser Network.
Local Open Scope Z_scope.

(** [getProviderFromState(state)] of the OAuth callback route. *)
Definition getProviderFromState (state : option string) : option Provider :=
  match state with
  | None => None
  | Some text =>
      if negb (truthy text) then None
      else if stringIncludes text "github" then Some github
      else if stringIncludes text "google" then Some google
      else None
  end.

(** The [state] parameter [initiateLogin] of the proof-based service
    puts into the authorisation URL, at clock reading [now]. *)
Definition zkLoginState (provider : Provider) (now : Z) : string :=
  providerName provider +:+ "-zklogin-" +:+ decimal now.

(** The same of the direct-key service. *)
Definition hybridState (provider : Provider) (now : Z) : string :=
  providerName provider +:+ "-hybrid-" +:+ decimal now.

(** What [https://api.github.com/user] tells of the user. *)
Record GitHubUser := {
  g_id : jsval;
  g_login : jsval;
  g_email : jsval;
  g_name : jsval;
  g_avatar_url : jsval
}.

(** One entry of [https://api.github.com/user/emails]; [ge_primary] is
    whether [email.primary] is truthy. *)
Record GitHubEmail := { ge_primary : bool; ge_email : jsval }.

(** GitHub as the route reaches it: the token exchange gives
    [tokenData.access_token]; the two reads take the token and throw
    where the fetch, the JSON or the first read of the body throws. *)
Record GitHub := {
  exchange : string -> outcome jsval;
  fetchUser : jsval -> outcome GitHubUser;
  fetchEmails : jsval -> outcome (list GitHubEmail)
}.

Inductive GitHubCall :=
| CallExchange (code : string)
| CallUser (accessToken : jsval)
| CallEmails (accessToken : jsval).

Definition msgNoAccessToken : string := "No access token received from GitHub".
Definition msgNoToString (value : string) : string :=
  "Cannot read properties of " +:+ value +:+ " (reading 'toString')".

Definition asked {A} (c : GitHubCall) (answer : outcome A) : M (list GitHubCall) A :=
  fun made ev => (answer, made ++ [c], ev).

(** [handleGitHubCode(code, origin)] up to the object it serialises
    into the user token. *)
Definition handleGitHubCode (api : GitHub) (code : string) : M (list GitHubCall) Claim :=
  (let* accessToken := asked (CallExchange code) (exchange api code) in
   if negb (truthyVal accessToken) then
     do* consoleError "No access token from GitHub" in
     throw msgNoAccessToken
   else
     let* userData := asked (CallUser accessToken) (fetchUser api accessToken) in
     let* email :=
       if truthyVal (g_email userData) then ret (g_email userData)
       else
         let* emails := asked (CallEmails accessToken) (fetchEmails api accessToken) in
         ret (match List.find ge_primary emails with
              | Some primaryEmail => orElse (ge_email primaryEmail) (JStr EmptyString)
              | None => JStr EmptyString
              end) in
     let token (sub : string) : Claim :=
       {| c_sub := JStr sub;
          c_id := JUndefined;
          c_email := orElse email (JStr (template (g_login userData) +:+ "@github.local"));
          c_login := g_login userData;
          c_name := g_name userData;
          c_avatar_url := g_avatar_url userData;
          c_picture := JUndefined |} in
     match g_id userData with
     | JNum n => ret (token (decimal n))
     | JStr text => ret (token text)
     | JUndefined => throw (msgNoToString "undefined")
     | JNull => throw (msgNoToString "null")
     end)%js.

(** The query of the callback request: [searchParams.get] of [code],
    [state], [error] and [id_token], [None] for an absent one. *)
Record Query := {
  q_code : option string;
  q_state : option string;
  q_error : option string;
  q_id_token : option string
}.

(** Where the route redirects to, by the path and query it writes. *)
Inductive Redirect :=
| ProcessError (error : string) (provider : string)
| ProcessToken (userToken : string) (provider : string).

(** The body of the answer of Google's token endpoint as the route
    reads it: [id_token] when it is truthy, and the text of
    [error_description || error]. *)
Record GoogleBody := {
  gb_id_token : option string;
  gb_error : string
}.

(** The answer of the token endpoint: [tokenResponse.ok] and the parsed
    body, [None] for a body that is [null], which no field can be read
    of. *)
Record GoogleToken := {
  gt_ok : bool;
  gt_body : option GoogleBody
}.

(** The rest of what the route reaches for. [encodeToken] is
    [btoa(JSON.stringify(...))] of the token object, which throws on a
    character above 255; [decodeIdToken] is the payload of an identity
    token as [handleIdToken] reads it, [None] when the split, [atob],
    [JSON.parse] or the first read throws; [googleExchange] is the
    token request and the parsing of its body. *)
Record Services := {
  github_api : GitHub;
  googleExchange : string -> outcome GoogleToken;
  decodeIdToken : string -> option Claim;
  encodeToken : Claim -> outcome string
}.

Definition msgTokenExchange (reason : string) : string :=
  "Token exchange failed: " +:+ reason.
Definition msgNoIdToken : string := "No ID token received from Google".
Definition msgIdToken : string := "Failed to process ID token".

(** [`${provider}`] for what [getProviderFromState] returned. *)
Definition providerText (provider : option Provider) : string :=
  match provider with
  | Some p => providerName p
  | None => "null"
  end.

(** Truthiness of a query parameter. *)
Definition present (value : option string) : bool :=
  match value with
  | Some text => truthy text
  | None => false
  end.

(** [handleIdToken(idToken, provider, origin)]: the token object keeps
    the picture for google only. *)
Definition handleIdToken (services : Services) (idToken provider : string)
    : M (list GitHubCall) Redirect :=
  tryCatch
    (match decodeIdToken services idToken with
     | None => throw "SyntaxError"
     | Some decoded =>
         let token :=
           {| c_sub := c_sub decoded; c_id := JUndefined; c_email := c_email decoded;
              c_login := JUndefined; c_name := c_name decoded; c_avatar_url := JUndefined;
              c_picture := if String.eqb provider "google" then c_picture decoded
                           else JUndefined |} in
         let* userToken := lift (encodeToken services token) in
         ret (ProcessToken userToken provider)
     end)%js
    (fun _ =>
       (do* consoleError "ID token processing error" in
        throw msgIdToken)%js).

(** [handleGoogleCode(code, origin)] *)
Definition handleGoogleCode (services : Services) (code : string)
    : M (list GitHubCall) Redirect :=
  tryCatch
    (let* tokenData := lift (googleExchange services code) in
     if negb (gt_ok tokenData) then
       do* consoleError "Token exchange failed" in
       match gt_body tokenData with
       | None => throw "TypeError"
       | Some body => throw (msgTokenExchange (gb_error body))
       end
     else
       match gt_body tokenData with
       | None => throw "TypeError"
       | Some body =>
           match gb_id_token body with
           | None =>
               do* consoleError "No ID token in response" in
               throw msgNoIdToken
           | Some idToken => handleIdToken services idToken "google"
           end
       end)%js
    (fun message =>
       (do* consoleError "Google OAuth error" in
        throw message)%js).

(** The authorisation-code branch of [GET] for the provider the state
    names. *)
Definition exchangeCode (services : Services) (provider : Provider) (code : string)
    : M (list GitHubCall) Redirect :=
  tryCatch
    (match provider with
     | github =>
         let* claim := handleGitHubCode (github_api services) code in
         let* userToken := lift (encodeToken services claim) in
         ret (ProcessToken userToken "github")
     | google => handleGoogleCode services code
     end)%js
    (fun _ =>
       (do* consoleError "OAuth error" in
        ret (ProcessError "token_exchange_failed" (providerName provider)))%js).

(** [GET(request)] of the OAuth callback route. *)
Definition GET (services : Services) (query : Query) : M (list GitHubCall) Redirect :=
  let provider := getProviderFromState (q_state query) in
  if present (q_error query) then
    ret (ProcessError (default EmptyString (q_error query)) (providerText provider))
  else if present (q_id_token query) && negb (present (q_code query)) then
    handleIdToken services (default EmptyString (q_id_token query))
      (match provider with Some p => providerName p | None => "google" end)
  else
    match provider with
    | Some p =>
        if present (q_code query) then
          exchangeCode services p (default EmptyString (q_code query))
        else ret (ProcessError "no_code" (providerText provider))
    | None => ret (ProcessError "no_code" (providerText provider))
    end.
End CallbackRoute.

(* ===================================================================== *)
(** ** Further methods of the two services *)
(* ===================================================================== *)

Module ZkWallet.
Import JsString JsNumber Effects Browser ZkLogin.
Local Open Scope Z_scope.
Local Open Scope js_scope.

(** What [validateWallet] reports. *)
Record WalletInfo := {
  w_isValid : bool;
  w_hasCoins : bool;
  w_balance : string;
  w_coinCount : nat;
  w_error : option string
}.

Definition invalidWallet (message : string) : WalletInfo :=
  {| w_isValid := false; w_hasCoins := false; w_balance := "0"; w_coinCount := O;
     w_error := Some message |}.

(** The object [saveSecureSession] serialises. *)
Definition sessionOf (s : Service) : SessionData :=
  {| sd_user := user s; sd_walletAddress := walletAddress s;
     sd_sessionExpiry := expiryOf (sessionExpiry s); sd_userSalt := userSalt s;
     sd_zkProof := zkProof s; sd_maxEpoch := maxEpoch s |}.

Section Service.
Context (lib : Library) (ledger : Ledger).

(** [validateWallet()] *)
Definition validateWallet : M Service WalletInfo :=
  tryCatch
    (let* s := get in
     match address s with
     | None => ret (invalidWallet "No wallet address")
     | Some owner =>
         tryCatch
           (let* coins := request (CallGetCoins owner) (fun n => getCoins ledger n owner) in
            ret {| w_isValid := true;
                   w_hasCoins := (0 <? length coins)%nat;
                   w_balance := toFixed 6 (div (ofBigInt (sumBalances coins)) billion);
                   w_coinCount := length coins;
                   w_error := None |})
           (fun _ => ret (invalidWallet "Address not found on network"))
     end)
    (fun message => ret (invalidWallet message)).

(** [getCurrentProvider()] *)
Definition getCurrentProvider (s : Service) : option Provider :=
  match user s with
  | Some u => Some (provider u)
  | None => None
  end.

(** [isProviderConfigured(provider)] *)
Definition isProviderConfigured (p : Provider) : bool := truthy (clientId lib p).

(** [getAvailableProviders()] *)
Definition getAvailableProviders : list Provider :=
  List.filter isProviderConfigured [github; google].
End Service.
End ZkWallet.

Module HybridWallet.
Import JsString JsNumber Effects Browser Hybrid.
Local Open Scope Z_scope.
Local Open Scope js_scope.

Inductive LoginStart :=
| LoginUrl (provider : Provider) (clientId : string) (stamp : Z)
| LoginError (error : string).

Definition msgNotConfigured (p : Provider) : string :=
  providerName p +:+ " client ID not configured".

(** The object [saveSession] serialises from a service that holds a key
    pair. *)
Definition sessionOf (lib : Library) (kp : Keypair) (s : Service) : SessionData :=
  {| sd_privateKey := Some (bufferToHex lib (secretKeyBytes lib kp));
     sd_user := user s;
     sd_walletAddress := walletAddress s;
     sd_sessionExpiry := expiryOf (sessionExpiry s) |}.

Section Service.
Context (lib : Library) (clientId : Provider -> string).

(** [initiateLogin(provider)] at clock reading [now]; the URL is given
    by its parts. *)
Definition initiateLogin (provider : Provider) (now : Z) : M Service LoginStart :=
  tryCatch
    (if truthy (clientId provider) then
       let* s := get in
       do* put {| keypair := keypair s; user := user s;
                  walletAddress := walletAddress s;
                  sessionExpiry := sessionExpiry s;
                  storage := setSession "oauth_provider" (providerName provider)
                               (storage s) |} in
       ret (LoginUrl provider (clientId provider) now)
     else throw (msgNotConfigured provider))
    (fun message =>
       do* consoleError "Failed to initiate login" in
       ret (LoginError message)).

(** [exportPrivateKey()] *)
Definition exportPrivateKey (s : Service) : option string :=
  match keypair s with
  | Some kp => Some (bufferToHex lib (secretKeyBytes lib kp))
  | None => None
  end.
End Service.
End HybridWallet.

Module Expected.
Import JsString Effects Browser Faucet.

(** The events after one more [console.error]. *)
Definition logged (label : string) (ev : Events) : Events :=
  {| calls := calls ev; console := console ev ++ [label] |}.

(** The transaction id the proof-based client reads from a granted
    request: the first truthy one of the gas object's id, the task, the
    digest and the id of the result, or else the method and -success. *)
Definition grantedTxId (payload : option Payload) (method : string) : jsval :=
  match payload with
  | Some p =>
      orElse (p_gasObjectId p)
        (orElse (p_task p)
           (orElse (p_digest p) (orElse (p_id p) (JStr (method +:+ "-success")))))
  | None => JStr (method +:+ "-success")
  end.
End Expected.

(* ===================================================================== *)
(** ** Further scenarios *)
(* ===================================================================== *)

Module Cases.
Import JsString JsNumber Effects Browser Reference Scenarios Network Faucet FaucetRoute.
Local Open Scope Z_scope.

(** The bytes [new Uint8Array(characters)] makes of an array of
    one-character strings: the value of a digit, and 0 for any other
    character. *)
Definition bytesOfCharacters (text : string) : bytes :=
  map (fun c => if isDigit c then code c - 48 else 0) (chars text).

(** A library for the direct-key service whose secret keys are exported
    as text: the stored key decodes to the code units of that text,
    whatever the key, and the address tells the key pairs apart. *)
Definition hybridLibTextKeys : Hybrid.Library :=
  let exported := "suiprivkey1qzx0v9w8r5y4t3e2k7j6h5g4f3d2s1a0p9l8m7n6b5c4x3z2q1w0e9r8ty" in
  {| Hybrid.builder := Hybrid.builder hybridLib;
     Hybrid.stringifySession := Hybrid.stringifySession hybridLib;
     Hybrid.parseSession := Hybrid.parseSession hybridLib;
     Hybrid.decodeToken := Hybrid.decodeToken hybridLib;
     Hybrid.secretKeyBytes := fun _ => units exported;
     Hybrid.toSuiAddress := fun kp => if bool_decide (kp = someKey) then alice else bob;
     Hybrid.bufferToHex := fun _ => "key";
     Hybrid.bufferFromHex :=
       fun text => match text with
                   | Some _ => Returns (units exported)
                   | None => Throws "TypeError"
                   end;
     Hybrid.toLocaleDateString := Hybrid.toLocaleDateString hybridLib |}.

(** A library whose secret keys are exported as text: the array stored
    for a key holds the characters of that text, whatever the key. *)
Definition zkLibTextKeys (decoded : outcome Claim) : ZkLogin.Library :=
  let lib := zkLibDecoding decoded in
  {| ZkLogin.builder := ZkLogin.builder lib;
     ZkLogin.clientId := ZkLogin.clientId lib;
     ZkLogin.stringifySession := ZkLogin.stringifySession lib;
     ZkLogin.parseSession := ZkLogin.parseSession lib;
     ZkLogin.secretKeyJson :=
       fun _ => "suiprivkey1qzx0v9w8r5y4t3e2k7j6h5g4f3d2s1a0p9l8m7n6b5c4x3z2q1w0e9r8ty";
     ZkLogin.parseKeyArray := fun text => Returns (bytesOfCharacters text);
     ZkLogin.decodeToken := ZkLogin.decodeToken lib;
     ZkLogin.generateNonce := ZkLogin.generateNonce lib;
     ZkLogin.jwtToAddress := ZkLogin.jwtToAddress lib;
     ZkLogin.genAddressSeed := ZkLogin.genAddressSeed lib;
     ZkLogin.btoa := ZkLogin.btoa lib;
     ZkLogin.jwtHeader := ZkLogin.jwtHeader lib;
     ZkLogin.sign := ZkLogin.sign lib;
     ZkLogin.getZkLoginSignature := ZkLogin.getZkLoginSignature lib;
     ZkLogin.toLocaleDateString := ZkLogin.toLocaleDateString lib |}.

(** The library of [zkLib] when the SDK refuses the pseudo-token. *)
Definition zkLibRefusing (decoded : outcome Claim) : ZkLogin.Library :=
  {| ZkLogin.builder := ZkLogin.builder zkLib;
     ZkLogin.clientId := ZkLogin.clientId zkLib;
     ZkLogin.stringifySession := ZkLogin.stringifySession zkLib;
     ZkLogin.parseSession := ZkLogin.parseSession zkLib;
     ZkLogin.secretKeyJson := ZkLogin.secretKeyJson zkLib;
     ZkLogin.parseKeyArray := ZkLogin.parseKeyArray zkLib;
     ZkLogin.decodeToken := fun _ => decoded;
     ZkLogin.generateNonce := ZkLogin.generateNonce zkLib;
     ZkLogin.jwtToAddress := fun _ _ _ _ _ => Throws "Invalid JWT";
     ZkLogin.genAddressSeed := ZkLogin.genAddressSeed zkLib;
     ZkLogin.btoa := ZkLogin.btoa zkLib;
     ZkLogin.jwtHeader := ZkLogin.jwtHeader zkLib;
     ZkLogin.sign := ZkLogin.sign zkLib;
     ZkLogin.getZkLoginSignature := ZkLogin.getZkLoginSignature zkLib;
     ZkLogin.toLocaleDateString := ZkLogin.toLocaleDateString zkLib |}.

Definition aliceData : ZkLogin.UserData :=
  {| ZkLogin.u_sub := JStr "1001"; ZkLogin.u_email := JStr "alice@example.org";
     ZkLogin.u_login := JStr "alice"; ZkLogin.u_name := JStr "Alice";
     ZkLogin.u_picture := JUndefined; ZkLogin.u_provider := github |}.

(** A well-formed address. *)
Definition carol : string :=
  "0x00000000000000000000000000000000000000000000000000000000000ca401".

Definition testnetRpc : string := "https://fullnode.testnet.sui.io:443".
Definition mainnetRpc : string := "https://fullnode.mainnet.sui.io:443".

Definition gasPayload : Payload :=
  {| p_gasObjectId := JStr "0xgas"; p_task := JUndefined; p_digest := JUndefined;
     p_id := JUndefined |}.

(** GitHub for a user with the id 1001 who shows no e-mail address but
    has a primary one. *)
Definition octocat : CallbackRoute.GitHub :=
  {| CallbackRoute.exchange := fun _ => Returns (JStr "gho_token");
     CallbackRoute.fetchUser := fun _ =>
       Returns {| CallbackRoute.g_id := JNum 1001; CallbackRoute.g_login := JStr "alice";
                  CallbackRoute.g_email := JNull; CallbackRoute.g_name := JStr "Alice";
                  CallbackRoute.g_avatar_url := JStr "https://example.org/a.png" |};
     CallbackRoute.fetchEmails := fun _ =>
       Returns [ {| CallbackRoute.ge_primary := false;
                    CallbackRoute.ge_email := JStr "old@example.org" |};
                 {| CallbackRoute.ge_primary := true;
                    CallbackRoute.ge_email := JStr "alice@example.org" |} ] |}.

(** The callback route's services with that account behind GitHub and
    a Google that refuses every code. *)
Definition octocatServices : CallbackRoute.Services :=
  {| CallbackRoute.github_api := octocat;
     CallbackRoute.googleExchange := fun _ =>
       Returns {| CallbackRoute.gt_ok := false;
                  CallbackRoute.gt_body :=
                    Some {| CallbackRoute.gb_id_token := None;
                            CallbackRoute.gb_error := "invalid_grant" |} |};
     CallbackRoute.decodeIdToken := fun _ => None;
     CallbackRoute.encodeToken := fun claim =>
       Returns ("token-of-" +:+ template (c_sub claim)) |}.

(** A faucet whose SDK call fails and whose service is rate limited. *)
Definition busyFaucet : Upstream :=
  {| sdk := fun _ _ => Throws "fetch failed";
     direct := fun _ _ =>
       Returns {| d_ok := false; d_status := 429; d_text := Returns "Too Many Requests";
                  d_json := Throws "SyntaxError" |} |}.

(** A faucet whose SDK call succeeds. *)
Definition openFaucet : Upstream :=
  {| sdk := fun _ _ => Returns (Some gasPayload);
     direct := fun _ _ => Throws "not reached" |}.
End Cases.

(* ===================================================================== *)
(** ** Hoare rules for methods *)
(* ===================================================================== *)

Module Hoare.
Import Effects Reference.

Section Rules.
Context {S : Type}.
Implicit Types (P E : S -> Prop).

Lemma triple_ret {A} (a : A) (Q : A -> S -> Prop) E :
  triple (Q a) (ret a) Q E.
Proof. intros s ev H. exact H. Qed.

Lemma triple_throw {A} message (Q : A -> S -> Prop) E :
  triple E (throw message) Q E.
Proof. intros s ev H. exact H. Qed.

Lemma triple_bind {A B} P (R : A -> S -> Prop) (Q : B -> S -> Prop) E
    (c : M S A) (k : A -> M S B) :
  triple P c R E ->
  (forall a, triple (R a) (k a) Q E) ->
  triple P (bind c k) Q E.
Proof.
  intros Hc Hk s ev HP. unfold bind. specialize (Hc s ev HP).
  destruct (c s ev) as [[[a | m] s'] ev']; [| exact Hc].
  apply Hk, Hc.
Qed.

Lemma triple_tryCatch {A} P E' (Q : A -> S -> Prop) E
    (body : M S A) (handler : string -> M S A) :
  triple P body Q E' ->
  (forall m, triple E' (handler m) Q E) ->
  triple P (tryCatch body handler) Q E.
Proof.
  intros Hb Hh s ev HP. unfold tryCatch. specialize (Hb s ev HP).
  destruct (body s ev) as [[[a | m] s'] ev']; [exact Hb |].
  apply Hh, Hb.
Qed.

Lemma triple_get P E : triple P get (fun a s => a = s /\ P s) E.
Proof. intros s ev H. split; [reflexivity | exact H]. Qed.

Lemma triple_put (x : S) (Q : unit -> S -> Prop) E :
  triple (fun _ => Q tt x) (put x) Q E.
Proof. intros s ev H. exact H. Qed.

Lemma triple_lift {A} (o : outcome A) P : triple P (lift o) (fun _ => P) P.
Proof. intros s ev H. unfold lift. destruct o; exact H. Qed.

Lemma triple_request {A} c (answer : nat -> outcome A) P :
  triple P (request c answer) (fun _ => P) P.
Proof. intros s ev H. unfold request. destruct (answer _); exact H. Qed.

Lemma triple_consoleError label P E :
  triple P (consoleError label) (fun _ => P) E.
Proof. intros s ev H. exact H. Qed.

Lemma triple_consequence {A} P P' (Q Q' : A -> S -> Prop) E E' (m : M S A) :
  triple P' m Q' E' ->
  (forall s, P s -> P' s) ->
  (forall a s, Q' a s -> Q a s) ->
  (forall s, E' s -> E s) ->
  triple P m Q E.
Proof.
  intros Hm HP HQ HE s ev H. specialize (Hm s ev (HP s H)).
  destruct (m s ev) as [[[a | msg] s'] ev']; auto.
Qed.

Lemma keeps_ret {A} (I : S -> Prop) (a : A) : keeps I (ret a).
Proof. intros s ev H. exact H. Qed.

Lemma keeps_throw {A} (I : S -> Prop) message : keeps I (@throw S A message).
Proof. intros s ev H. exact H. Qed.

Lemma keeps_bind {A B} (I : S -> Prop) (c : M S A) (k : A -> M S B) :
  keeps I c -> (forall a, keeps I (k a)) -> keeps I (bind c k).
Proof. intros Hc Hk. unfold keeps. eapply triple_bind; [exact Hc | exact Hk]. Qed.

Lemma keeps_tryCatch {A} (I : S -> Prop) (body : M S A) handler :
  keeps I body -> (forall m, keeps I (handler m)) -> keeps I (tryCatch body handler).
Proof. intros Hb Hh. unfold keeps. eapply triple_tryCatch; [exact Hb | exact Hh]. Qed.

Lemma keeps_get (I : S -> Prop) : keeps I get.
Proof. intros s ev H. exact H. Qed.

Lemma keeps_lift {A} (I : S -> Prop) (o : outcome A) : keeps I (lift o).
Proof. apply triple_lift. Qed.

Lemma keeps_request {A} (I : S -> Prop) c (answer : nat -> outcome A) :
  keeps I (request c answer).
Proof. apply triple_request. Qed.

Lemma keeps_consoleError (I : S -> Prop) label : keeps I (consoleError label).
Proof. intros s ev H. exact H. Qed.

(** What a method keeps, it keeps through any result-dropping wrapper. *)
Lemma keeps_drop {A} (I : S -> Prop) (m : M S A) :
  keeps I m -> keeps I (bind m (fun _ => ret tt)).
Proof.
  intros Hm. unfold keeps. eapply triple_bind; [exact Hm |].
  intros a. exact (triple_ret tt (fun _ => I) I).
Qed.

Lemma keeps_after {A} (I : S -> Prop) (m : M S A) s ev :
  keeps I m -> I s -> I (after (m s ev)).
Proof.
  intros Hm HI. specialize (Hm s ev HI). unfold after.
  destruct (m s ev) as [[[a | msg] s'] ev']; exact Hm.
Qed.

(** A read-only method leaves the state as it found it. *)
Lemma readOnly_after {A} (m : M S A) s ev : readOnly m -> after (m s ev) = s.
Proof. intros Hm. exact (keeps_after (fun x => x = s) m s ev (Hm _) eq_refl). Qed.
End Rules.

(** One step of a proof that a method keeps a property: the rule for the
    combinator at the head, or a case distinction on what it branches on. *)
Ltac keeps_step :=
  lazymatch goal with
  | |- keeps _ (ret _) => apply keeps_ret
  | |- keeps _ (throw _) => apply keeps_throw
  | |- keeps _ get => apply keeps_get
  | |- keeps _ (lift _) => apply keeps_lift
  | |- keeps _ (request _ _) => apply keeps_request
  | |- keeps _ (consoleError _) => apply keeps_consoleError
  | |- keeps _ (bind _ _) => apply keeps_bind; [| intros ?]
  | |- keeps _ (tryCatch _ _) => apply keeps_tryCatch; [| intros ?]
  | |- keeps _ (match ?x with _ => _ end) => destruct x
  | |- keeps _ (if ?c then _ else _) => destruct c
  end.
End Hoare.

(* ===================================================================== *)
(** ** Direct-scheme key derivation *)
(* ===================================================================== *)

Module KeyDerivation.
Import JsString JsNumber Effects Browser Reference Hybrid.
Local Open Scope Z_scope.

Lemma digitChar_plain d : 0 <= d < 16 -> plainChar (digitChar d).
Proof.
  intros Hd.
  assert (Hcases : d = 0 \/ d = 1 \/ d = 2 \/ d = 3 \/ d = 4 \/ d = 5 \/ d = 6
                   \/ d = 7 \/ d = 8 \/ d = 9 \/ d = 10 \/ d = 11 \/ d = 12
                   \/ d = 13 \/ d = 14 \/ d = 15) by lia.
  repeat (destruct Hcases as [-> | Hcases]; [reflexivity |]).
  subst d. reflexivity.
Qed.

Lemma digitsFrom_plain fuel : forall n acc,
  Forall plainChar acc -> Forall plainChar (digitsFrom 16 fuel n acc).
Proof.
  induction fuel as [| fuel IH]; intros n acc Hacc; simpl; [exact Hacc |].
  assert (Hhead : Forall plainChar (digitChar (n mod 16) :: acc)).
  { constructor; [| exact Hacc].
    apply digitChar_plain. apply Z.mod_pos_bound. lia. }
  destruct (n / 16 =? 0); [exact Hhead | apply IH, Hhead].
Qed.

Lemma padStart0_plain n s : Forall plainChar s -> Forall plainChar (padStart0 n s).
Proof.
  intros Hs. unfold padStart0. apply Forall_app. split; [| exact Hs].
  apply List.Forall_forall. intros c Hc. apply repeat_spec in Hc. subst c. reflexivity.
Qed.

Lemma repeatStr_plain k s : Forall plainChar s -> Forall plainChar (repeatStr k s).
Proof.
  intros Hs. induction k as [| k IH]; simpl; [constructor |].
  apply Forall_app. split; assumption.
Qed.

Lemma length_padStart0 n s : (n <= length (padStart0 n s))%nat.
Proof. unfold padStart0. rewrite length_app, repeat_length. lia. Qed.

Lemma length_repeatStr k s : length (repeatStr k s) = (k * length s)%nat.
Proof.
  induction k as [| k IH]; simpl; [reflexivity |].
  rewrite length_app, IH. reflexivity.
Qed.

(** The seed is 64 characters, none of them a line terminator. *)
Lemma seedOfHash_shape hash :
  length (chars (seedOfHash hash)) = 64%nat
  /\ Forall plainChar (chars (seedOfHash hash)).
Proof.
  unfold seedOfHash, chars, str, substring0.
  rewrite list_ascii_of_string_of_list_ascii.
  set (block := padStart0 16 (natDigits 16 (Z.abs hash))).
  assert (Hlen : (16 <= length block)%nat) by apply length_padStart0.
  split.
  - rewrite length_firstn, length_repeatStr. lia.
  - apply Forall_take, repeatStr_plain, padStart0_plain.
    unfold natDigits. apply digitsFrom_plain. constructor.
Qed.

Lemma matchPairs_plain_nonempty c s :
  plainChar c -> matchPairs (c :: s) <> [].
Proof.
  intros Hc. simpl. unfold plainChar in Hc. rewrite Hc.
  destruct s as [| b s']; [discriminate |].
  destruct (isLineTerminator b); discriminate.
Qed.

Lemma length_cycle32 seedBytes : length (cycle32 seedBytes) = 32%nat.
Proof. unfold cycle32. rewrite length_map, length_seq. reflexivity. Qed.

Lemma toUint8_byte v : isByte (toUint8 v).
Proof. unfold isByte, toUint8. apply Z.mod_pos_bound. lia. Qed.

Lemma cycle32_bytes seedBytes :
  Forall isByte seedBytes -> Forall isByte (cycle32 seedBytes).
Proof.
  intros Hall. unfold cycle32. apply Forall_map, List.Forall_forall. intros i _.
  destruct (nth_in_or_default (i mod length seedBytes) seedBytes 0) as [Hin | ->].
  - rewrite List.Forall_forall in Hall. apply Hall, Hin.
  - unfold isByte. lia.
Qed.

(** Key construction succeeds on every seed that has a character [.]
    accepts at its head, and yields 32 bytes. *)
Lemma createKeypairFromSeed_total seed c rest :
  chars seed = c :: rest -> plainChar c ->
  exists key, createKeypairFromSeed seed = Returns key
              /\ length key = 32%nat /\ Forall isByte key.
Proof.
  intros Hseed Hc. unfold createKeypairFromSeed. rewrite Hseed.
  pose proof (matchPairs_plain_nonempty c rest Hc) as Hne.
  destruct (matchPairs (c :: rest)) as [| p ps] eqn:Hpairs; [congruence |].
  set (seedBytes := map (fun byte => toUint8 (parseInt16 byte)) (p :: ps)).
  exists (cycle32 seedBytes). unfold fromSecretKey.
  rewrite length_cycle32, Nat.eqb_refl.
  split; [reflexivity |]. split; [reflexivity |].
  apply cycle32_bytes. unfold seedBytes. apply Forall_map, List.Forall_forall.
  intros x _. apply toUint8_byte.
Qed.

Lemma derivation_total userData provider :
  exists key,
    createKeypairFromSeed (createDeterministicSeed userData provider) = Returns key
    /\ length key = 32%nat /\ Forall isByte key.
Proof.
  unfold createDeterministicSeed.
  destruct (seedOfHash_shape (hashUnits (units (identityString userData provider))))
    as [Hlen Hplain].
  destruct (chars (seedOfHash (hashUnits (units (identityString userData provider)))))
    as [| c rest] eqn:Hchars; [discriminate |].
  inversion Hplain; subst.
  eapply createKeypairFromSeed_total; eauto.
Qed.

(** The identity string reads the user data through the subject and the
    e-mail alone. *)
Lemma identityString_same_identity ud1 ud2 provider :
  template (orElse (u_sub ud1) (u_id ud1)) = template (orElse (u_sub ud2) (u_id ud2)) ->
  template (u_email ud1) = template (u_email ud2) ->
  identityString ud1 provider = identityString ud2 provider.
Proof. intros Hs He. unfold identityString. rewrite Hs, He. reflexivity. Qed.

(** C1. For a fixed identity (provider, subject, e-mail), seed
    derivation followed by key-pair construction always succeeds and
    always yields the same private key of exactly 32 bytes, and with it
    the same wallet address; the other fields of the user data play no
    part, and neither does any state of the service or of the storage. *)
Theorem direct_key_deterministic (provider : string) (ud1 ud2 : UserData) :
  template (orElse (u_sub ud1) (u_id ud1)) = template (orElse (u_sub ud2) (u_id ud2)) ->
  template (u_email ud1) = template (u_email ud2) ->
  exists key,
    length key = 32%nat
    /\ Forall isByte key
    /\ createKeypairFromSeed (createDeterministicSeed ud1 provider) = Returns key
    /\ createKeypairFromSeed (createDeterministicSeed ud2 provider) = Returns key
    /\ forall lib,
         deterministicWallet lib ud1 provider = Returns (key, toSuiAddress lib key)
         /\ deterministicWallet lib ud2 provider = Returns (key, toSuiAddress lib key).
Proof.
  intros Hs He.
  destruct (derivation_total ud1 provider) as (key & Hkey & Hlen & Hbytes).
  exists key.
  assert (Hsame : createDeterministicSeed ud2 provider = createDeterministicSeed ud1 provider).
  { unfold createDeterministicSeed.
    rewrite (identityString_same_identity ud1 ud2 provider Hs He). reflexivity. }
  unfold deterministicWallet, walletAddressOf. rewrite Hsame, Hkey.
  repeat split; assumption || reflexivity.
Qed.

(** A login through [handleOAuthCallback] is stateless: two logins with
    the same token and the same provider entry give the same result,
    whatever the fields of the service, the rest of the storage, the
    clock and the events so far; and a successful login leaves the
    derived key pair and its address in the service. *)
Lemma login_stateless lib userToken now1 now2 (s1 s2 : Service) ev1 ev2 :
  getTruthy (sessionStorage (storage s1)) "oauth_provider"
  = getTruthy (sessionStorage (storage s2)) "oauth_provider" ->
  let r1 := handleOAuthCallback lib userToken now1 s1 ev1 in
  let r2 := handleOAuthCallback lib userToken now2 s2 ev2 in
  result r1 = result r2
  /\ forall addr pk,
       result r1 = Returns (LoginSuccess addr pk) ->
       keypair (after r1) = keypair (after r2)
       /\ walletAddress (after r1) = Some addr
       /\ walletAddress (after r2) = Some addr.
Proof.
  intros Hprov.
  unfold handleOAuthCallback, tryCatch, bind, get, lift, put, ret, throw, consoleError,
    saveSession, result, after.
  cbn beta iota. rewrite <- Hprov.
  destruct (getTruthy (sessionStorage (storage s1)) "oauth_provider") as [provider |];
    cbn -[createDeterministicSeed createKeypairFromSeed normalizeUserData];
    [| split; [reflexivity | discriminate]].
  destruct (decodeToken lib userToken) as [claim | m];
    cbn -[createDeterministicSeed createKeypairFromSeed normalizeUserData];
    [| split; [reflexivity | discriminate]].
  destruct (normalizeUserData claim provider) as [ud | m];
    cbn -[createDeterministicSeed createKeypairFromSeed normalizeUserData];
    [| split; [reflexivity | discriminate]].
  destruct (createKeypairFromSeed (createDeterministicSeed ud provider)) as [kp | m];
    cbn -[createDeterministicSeed createKeypairFromSeed normalizeUserData];
    [| split; [reflexivity | discriminate]].
  split; [reflexivity |].
  intros addr pk H. injection H as <- _. auto.
Qed.

Import Scenarios.

Lemma direct_key_deterministic_witness :
  exists key,
    length key = 32%nat
    /\ Forall isByte key
    /\ createKeypairFromSeed (createDeterministicSeed hybridUser "github") = Returns key
    /\ createKeypairFromSeed (createDeterministicSeed hybridUserAgain "github") = Returns key
    /\ forall lib,
         deterministicWallet lib hybridUser "github" = Returns (key, toSuiAddress lib key)
         /\ deterministicWallet lib hybridUserAgain "github"
            = Returns (key, toSuiAddress lib key).
Proof.
  apply (direct_key_deterministic "github" hybridUser hybridUserAgain); reflexivity.
Defined.

Lemma login_stateless_witness :
  let lib := hybridLibDecoding (Returns aliceClaim) in
  let r1 := handleOAuthCallback lib "token" 1000 (newService oauthPage) noEvents in
  let r2 := handleOAuthCallback lib "token" 2000
              {| keypair := Some someKey; user := Some someUser;
                 walletAddress := Some bob; sessionExpiry := Some 5;
                 storage := setLocal "theme" "dark" oauthPage |}
              {| calls := [CallGetBalance bob]; console := ["earlier"] |} in
  result r1 = Returns (LoginSuccess alice "key")
  /\ result r2 = Returns (LoginSuccess alice "key")
  /\ keypair (after r1) = keypair (after r2)
  /\ walletAddress (after r2) = Some alice.
Proof.
  intros lib r1 r2.
  assert (Hfirst : result r1 = Returns (LoginSuccess alice "key")) by (vm_compute; reflexivity).
  destruct (login_stateless lib "token" 1000 2000 (newService oauthPage)
              {| keypair := Some someKey; user := Some someUser;
                 walletAddress := Some bob; sessionExpiry := Some 5;
                 storage := setLocal "theme" "dark" oauthPage |}
              noEvents {| calls := [CallGetBalance bob]; console := ["earlier"] |})
    as [Hsame Hkeys]; [vm_compute; reflexivity |].
  fold r1 r2 in Hsame, Hkeys.
  destruct (Hkeys alice "key" Hfirst) as (Hkp & _ & Haddr).
  split; [exact Hfirst |]. split; [rewrite <- Hsame; exact Hfirst |].
  split; assumption.
Defined.

(** The key of the identity github, 1001, alice@example.org: four zero
    bytes and the four bytes of the hash, four times over. *)
Example key_of_alice :
  createDeterministicSeed hybridUser "github"
  = "0000000001109f9d0000000001109f9d0000000001109f9d0000000001109f9d"
  /\ createKeypairFromSeed (createDeterministicSeed hybridUser "github")
     = Returns [0; 0; 0; 0; 1; 16; 159; 157; 0; 0; 0; 0; 1; 16; 159; 157;
                0; 0; 0; 0; 1; 16; 159; 157; 0; 0; 0; 0; 1; 16; 159; 157].
Proof. split; vm_compute; reflexivity. Qed.
End KeyDerivation.

(* ===================================================================== *)
(** ** The direct key as a function of the 32-bit hash *)
(* ===================================================================== *)

Module KeySpace.
Import JsString JsNumber Effects Browser Reference Hybrid KeyDerivation.
Local Open Scope Z_scope.

Lemma toInt32_range z : - 2 ^ 31 <= toInt32 z < 2 ^ 31.
Proof.
  unfold toInt32.
  pose proof (Z.mod_pos_bound (z + 2 ^ 31) (2 ^ 32) ltac:(lia)). lia.
Qed.

(** The hash of every string is a 32-bit signed integer. *)
Lemma hashUnits_range identity : - 2 ^ 31 <= hashUnits identity < 2 ^ 31.
Proof.
  unfold hashUnits.
  induction identity as [| c front _] using rev_ind; [simpl; lia |].
  rewrite fold_left_app. simpl. apply toInt32_range.
Qed.

Lemma digitsFrom_acc radix fuel : forall n acc,
  digitsFrom radix fuel n acc = digitsFrom radix fuel n [] ++ acc.
Proof.
  induction fuel as [| fuel IH]; intros n acc; simpl; [reflexivity |].
  destruct (n / radix =? 0); [reflexivity |].
  rewrite (IH _ (_ :: acc)), (IH _ [_]), <- app_assoc. reflexivity.
Qed.

Lemma hexFixed_zero k : hexFixed k 0 = repeat "0"%char k.
Proof.
  induction k as [| k IH]; [reflexivity |].
  change (hexFixed (S k) 0) with (hexFixed k 0 ++ ["0"%char]).
  rewrite IH. symmetry. apply repeat_cons.
Qed.

(** Padding the digits of [toString(16)] to [k] places gives the [k]
    fixed digits, as long as the number has no more than [k]. *)
Lemma padStart0_digits fuel : forall k n,
  0 <= n < 16 ^ Z.of_nat k -> n < 2 ^ Z.of_nat fuel ->
  (1 <= fuel)%nat -> (1 <= k)%nat ->
  padStart0 k (digitsFrom 16 fuel n []) = hexFixed k n.
Proof.
  induction fuel as [| fuel IH]; intros k n Hn Hfuel Hf Hk; [lia |].
  destruct k as [| k]; [lia |].
  change (hexFixed (S k) n) with (hexFixed k (n / 16) ++ [digitChar (n mod 16)]).
  simpl digitsFrom.
  destruct (Z.eqb_spec (n / 16) 0) as [Hz | Hnz].
  - rewrite Hz, hexFixed_zero. unfold padStart0. simpl length.
    replace (S k - 1)%nat with k by lia. reflexivity.
  - assert (Hq : 0 < n / 16) by (pose proof (Z.div_pos n 16); lia).
    assert (Hn16 : 16 <= n).
    { destruct (Z_lt_le_dec n 16) as [Hlt | Hle]; [| exact Hle].
      rewrite Z.div_small in Hq by lia. lia. }
    assert (Hk1 : (1 <= k)%nat).
    { destruct k; [simpl in Hn; lia | lia]. }
    assert (Hf1 : (1 <= fuel)%nat).
    { destruct fuel; [simpl in Hfuel; lia | lia]. }
    rewrite digitsFrom_acc.
    rewrite <- (IH k (n / 16)); try assumption.
    + unfold padStart0. rewrite length_app. simpl length.
      replace (S k - (length (digitsFrom 16 fuel (n / 16) []) + 1))%nat
        with (k - length (digitsFrom 16 fuel (n / 16) []))%nat by lia.
      rewrite <- app_assoc. reflexivity.
    + split; [lia |]. apply Z.div_lt_upper_bound; [lia |].
      rewrite Nat2Z.inj_succ, Z.pow_succ_r in Hn by lia. lia.
    + apply Z.div_lt_upper_bound; [lia |].
      rewrite Nat2Z.inj_succ, Z.pow_succ_r in Hfuel by lia. lia.
Qed.

Lemma natDigits_block n :
  0 <= n < 2 ^ 32 -> padStart0 16 (natDigits 16 n) = hexFixed 16 n.
Proof.
  intros Hn. unfold natDigits. apply padStart0_digits; try lia.
  rewrite Nat2Z.inj_succ, Z2Nat.id by apply Z.log2_nonneg.
  destruct (Z.eq_dec n 0) as [-> | Hpos]; [reflexivity |].
  apply Z.log2_spec. lia.
Qed.

Lemma matchPairs_pair a b rest :
  plainChar a -> plainChar b -> matchPairs (a :: b :: rest) = [a; b] :: matchPairs rest.
Proof. unfold plainChar. intros Ha Hb. simpl. rewrite Ha, Hb. reflexivity. Qed.

Ltac sixteen_cases d Hd :=
  assert (Hcases : d = 0 \/ d = 1 \/ d = 2 \/ d = 3 \/ d = 4 \/ d = 5 \/ d = 6
                   \/ d = 7 \/ d = 8 \/ d = 9 \/ d = 10 \/ d = 11 \/ d = 12
                   \/ d = 13 \/ d = 14 \/ d = 15) by lia;
  clear Hd;
  repeat (destruct Hcases as [-> | Hcases]); [.. | subst d].

(** [parseInt] reads a pair of hexadecimal digits as its value. *)
Lemma parseInt16_pair a b :
  0 <= a < 16 -> 0 <= b < 16 ->
  toUint8 (parseInt16 [digitChar a; digitChar b]) = 16 * a + b.
Proof.
  intros Ha Hb. sixteen_cases a Ha; sixteen_cases b Hb; reflexivity.
Qed.

Lemma two_digits m : 16 * (m / 16 mod 16) + m mod 16 = m mod 256.
Proof. Z.div_mod_to_equations. lia. Qed.

(** The key built from a seed of four blocks of eight zeros and eight
    digits. *)
Lemma key_of_digits d7 d6 d5 d4 d3 d2 d1 d0 :
  0 <= d7 < 16 -> 0 <= d6 < 16 -> 0 <= d5 < 16 -> 0 <= d4 < 16 ->
  0 <= d3 < 16 -> 0 <= d2 < 16 -> 0 <= d1 < 16 -> 0 <= d0 < 16 ->
  let block := repeat "0"%char 8
               ++ [digitChar d7; digitChar d6; digitChar d5; digitChar d4;
                   digitChar d3; digitChar d2; digitChar d1; digitChar d0] in
  let bytes8 := [0; 0; 0; 0; 16 * d7 + d6; 16 * d5 + d4; 16 * d3 + d2; 16 * d1 + d0] in
  createKeypairFromSeed (str (substring0 64 (repeatStr 4 block)))
  = Returns (bytes8 ++ bytes8 ++ bytes8 ++ bytes8).
Proof.
  intros H7 H6 H5 H4 H3 H2 H1 H0 block bytes8.
  pose proof (digitChar_plain d7 H7) as P7. pose proof (digitChar_plain d6 H6) as P6.
  pose proof (digitChar_plain d5 H5) as P5. pose proof (digitChar_plain d4 H4) as P4.
  pose proof (digitChar_plain d3 H3) as P3. pose proof (digitChar_plain d2 H2) as P2.
  pose proof (digitChar_plain d1 H1) as P1. pose proof (digitChar_plain d0 H0) as P0.
  assert (Pz : plainChar "0"%char) by reflexivity.
  unfold createKeypairFromSeed, chars, str.
  rewrite list_ascii_of_string_of_list_ascii.
  subst block. cbn [repeat repeatStr app substring0 firstn].
  rewrite !matchPairs_pair by assumption.
  cbn [matchPairs map].
  rewrite !parseInt16_pair by (assumption || lia).
  reflexivity.
Qed.

Lemma hexFixed_app a b : forall n,
  hexFixed (a + b) n = hexFixed a (n / 16 ^ Z.of_nat b) ++ hexFixed b n.
Proof.
  induction b as [| b IH]; intros n.
  - rewrite Nat.add_0_r, Z.div_1_r, app_nil_r. reflexivity.
  - rewrite Nat.add_succ_r.
    change (hexFixed (S (a + b)) n) with (hexFixed (a + b) (n / 16) ++ [digitChar (n mod 16)]).
    change (hexFixed (S b) n) with (hexFixed b (n / 16) ++ [digitChar (n mod 16)]).
    rewrite IH, Z.div_div, <- Z.pow_succ_r, <- Nat2Z.inj_succ, app_assoc by lia.
    reflexivity.
Qed.

Lemma mod16_range m : 0 <= m mod 16 < 16.
Proof. apply Z.mod_pos_bound. lia. Qed.

(** The private key of an identity is fixed by the absolute value of
    the 32-bit hash of its identity string: the eight bytes of
    [hashBlock], four times over. *)
Theorem key_is_hash_block (userData : UserData) (provider : string) :
  let n := Z.abs (hashUnits (units (identityString userData provider))) in
  0 <= n <= 2 ^ 31
  /\ createKeypairFromSeed (createDeterministicSeed userData provider)
     = Returns (hashBlock n ++ hashBlock n ++ hashBlock n ++ hashBlock n).
Proof.
  intros n.
  pose proof (hashUnits_range (units (identityString userData provider))) as Hrange.
  assert (Hn : 0 <= n <= 2 ^ 31) by (subst n; lia).
  split; [exact Hn |].
  unfold createDeterministicSeed, seedOfHash. fold n.
  rewrite natDigits_block by lia.
  change (hexFixed 16 n) with (hexFixed (8 + 8) n). rewrite hexFixed_app.
  rewrite (Z.div_small n (16 ^ Z.of_nat 8)) by (change (16 ^ Z.of_nat 8) with (2 ^ 32); lia).
  rewrite hexFixed_zero.
  cbn [hexFixed]. rewrite <- !app_assoc. cbn [app].
  pose proof (key_of_digits
                (n / 16 / 16 / 16 / 16 / 16 / 16 / 16 mod 16)
                (n / 16 / 16 / 16 / 16 / 16 / 16 mod 16)
                (n / 16 / 16 / 16 / 16 / 16 mod 16)
                (n / 16 / 16 / 16 / 16 mod 16)
                (n / 16 / 16 / 16 mod 16)
                (n / 16 / 16 mod 16)
                (n / 16 mod 16)
                (n mod 16)
                (mod16_range _) (mod16_range _) (mod16_range _) (mod16_range _)
                (mod16_range _) (mod16_range _) (mod16_range _) (mod16_range _)) as Hkey.
  cbv zeta in Hkey. cbn [repeat app] in Hkey. cbn [repeat app]. rewrite Hkey.
  unfold hashBlock.
  rewrite (two_digits n), (two_digits (n / 16 / 16)),
    (two_digits (n / 16 / 16 / 16 / 16)), (two_digits (n / 16 / 16 / 16 / 16 / 16 / 16)).
  rewrite !Z.div_div by lia. reflexivity.
Qed.

Import Scenarios.

(** Two distinct subjects of one provider with one key: the hash is
    the polynomial hash with multiplier 31, on which Aa and BB agree. *)
Example colliding_subjects :
  let first := {| u_sub := JStr "Aa"; u_id := JUndefined; u_email := JStr "a@example.org";
                  u_login := JUndefined; u_name := JUndefined; u_picture := JUndefined;
                  u_provider := google |} in
  let second := {| u_sub := JStr "BB"; u_id := JUndefined; u_email := JStr "a@example.org";
                   u_login := JUndefined; u_name := JUndefined; u_picture := JUndefined;
                   u_provider := google |} in
  identityString first "google" <> identityString second "google"
  /\ createKeypairFromSeed (createDeterministicSeed first "google")
     = createKeypairFromSeed (createDeterministicSeed second "google").
Proof. split; [discriminate | vm_compute; reflexivity]. Qed.

End KeySpace.

(* ===================================================================== *)
(** ** Sending under the proof-based scheme *)
(* ===================================================================== *)

Module Sending.
Import JsString JsNumber Effects Browser Reference ZkLogin.
Local Open Scope Z_scope.

#[local] Arguments parseFloat : simpl never.
#[local] Arguments toFixed : simpl never.
#[local] Arguments ofBigInt : simpl never.
#[local] Arguments div : simpl never.
#[local] Arguments mul : simpl never.
#[local] Arguments strictEq : simpl never.
#[local] Arguments gt : simpl never.
#[local] Arguments floorToBigInt : simpl never.
#[local] Arguments sumBalances : simpl never.
#[local] Arguments selectPayment : simpl never.
#[local] Arguments totalGas : simpl never.
#[local] Arguments msgInsufficientBalance : simpl never.
#[local] Arguments msgNotAnInteger : simpl never.
#[local] Arguments msgTransactionFailed : simpl never.
#[local] Arguments String.eqb : simpl never.
#[local] Arguments Nat.eqb : simpl never.

Ltac run :=
  unfold tryCatch, bind, get, put, ret, throw, lift, request, consoleError,
    result, after, trace in *;
  cbn in *.

(** *** Coin selection (steps 3 and 4) *)

Lemma findSuitableCoin_none amountInMist coins :
  findSuitableCoin amountInMist coins = None <->
  Forall (fun c => balance c < amountInMist) coins.
Proof.
  induction coins as [| c rest IH]; simpl.
  - split; [constructor | reflexivity].
  - destruct (Z.geb_spec (balance c) amountInMist) as [Hge | Hlt].
    + split; [discriminate |]. intros H. inversion H; subst. lia.
    + rewrite IH. split.
      * intros H. constructor; [lia | exact H].
      * intros H. inversion H; assumption.
Qed.

Lemma findSuitableCoin_some amountInMist coins coin :
  findSuitableCoin amountInMist coins = Some coin ->
  exists before after,
    coins = before ++ coin :: after
    /\ Forall (fun c => balance c < amountInMist) before
    /\ amountInMist <= balance coin.
Proof.
  induction coins as [| c rest IH]; simpl; [discriminate |].
  destruct (Z.geb_spec (balance c) amountInMist) as [Hge | Hlt].
  - intros H. injection H as <-. exists [], rest. repeat split; [constructor | lia].
  - intros H. destruct (IH H) as (before & after & -> & Hall & Hcov).
    exists (c :: before), after. repeat split; [| exact Hcov].
    constructor; [lia | exact Hall].
Qed.

(** The loop of [getBalance] computes the sum of the coin balances. *)
Lemma sumBalances_from acc coins :
  fold_left (fun totalBalance coin => totalBalance + balance coin) coins acc
  = acc + totalBalance coins.
Proof.
  revert acc. induction coins as [| c rest IH]; intros acc; simpl; [lia |].
  rewrite IH. lia.
Qed.

Lemma sumBalances_total coins : sumBalances coins = totalBalance coins.
Proof. unfold sumBalances. rewrite sumBalances_from. lia. Qed.

(** The u64 check of the builder, by the range of the value. *)
Lemma pureU64_accepts value : 0 <= value <= u64Max -> pureU64 value = Returns tt.
Proof.
  intros H. unfold pureU64.
  destruct (Z.leb_spec 0 value); [| lia].
  destruct (Z.leb_spec value u64Max); [reflexivity | lia].
Qed.

Lemma pureU64_refuses value :
  value < 0 \/ u64Max < value -> pureU64 value = Throws (msgInvalidU64 value).
Proof.
  intros H. unfold pureU64.
  destruct (Z.leb_spec 0 value); [| reflexivity].
  destruct (Z.leb_spec value u64Max); [lia | reflexivity].
Qed.

Lemma pureU64_returns value : pureU64 value = Returns tt -> 0 <= value <= u64Max.
Proof.
  unfold pureU64.
  destruct (Z.leb_spec 0 value); [| discriminate].
  destruct (Z.leb_spec value u64Max); [lia | discriminate].
Qed.

Lemma split_refused b coin amount rest :
  amount < 0 \/ u64Max < amount ->
  addCommands b (SplitCoins coin [amount] :: rest) = Throws (msgInvalidU64 amount).
Proof.
  intros H. cbn [addCommands addCommand pureU64s].
  rewrite (pureU64_refuses amount H). reflexivity.
Qed.

Lemma split_recorded b coin amount rest recorded :
  addCommands b (SplitCoins coin [amount] :: rest) = Returns recorded ->
  0 <= amount <= u64Max.
Proof.
  cbn [addCommands addCommand pureU64s].
  destruct (pureU64 amount) as [[] |] eqn:Hcheck; [| discriminate].
  intros _. apply pureU64_returns, Hcheck.
Qed.

(** What the builder has recorded, when no call threw, is what it was
    asked to record. *)
Lemma addCommands_recorded b cmds recorded :
  addCommands b cmds = Returns recorded -> recorded = cmds.
Proof.
  revert recorded. induction cmds as [| c rest IH]; simpl; intros recorded H.
  - injection H as <-. reflexivity.
  - destruct (addCommand b c); [| discriminate].
    destruct (addCommands b rest) as [done |]; [| discriminate].
    injection H as <-. rewrite (IH done eq_refl). reflexivity.
Qed.

Lemma selectPayment_recorded b amountInMist coins recipient cmds :
  selectPayment b amountInMist coins recipient = Returns cmds ->
  exists coin,
    findSuitableCoin amountInMist coins = Some coin
    /\ cmds = paymentCommands coin amountInMist recipient
    /\ addCommands b cmds = Returns cmds.
Proof.
  unfold selectPayment.
  destruct (findSuitableCoin amountInMist coins) as [coin |]; [| discriminate].
  intros H. exists coin. split; [reflexivity |].
  pose proof (addCommands_recorded _ _ _ H) as ->. split; [reflexivity | exact H].
Qed.

(** *** The balance precondition (step 1) *)

Section Send.
Context (lib : Library) (ledger : Ledger).

Lemma getBalance_run (s : Service) ev owner :
  address s = Some owner ->
  getBalance ledger s ev
  = (Returns (reportedBalance (getCoins ledger (length (calls ev)) owner)), s,
     afterBalance owner (getCoins ledger (length (calls ev)) owner) ev).
Proof.
  intros Haddr. unfold getBalance. run. rewrite Haddr. cbn.
  destruct (getCoins ledger (length (calls ev)) owner); reflexivity.
Qed.

Lemma getBalance_no_wallet (s : Service) ev :
  address s = None -> getBalance ledger s ev = (Returns "0", s, ev).
Proof. intros Haddr. unfold getBalance. run. rewrite Haddr. reflexivity. Qed.

(** C3, as amended. An authenticated send first compares the amount
    with the balance [getBalance] reports: when that balance parses
    to zero the send fails with the no-SUI error, and otherwise, when
    the amount parses to more than it, with the insufficient-balance
    error. In both cases the only ledger call made is the coin query
    of [getBalance]: selection is never reached, and the error is not
    the merging error. *)
Theorem balance_precondition
    (recipient amount : string) (s : Service) ev proof kp owner :
  zkProof s = Some proof ->
  ephemeralKeyPair s = Some kp ->
  address s = Some owner ->
  let balance := reportedBalance (getCoins ledger (length (calls ev)) owner) in
  let r := sendTransaction lib ledger recipient amount s ev in
  (strictEq (parseFloat balance) (ofBigInt 0) = true ->
     result r = Returns (SendFailure msgNoSui)
     /\ calls (trace r) = calls ev ++ [CallGetCoins owner])
  /\ (strictEq (parseFloat balance) (ofBigInt 0) = false ->
      gt (parseFloat amount) (parseFloat balance) = true ->
        result r = Returns (SendFailure (msgInsufficientBalance balance amount))
        /\ calls (trace r) = calls ev ++ [CallGetCoins owner])
  /\ msgNoSui <> msgMergeNotImplemented
  /\ msgInsufficientBalance balance amount <> msgMergeNotImplemented.
Proof.
  intros Hproof Hkey Haddr balance r.
  assert (Hrun : r = sendTransaction lib ledger recipient amount s ev) by reflexivity.
  unfold sendTransaction in Hrun.
  unfold tryCatch at 1, bind at 1, get at 1 in Hrun.
  rewrite Hproof, Hkey, Haddr in Hrun.
  unfold bind at 1 in Hrun. rewrite (getBalance_run s ev owner Haddr) in Hrun.
  fold balance in Hrun.
  split; [| split; [| split]].
  - intros Hzero. rewrite Hzero in Hrun. rewrite Hrun. split; reflexivity.
  - intros Hzero Hgt. rewrite Hzero, Hgt in Hrun. rewrite Hrun. split; reflexivity.
  - discriminate.
  - discriminate.
Qed.

Lemma length_snoc {A} (l : list A) (x : A) : length (l ++ [x]) = S (length l).
Proof. rewrite length_app. simpl. lia. Qed.

(** When both checks pass, the coins are queried again and the
    selection runs on them. If it throws, because no coin covers the
    amount or because the builder refuses a command, the send fails
    with that message after the two coin queries; otherwise the send
    asks for the gas price and, given one, asks the ledger to build the
    transaction of the selected commands. *)
Lemma send_selection
    (recipient amount : string) (s : Service) ev proof kp owner coins amountInMist :
  zkProof s = Some proof ->
  ephemeralKeyPair s = Some kp ->
  address s = Some owner ->
  let balance := reportedBalance (getCoins ledger (length (calls ev)) owner) in
  strictEq (parseFloat balance) (ofBigInt 0) = false ->
  gt (parseFloat amount) (parseFloat balance) = false ->
  getCoins ledger (S (length (calls ev))) owner = Returns coins ->
  coins <> [] ->
  floorToBigInt (mul (parseFloat amount) billion) = Some amountInMist ->
  let r := sendTransaction lib ledger recipient amount s ev in
  match selectPayment (builder lib) amountInMist coins recipient with
  | Throws message =>
      result r = Returns (SendFailure message)
      /\ calls (trace r) = calls ev ++ [CallGetCoins owner; CallGetCoins owner]
  | Returns cmds =>
      forall price,
        getReferenceGasPrice ledger (S (S (length (calls ev)))) = Returns price ->
        exists rest,
          calls (trace r)
          = calls ev ++ [CallGetCoins owner; CallGetCoins owner; CallGasPrice;
                         CallBuild {| commands := cmds; sender := Some owner;
                                      gasPrice := Some price;
                                      gasBudget := Some 10000000 |}] ++ rest
  end.
Proof.
  intros Hproof Hkey Haddr balance Hzero Hgt Hcoins Hne Hamt r.
  assert (Hrun : r = sendTransaction lib ledger recipient amount s ev) by reflexivity.
  clearbody r. unfold sendTransaction in Hrun.
  unfold tryCatch at 1, bind at 1, get at 1 in Hrun.
  rewrite Hproof, Hkey, Haddr in Hrun.
  unfold bind at 1 in Hrun. rewrite (getBalance_run s ev owner Haddr) in Hrun.
  fold balance in Hrun. rewrite Hzero, Hgt in Hrun.
  unfold bind at 1, request at 1 in Hrun.
  unfold afterBalance in Hrun. cbn [calls console] in Hrun.
  rewrite length_snoc, Hcoins in Hrun.
  destruct coins as [| c0 coins']; [congruence |].
  change ((length (c0 :: coins') =? 0)%nat) with false in Hrun.
  rewrite Hamt in Hrun.
  unfold bind at 1, lift at 1 in Hrun.
  destruct (selectPayment (builder lib) amountInMist (c0 :: coins') recipient)
    as [cmds | message].
  - intros price Hprice.
    unfold bind at 1, request at 1 in Hrun. cbn [calls console] in Hrun.
    rewrite !length_snoc, Hprice in Hrun.
    unfold bind at 1, request at 1 in Hrun. cbn [calls console] in Hrun.
    set (tx := {| commands := cmds; sender := Some owner; gasPrice := Some price;
                  gasBudget := Some 10000000 |}) in *.
    destruct (build ledger _ tx) as [txBytes | m];
      [| exists []; rewrite Hrun; run; rewrite <- !app_assoc; reflexivity].
    unfold createZkLoginSignature in Hrun.
    unfold tryCatch at 1, bind at 1, tryCatch at 1, bind at 1, get at 1 in Hrun.
    rewrite Hkey, Hproof in Hrun.
    unfold bind at 1, lift at 1 in Hrun.
    destruct (sign lib kp txBytes) as [ephemeralSignature | m];
      [| exists []; rewrite Hrun; run; rewrite <- !app_assoc; reflexivity].
    unfold lift at 1 in Hrun.
    destruct (getZkLoginSignature lib proof (maxEpoch s) ephemeralSignature)
      as [zkLoginSignature | m];
      [| exists []; rewrite Hrun; run; rewrite <- !app_assoc; reflexivity].
    unfold bind at 1, request at 1 in Hrun. cbn [calls console] in Hrun.
    exists [CallExecute txBytes zkLoginSignature]. rewrite Hrun.
    destruct (executeTransactionBlock ledger _ txBytes zkLoginSignature) as [res | m];
      [destruct (status res) as [st |]; [destruct (String.eqb st "success") |] |];
      run; rewrite <- !app_assoc; reflexivity.
  - rewrite Hrun. run. rewrite <- app_assoc. split; reflexivity.
Qed.

(** *** No proof-window check *)

Ltac stop_with Hrun new :=
  exists new; rewrite Hrun; run;
  rewrite <- ?app_assoc, ?app_nil_r, ?String.eqb_refl; cbn;
  split; [reflexivity | split; [reflexivity | first [discriminate | intros _; eauto]]].

Lemma send_pipeline (recipient amount : string) (s : Service) ev :
  let r := sendTransaction lib ledger recipient amount s ev in
  exists new,
    calls (trace r) = calls ev ++ new
    /\ sendPipeline new = true
    /\ (existsb executed new = true ->
        (exists txId gas, result r = Returns (SendSuccess txId gas))
        \/ result r = Returns (SendFailure msgSigningFailed)).
Proof.
  intros r.
  assert (Hrun : r = sendTransaction lib ledger recipient amount s ev) by reflexivity.
  clearbody r. unfold sendTransaction in Hrun.
  unfold tryCatch at 1, bind at 1, get at 1 in Hrun.
  destruct (zkProof s) as [proof |] eqn:Hproof; [| stop_with Hrun (@nil Call)].
  destruct (ephemeralKeyPair s) as [kp |] eqn:Hkey; [| stop_with Hrun (@nil Call)].
  destruct (address s) as [owner |] eqn:Haddr; [| stop_with Hrun (@nil Call)].
  unfold bind at 1 in Hrun. rewrite (getBalance_run s ev owner Haddr) in Hrun.
  set (balance := reportedBalance _) in Hrun.
  destruct (strictEq (parseFloat balance) (ofBigInt 0));
    [stop_with Hrun [CallGetCoins owner] |].
  destruct (gt (parseFloat amount) (parseFloat balance));
    [stop_with Hrun [CallGetCoins owner] |].
  unfold bind at 1, request at 1 in Hrun. unfold afterBalance in Hrun.
  cbn [calls console] in Hrun.
  destruct (getCoins ledger (length (calls ev ++ [CallGetCoins owner])) owner)
    as [coins | m];
    [| stop_with Hrun [CallGetCoins owner; CallGetCoins owner]].
  destruct ((length coins =? 0)%nat);
    [stop_with Hrun [CallGetCoins owner; CallGetCoins owner] |].
  destruct (floorToBigInt (mul (parseFloat amount) billion)) as [amountInMist |];
    [| stop_with Hrun [CallGetCoins owner; CallGetCoins owner]].
  unfold bind at 1, lift at 1 in Hrun.
  destruct (selectPayment (builder lib) amountInMist coins recipient) as [cmds | m];
    [| stop_with Hrun [CallGetCoins owner; CallGetCoins owner]].
  unfold bind at 1, request at 1 in Hrun. cbn [calls console] in Hrun.
  destruct (getReferenceGasPrice ledger _) as [price | m];
    [| stop_with Hrun [CallGetCoins owner; CallGetCoins owner; CallGasPrice]].
  unfold bind at 1, request at 1 in Hrun. cbn [calls console] in Hrun.
  set (tx := {| commands := cmds; sender := Some owner; gasPrice := Some price;
                gasBudget := Some 10000000 |}) in Hrun.
  destruct (build ledger _ tx) as [txBytes | m];
    [| stop_with Hrun [CallGetCoins owner; CallGetCoins owner; CallGasPrice;
                       CallBuild tx]].
  unfold createZkLoginSignature in Hrun.
  unfold tryCatch at 1, bind at 1, tryCatch at 1, bind at 1, get at 1 in Hrun.
  rewrite Hkey, Hproof in Hrun.
  unfold bind at 1, lift at 1 in Hrun.
  destruct (sign lib kp txBytes) as [ephemeralSignature | m];
    [| stop_with Hrun [CallGetCoins owner; CallGetCoins owner; CallGasPrice;
                       CallBuild tx]].
  unfold lift at 1 in Hrun.
  destruct (getZkLoginSignature lib proof (maxEpoch s) ephemeralSignature)
    as [zkLoginSignature | m];
    [| stop_with Hrun [CallGetCoins owner; CallGetCoins owner; CallGasPrice;
                       CallBuild tx]].
  unfold bind at 1, request at 1 in Hrun. cbn [calls console] in Hrun.
  destruct (executeTransactionBlock ledger _ txBytes zkLoginSignature) as [res | m];
    [destruct (status res) as [st |]; [destruct (String.eqb st "success") |] |];
    stop_with Hrun [CallGetCoins owner; CallGetCoins owner; CallGasPrice;
                    CallBuild tx; CallExecute txBytes zkLoginSignature].
Qed.

(** A send whose checks pass, whose selection finds a coin, whose
    commands the builder records and whose build and signing succeed
    puts the execute call, whatever the epoch of the ledger and the
    [maxEpoch] of the session: five ledger calls in all, the built
    transaction carrying the payment of the first coin that covers the
    amount, which is an unsigned 64-bit integer whenever it is split
    off. A refusal by the ledger, thrown or returned as a status,
    comes back as the signing-failed error. *)
Lemma send_reaches_execution
    (recipient amount : string) (s : Service) ev proof kp owner coins amountInMist
    cmds price txBytes ephemeralSignature zkLoginSignature :
  zkProof s = Some proof ->
  ephemeralKeyPair s = Some kp ->
  address s = Some owner ->
  let balance := reportedBalance (getCoins ledger (length (calls ev)) owner) in
  let tx := {| commands := cmds; sender := Some owner; gasPrice := Some price;
               gasBudget := Some 10000000 |} in
  strictEq (parseFloat balance) (ofBigInt 0) = false ->
  gt (parseFloat amount) (parseFloat balance) = false ->
  getCoins ledger (S (length (calls ev))) owner = Returns coins ->
  coins <> [] ->
  floorToBigInt (mul (parseFloat amount) billion) = Some amountInMist ->
  selectPayment (builder lib) amountInMist coins recipient = Returns cmds ->
  getReferenceGasPrice ledger (S (S (length (calls ev)))) = Returns price ->
  build ledger (S (S (S (length (calls ev))))) tx = Returns txBytes ->
  sign lib kp txBytes = Returns ephemeralSignature ->
  getZkLoginSignature lib proof (maxEpoch s) ephemeralSignature = Returns zkLoginSignature ->
  let r := sendTransaction lib ledger recipient amount s ev in
  (exists coin,
      findSuitableCoin amountInMist coins = Some coin
      /\ cmds = paymentCommands coin amountInMist recipient
      /\ (amountInMist < Effects.balance coin -> 0 <= amountInMist <= u64Max))
  /\ calls (trace r)
     = calls ev ++ [CallGetCoins owner; CallGetCoins owner; CallGasPrice; CallBuild tx;
                    CallExecute txBytes zkLoginSignature]
  /\ result r
     = Returns
         match executeTransactionBlock ledger (S (S (S (S (length (calls ev))))))
                 txBytes zkLoginSignature with
         | Returns res =>
             match status res with
             | Some st =>
                 if String.eqb st "success"
                 then SendSuccess (digest res) (totalGas (gasUsed res))
                 else SendFailure msgSigningFailed
             | None => SendFailure msgSigningFailed
             end
         | Throws _ => SendFailure msgSigningFailed
         end.
Proof.
  intros Hproof Hkey Haddr balance tx Hzero Hgt Hcoins Hne Hamt Hsel Hprice Hbuild
    Hsign Hzk r.
  split.
  { destruct (selectPayment_recorded _ _ _ _ _ Hsel) as (coin & Hfind & Hcmds & Hrec).
    exists coin. split; [exact Hfind |]. split; [exact Hcmds |].
    intros Hmore. rewrite Hcmds in Hrec. unfold paymentCommands in Hrec.
    destruct (Z.gtb_spec (Effects.balance coin) amountInMist); [| lia].
    exact (split_recorded _ _ _ _ _ Hrec). }
  assert (Hrun : r = sendTransaction lib ledger recipient amount s ev) by reflexivity.
  clearbody r. unfold sendTransaction in Hrun.
  unfold tryCatch at 1, bind at 1, get at 1 in Hrun.
  rewrite Hproof, Hkey, Haddr in Hrun.
  unfold bind at 1 in Hrun. rewrite (getBalance_run s ev owner Haddr) in Hrun.
  fold balance in Hrun. rewrite Hzero, Hgt in Hrun.
  unfold bind at 1, request at 1 in Hrun. unfold afterBalance in Hrun.
  cbn [calls console] in Hrun. rewrite length_snoc, Hcoins in Hrun.
  destruct coins as [| c0 coins']; [congruence |].
  change ((length (c0 :: coins') =? 0)%nat) with false in Hrun.
  rewrite Hamt in Hrun.
  unfold bind at 1, lift at 1 in Hrun. rewrite Hsel in Hrun.
  unfold bind at 1, request at 1 in Hrun. cbn [calls console] in Hrun.
  rewrite !length_snoc, Hprice in Hrun.
  unfold bind at 1, request at 1 in Hrun. cbn [calls console] in Hrun.
  fold tx in Hrun. rewrite !length_snoc, Hbuild in Hrun.
  unfold createZkLoginSignature in Hrun.
  unfold tryCatch at 1, bind at 1, tryCatch at 1, bind at 1, get at 1 in Hrun.
  rewrite Hkey, Hproof in Hrun.
  unfold bind at 1, lift at 1 in Hrun. rewrite Hsign in Hrun.
  unfold lift at 1 in Hrun. rewrite Hzk in Hrun.
  unfold bind at 1, request at 1 in Hrun. cbn [calls console] in Hrun.
  rewrite !length_snoc in Hrun.
  rewrite Hrun.
  destruct (executeTransactionBlock ledger _ txBytes zkLoginSignature) as [res | m];
    [destruct (status res) as [st |]; [destruct (String.eqb st "success") |] |];
    run; rewrite <- !app_assoc; split; reflexivity.
Qed.

(** The session's [maxEpoch] reaches nothing but the signature
    library: a send from the session with another [maxEpoch] runs as
    the send from the session itself whose library is handed that
    value. *)
Lemma send_passes_maxEpoch (recipient amount : string) (s : Service) ev other :
  sendTransaction lib ledger recipient amount (withMaxEpoch other s) ev
  = (result (sendTransaction (signingAt other lib) ledger recipient amount s ev),
     withMaxEpoch other s,
     trace (sendTransaction (signingAt other lib) ledger recipient amount s ev)).
Proof.
  destruct s as [u w k p salt e x sto].
  unfold sendTransaction, getBalance, createZkLoginSignature, address, withMaxEpoch,
    signingAt.
  run.
  repeat match goal with
         | |- context [match ?x with _ => _ end] =>
             lazymatch x with
             | context [match _ with _ => _ end] => fail
             | _ => destruct x; cbn
             end
         end;
    reflexivity.
Qed.

Lemma send_same_signature (recipient amount : string) (s : Service) ev other :
  (forall proof signature,
      getZkLoginSignature lib proof other signature
      = getZkLoginSignature lib proof (maxEpoch s) signature) ->
  sendTransaction lib ledger recipient amount (withMaxEpoch other s) ev
  = (result (sendTransaction lib ledger recipient amount s ev),
     withMaxEpoch other s,
     trace (sendTransaction lib ledger recipient amount s ev)).
Proof.
  destruct s as [u w k p salt e x sto]. cbn [maxEpoch]. intros Hsame.
  unfold sendTransaction, getBalance, createZkLoginSignature, address, withMaxEpoch.
  run.
  repeat match goal with
         | |- context [match ?x with _ => _ end] =>
             lazymatch x with
             | context [match _ with _ => _ end] => fail
             | _ => rewrite ?Hsame; destruct x; cbn
             end
         end;
    reflexivity.
Qed.

(** C4, as amended. [sendTransaction] holds no proof-window check. Its
    whole run is the same whatever the ledger answers to the epoch
    query, which it never puts. The session's [maxEpoch] is compared
    with nothing: it is only handed to the signature library, so that
    a send from the session with any other [maxEpoch] runs as the send
    whose library is handed that value, and exactly as this one when
    the library's signature does not depend on it. The calls a send
    adds are a prefix of coin query, coin query, gas price, build,
    execute; and once the execute call has been made the send either
    succeeds or fails with the one signing-failed error, whatever the
    ledger gave as its reason. *)
Theorem send_never_checks_epoch
    (epoch : nat -> outcome Z) (other : option Z) (recipient amount : string)
    (s : Service) ev :
  let r := sendTransaction lib ledger recipient amount s ev in
  let r' := sendTransaction lib ledger recipient amount (withMaxEpoch other s) ev in
  sendTransaction lib (withEpoch epoch ledger) recipient amount s ev = r
  /\ result r' = result (sendTransaction (signingAt other lib) ledger recipient amount s ev)
  /\ trace r' = trace (sendTransaction (signingAt other lib) ledger recipient amount s ev)
  /\ after r' = withMaxEpoch other s
  /\ ((forall proof signature,
          getZkLoginSignature lib proof other signature
          = getZkLoginSignature lib proof (maxEpoch s) signature) ->
      result r' = result r /\ trace r' = trace r)
  /\ exists new,
       calls (trace r) = calls ev ++ new
       /\ sendPipeline new = true
       /\ (existsb executed new = true ->
           (exists txId gas, result r = Returns (SendSuccess txId gas))
           \/ result r = Returns (SendFailure msgSigningFailed)).
Proof.
  intros r r'.
  split; [reflexivity |].
  assert (Hother : r' = _) by exact (send_passes_maxEpoch recipient amount s ev other).
  split; [rewrite Hother; reflexivity |].
  split; [rewrite Hother; reflexivity |].
  split; [rewrite Hother; reflexivity |].
  split; [| apply send_pipeline].
  intros Hsame. subst r'.
  rewrite (send_same_signature recipient amount s ev other Hsame).
  split; reflexivity.
Qed.
End Send.

(** C2. A send that has passed the balance checks scans the coins in
    the order the ledger returned them and takes the first one whose
    balance is at least the amount. For a coin holding more it asks
    the builder for a split of the exact amount and the transfer of
    that part, for a coin holding exactly the amount for the transfer
    of the whole coin; when the builder records them, these and no
    other commands are in the transaction the ledger is asked to
    build, once the gas price is known, and when the builder refuses
    one the send fails with the builder's message, as it always does
    for the split of an amount that is no unsigned 64-bit integer.
    When no single coin covers the amount the send fails with the
    merging error after the two coin queries, whatever the sum of the
    coins. *)
Theorem coin_selection_first_fit
    (lib : Library) (ledger : Ledger) (recipient amount : string) (s : Service) ev
    proof kp owner coins amountInMist :
  zkProof s = Some proof ->
  ephemeralKeyPair s = Some kp ->
  address s = Some owner ->
  strictEq (parseFloat (reportedBalance (getCoins ledger (length (calls ev)) owner)))
    (ofBigInt 0) = false ->
  gt (parseFloat amount)
    (parseFloat (reportedBalance (getCoins ledger (length (calls ev)) owner))) = false ->
  getCoins ledger (S (length (calls ev))) owner = Returns coins ->
  coins <> [] ->
  floorToBigInt (mul (parseFloat amount) billion) = Some amountInMist ->
  let r := sendTransaction lib ledger recipient amount s ev in
  match findSuitableCoin amountInMist coins with
  | Some coin =>
      let cmds :=
        if amountInMist <? balance coin
        then [ SplitCoins (Object (coinObjectId coin)) [amountInMist];
               TransferObjects [NestedResult 0 0] recipient ]
        else [ TransferObjects [Object (coinObjectId coin)] recipient ] in
      (exists before after,
          coins = before ++ coin :: after
          /\ Forall (fun c => balance c < amountInMist) before
          /\ amountInMist <= balance coin)
      /\ match addCommands (builder lib) cmds with
         | Returns _ =>
             forall price,
               getReferenceGasPrice ledger (S (S (length (calls ev)))) = Returns price ->
               exists rest,
                 calls (trace r)
                 = calls ev ++ [CallGetCoins owner; CallGetCoins owner; CallGasPrice;
                                CallBuild {| commands := cmds; sender := Some owner;
                                             gasPrice := Some price;
                                             gasBudget := Some 10000000 |}] ++ rest
         | Throws message =>
             result r = Returns (SendFailure message)
             /\ calls (trace r) = calls ev ++ [CallGetCoins owner; CallGetCoins owner]
         end
      /\ (amountInMist < balance coin ->
          amountInMist < 0 \/ u64Max < amountInMist ->
          result r = Returns (SendFailure (msgInvalidU64 amountInMist))
          /\ calls (trace r) = calls ev ++ [CallGetCoins owner; CallGetCoins owner])
  | None =>
      Forall (fun c => balance c < amountInMist) coins
      /\ result r = Returns (SendFailure msgMergeNotImplemented)
      /\ calls (trace r) = calls ev ++ [CallGetCoins owner; CallGetCoins owner]
  end.
Proof.
  intros Hproof Hkey Haddr Hzero Hgt Hcoins Hne Hamt r.
  pose proof (send_selection lib ledger recipient amount s ev proof kp owner coins
                amountInMist Hproof Hkey Haddr Hzero Hgt Hcoins Hne Hamt) as Hrun.
  cbv zeta in Hrun. fold r in Hrun.
  unfold selectPayment, paymentCommands in Hrun.
  destruct (findSuitableCoin amountInMist coins) as [coin |] eqn:Hfind.
  - pose proof (findSuitableCoin_some _ _ _ Hfind) as Hfirst.
    cbv zeta. split; [exact Hfirst |].
    assert (Hcmds : (balance coin >? amountInMist) = (amountInMist <? balance coin))
      by (rewrite Z.gtb_ltb; reflexivity).
    rewrite Hcmds in Hrun.
    destruct (Z.ltb_spec amountInMist (balance coin)) as [Hmore | Hexact].
    + split.
      * match type of Hrun with
        | match addCommands ?b ?c with _ => _ end =>
            destruct (addCommands b c) as [recorded | message] eqn:Hrec
        end; [| exact Hrun].
        rewrite (addCommands_recorded _ _ _ Hrec) in Hrun. exact Hrun.
      * intros _ Hrange. rewrite (split_refused _ _ _ _ Hrange) in Hrun. exact Hrun.
    + split; [| intros Hmore; lia].
      match type of Hrun with
      | match addCommands ?b ?c with _ => _ end =>
          destruct (addCommands b c) as [recorded | message] eqn:Hrec
      end; [| exact Hrun].
      rewrite (addCommands_recorded _ _ _ Hrec) in Hrun. exact Hrun.
  - split; [apply findSuitableCoin_none, Hfind | exact Hrun].
Qed.

Import Scenarios.

(** The selector on the coins 30, 50, 100 and the amount 40: the coin
    of 50 is taken and split. *)
Example select_splits_the_first_fit :
  findSuitableCoin 40 [coin "a" 30; coin "b" 50; coin "c" 100] = Some (coin "b" 50)
  /\ selectPayment plainBuilder 40 [coin "a" 30; coin "b" 50; coin "c" 100] bob
     = Returns [SplitCoins (Object "b") [40]; TransferObjects [NestedResult 0 0] bob].
Proof. split; reflexivity. Qed.

(** On the coins 10, 10, 10 and the amount 25 the selection fails,
    although the coins add up to 30. *)
Example select_never_merges :
  totalBalance [coin "a" 10; coin "b" 10; coin "c" 10] = 30
  /\ selectPayment plainBuilder 25 [coin "a" 10; coin "b" 10; coin "c" 10] bob
     = Throws msgMergeNotImplemented.
Proof. split; reflexivity. Qed.

(** A send of 40 SUI from coins of 30, 50 and 100 SUI: the ledger is
    asked to build the split of the coin of 50. *)
Lemma coin_selection_first_fit_witness :
  let coins := [coin "a" (30 * sui); coin "b" (50 * sui); coin "c" (100 * sui)] in
  let ledger := ledgerWith coins 5 (Returns okResult) in
  let r := sendTransaction zkLib ledger bob "40" loggedIn noEvents in
  findSuitableCoin (40 * sui) coins = Some (coin "b" (50 * sui))
  /\ exists rest,
       calls (trace r)
       = [CallGetCoins alice; CallGetCoins alice; CallGasPrice;
          CallBuild {| commands := [ SplitCoins (Object "b") [40 * sui];
                                     TransferObjects [NestedResult 0 0] bob ];
                       sender := Some alice; gasPrice := Some 1000;
                       gasBudget := Some 10000000 |}] ++ rest.
Proof.
  intros coins ledger r.
  assert (Hfind : findSuitableCoin (40 * sui) coins = Some (coin "b" (50 * sui)))
    by reflexivity.
  split; [exact Hfind |].
  pose proof (coin_selection_first_fit zkLib ledger bob "40" loggedIn noEvents
                someProof someKey alice coins (40 * sui)) as H.
  cbv zeta in H.
  repeat (lapply H; [clear H; intros H | solve [vm_compute; reflexivity | discriminate]]).
  rewrite Hfind in H. destruct H as (_ & H & _).
  exact (H 1000 eq_refl).
Defined.

(** The same for coins of 10 SUI each and a send of 25: no coin covers
    the amount and the send fails, although the coins add up to 30. *)
Example send_never_merges :
  let coins := [coin "a" (10 * sui); coin "b" (10 * sui); coin "c" (10 * sui)] in
  let ledger := ledgerWith coins 5 (Returns okResult) in
  let r := sendTransaction zkLib ledger bob "25" loggedIn noEvents in
  totalBalance coins = 30 * sui
  /\ result r = Returns (SendFailure msgMergeNotImplemented)
  /\ calls (trace r) = [CallGetCoins alice; CallGetCoins alice].
Proof. vm_compute. repeat split. Qed.

(** A negative amount passes the balance checks and every coin covers
    it; the builder refuses the split, and the send fails with the
    builder's message before the gas price is asked for. *)
Example negative_amount_refused :
  let ledger := ledgerWith [coin "a" (50 * sui)] 5 (Returns okResult) in
  let r := sendTransaction zkLib ledger bob "-1" loggedIn noEvents in
  floorToBigInt (mul (parseFloat "-1") billion) = Some (- sui)
  /\ result r = Returns (SendFailure (msgInvalidU64 (- sui)))
  /\ calls (trace r) = [CallGetCoins alice; CallGetCoins alice].
Proof. vm_compute. repeat split. Qed.

Lemma send_reaches_execution_witness :
  let ledger := ledgerWith [coin "a" (50 * sui)] 100 (Returns okResult) in
  let r := sendTransaction zkLib ledger bob "40" loggedIn noEvents in
  maxEpoch loggedIn = Some 10
  /\ existsb executed (calls (trace r)) = true
  /\ exists gas, result r = Returns (SendSuccess "digest" gas).
Proof.
  intros ledger r.
  pose proof (send_reaches_execution zkLib ledger bob "40" loggedIn noEvents
                someProof someKey alice [coin "a" (50 * sui)] (40 * sui)
                [SplitCoins (Object "a") [40 * sui]; TransferObjects [NestedResult 0 0] bob]
                1000 [0; 1] [1; 2; 3] "zk-signature") as H.
  cbv zeta in H.
  repeat (lapply H; [clear H; intros H | solve [vm_compute; reflexivity | discriminate]]).
  destruct H as (_ & Hcalls & Hres). fold r in Hcalls, Hres.
  split; [reflexivity |]. split.
  - rewrite Hcalls. reflexivity.
  - eexists. rewrite Hres. reflexivity.
Defined.

Lemma balance_precondition_witness :
  let ledger := ledgerWith [coin "a" (10 * sui); coin "b" (10 * sui); coin "c" (10 * sui)]
                  5 (Returns okResult) in
  let r := sendTransaction zkLib ledger bob "31" loggedIn noEvents in
  result r = Returns (SendFailure (msgInsufficientBalance "30.000000" "31"))
  /\ calls (trace r) = [CallGetCoins alice].
Proof.
  intros ledger r.
  destruct (balance_precondition zkLib ledger bob "31" loggedIn noEvents
              someProof someKey alice eq_refl eq_refl eq_refl) as (_ & H & _).
  apply H; reflexivity.
Defined.

(** C3 fails as stated: with one coin of 600 MIST the wallet reports
    0.000001 SUI; a send of 0.000001 SUI asks for 1000 MIST, more than
    the total, passes the balance check and fails in the selection
    with the merging error. *)
Lemma balance_precondition_counterexample :
  let ledger := ledgerWith [coin "a" 600] 5 (Returns okResult) in
  let r := sendTransaction zkLib ledger bob "0.000001" loggedIn noEvents in
  totalBalance [coin "a" 600] = 600
  /\ floorToBigInt (mul (parseFloat "0.000001") billion) = Some 1000
  /\ result r = Returns (SendFailure msgMergeNotImplemented)
  /\ calls (trace r) = [CallGetCoins alice; CallGetCoins alice].
Proof. vm_compute. repeat split. Qed.

(** The spec's own figures read in minimal units: 31 MIST asked of
    coins of 10, 10 and 10 MIST is refused with the no-SUI error. *)
Example balance_rounds_to_zero :
  let ledger := ledgerWith [coin "a" 10; coin "b" 10; coin "c" 10] 5 (Returns okResult) in
  let r := sendTransaction zkLib ledger bob "0.000000031" loggedIn noEvents in
  floorToBigInt (mul (parseFloat "0.000000031") billion) = Some 31
  /\ result r = Returns (SendFailure msgNoSui).
Proof. vm_compute. repeat split. Qed.

(** C4 fails as stated: the session's window ended at epoch 10, the
    ledger stands at epoch 100 and refuses the transaction; the send
    reaches the execute call all the same and reports the signing-failed
    error. *)
Lemma proof_window_counterexample :
  let ledger := ledgerWith [coin "a" (50 * sui)] 100
                  (Throws "ZKLogin expired at epoch 10") in
  let r := sendTransaction zkLib ledger bob "40" loggedIn noEvents in
  maxEpoch loggedIn = Some 10
  /\ (forall n, getLatestSuiSystemState ledger n = Returns 100)
  /\ existsb executed (calls (trace r)) = true
  /\ result r = Returns (SendFailure msgSigningFailed).
Proof. vm_compute. repeat split. Qed.
End Sending.

(* ===================================================================== *)
(** ** What the operations of the proof-scheme service keep *)
(* ===================================================================== *)

Module Invariants.
Import JsString JsNumber Effects Browser Reference Hoare ZkLogin.
Local Open Scope Z_scope.

Section Service.
Context (lib : Library) (ledger : Ledger).

(** *** Read-only methods *)

Lemma getBalance_readOnly : readOnly (getBalance ledger).
Proof. intros I. unfold getBalance. repeat keeps_step. Qed.

Lemma createZkLoginSignature_readOnly txBytes :
  readOnly (createZkLoginSignature lib txBytes).
Proof. intros I. unfold createZkLoginSignature. repeat keeps_step. Qed.

Lemma sendTransaction_readOnly recipient amount :
  readOnly (sendTransaction lib ledger recipient amount).
Proof.
  intros I. unfold sendTransaction.
  repeat first [ apply getBalance_readOnly
               | apply createZkLoginSignature_readOnly
               | keeps_step ].
Qed.

Lemma getTransactionHistory_readOnly now :
  readOnly (getTransactionHistory lib ledger now).
Proof. intros I. unfold getTransactionHistory. repeat keeps_step. Qed.

Lemma generateZkLoginAddress_readOnly userData salt provider now :
  readOnly (generateZkLoginAddress lib userData salt provider now).
Proof. intros I. unfold generateZkLoginAddress. repeat keeps_step. Qed.

Lemma generateMockZkProof_readOnly userData provider :
  readOnly (generateMockZkProof lib userData provider).
Proof. intros I. unfold generateMockZkProof. repeat keeps_step. Qed.

(** *** The salt store *)

Lemma saltKey_not_sessionKey p sub : saltKey p sub <> sessionKey.
Proof. unfold saltKey, sessionKey. destruct p; cbn; discriminate. Qed.

Lemma getTruthy_insert_ne (m : gmap string string) k k' v :
  k' <> k -> getTruthy (<[k' := v]> m) k = getTruthy m k.
Proof. intros Hne. unfold getTruthy. rewrite lookup_insert_ne by exact Hne. reflexivity. Qed.

Lemma getTruthy_insert_eq (m : gmap string string) k v :
  truthy v = true -> getTruthy (<[k := v]> m) k = Some v.
Proof. intros Hv. unfold getTruthy. rewrite lookup_insert_eq, Hv. reflexivity. Qed.

Lemma getTruthy_delete_ne (m : gmap string string) k k' :
  k' <> k -> getTruthy (delete k' m) k = getTruthy m k.
Proof. intros Hne. unfold getTruthy. rewrite lookup_delete_ne by exact Hne. reflexivity. Qed.

Section Salt.
Context (p : Provider) (sub : jsval) (salt : string).

Ltac field_assignment :=
  intros s ev H; exact H.

Lemma setUser_keeps_salt u : keeps (saltIs p sub salt) (setUser u).
Proof. field_assignment. Qed.

Lemma setWalletAddress_keeps_salt a : keeps (saltIs p sub salt) (setWalletAddress a).
Proof. field_assignment. Qed.

Lemma setEphemeralKeyPair_keeps_salt k : keeps (saltIs p sub salt) (setEphemeralKeyPair k).
Proof. field_assignment. Qed.

Lemma setZkProof_keeps_salt x : keeps (saltIs p sub salt) (setZkProof x).
Proof. field_assignment. Qed.

Lemma setUserSalt_keeps_salt x : keeps (saltIs p sub salt) (setUserSalt x).
Proof. field_assignment. Qed.

Lemma setMaxEpoch_keeps_salt e : keeps (saltIs p sub salt) (setMaxEpoch e).
Proof. field_assignment. Qed.

Lemma setSessionExpiry_keeps_salt e : keeps (saltIs p sub salt) (setSessionExpiry e).
Proof. field_assignment. Qed.

Lemma updateStorage_keeps_salt f :
  (forall sto, getTruthy (localStorage (f sto)) (saltKey p sub)
               = getTruthy (localStorage sto) (saltKey p sub)) ->
  keeps (saltIs p sub salt) (updateStorage f).
Proof.
  intros Hf s ev H. unfold saltIs, storedSalt in *. cbn. rewrite Hf. exact H.
Qed.

Lemma logout_keeps_salt : keeps (saltIs p sub salt) logout.
Proof.
  intros s ev H. unfold saltIs, storedSalt in *. cbn.
  rewrite getTruthy_delete_ne; [exact H |].
  intros Heq. exact (saltKey_not_sessionKey p sub (eq_sym Heq)).
Qed.

Lemma saveSecureSession_keeps_salt : keeps (saltIs p sub salt) (saveSecureSession lib).
Proof.
  unfold saveSecureSession. keeps_step; [keeps_step |].
  apply updateStorage_keeps_salt. intros sto. cbn.
  apply getTruthy_insert_ne. intros Heq.
  exact (saltKey_not_sessionKey p sub (eq_sym Heq)).
Qed.

(** A login of any subject leaves the salt of this one alone: it writes
    only under a key that held nothing. *)
Lemma getUserSalt_keeps_salt sub' p' draw :
  keeps (saltIs p sub salt) (getUserSalt sub' p' draw).
Proof.
  intros s ev H. unfold saltIs, storedSalt in *.
  unfold getUserSalt, bind, get, ret, updateStorage, put. cbn.
  destruct (getTruthy (localStorage (storage s)) (saltKey p' sub')) as [v |] eqn:Hother;
    cbn; [exact H |].
  rewrite getTruthy_insert_ne; [exact H |].
  intros Heq. rewrite Heq, H in Hother. discriminate.
Qed.

Lemma restoreSession_keeps_salt now : keeps (saltIs p sub salt) (restoreSession lib now).
Proof.
  unfold restoreSession.
  repeat first [ apply logout_keeps_salt | apply setUser_keeps_salt
               | apply setWalletAddress_keeps_salt | apply setSessionExpiry_keeps_salt
               | apply setUserSalt_keeps_salt | apply setZkProof_keeps_salt
               | apply setMaxEpoch_keeps_salt | keeps_step ].
Qed.

Lemma initiateLogin_keeps_salt provider fresh randomness now :
  keeps (saltIs p sub salt) (initiateLogin lib ledger provider fresh randomness now).
Proof.
  unfold initiateLogin.
  repeat first [ apply setEphemeralKeyPair_keeps_salt | apply setMaxEpoch_keeps_salt
               | apply updateStorage_keeps_salt; intros sto; reflexivity
               | keeps_step ].
Qed.

Lemma handleOAuthCallback_keeps_salt userToken now draw :
  keeps (saltIs p sub salt) (handleOAuthCallback lib userToken now draw).
Proof.
  unfold handleOAuthCallback.
  repeat first [ apply setEphemeralKeyPair_keeps_salt | apply setUserSalt_keeps_salt
               | apply setWalletAddress_keeps_salt | apply setZkProof_keeps_salt
               | apply setUser_keeps_salt | apply setSessionExpiry_keeps_salt
               | apply getUserSalt_keeps_salt | apply saveSecureSession_keeps_salt
               | apply generateZkLoginAddress_readOnly
               | apply generateMockZkProof_readOnly
               | keeps_step ].
Qed.

(** Every operation keeps a stored salt, and so does every sequence. *)
Lemma perform_keeps_salt op : keeps (saltIs p sub salt) (perform lib ledger op).
Proof.
  destruct op; cbn [perform]; try apply keeps_drop.
  - apply initiateLogin_keeps_salt.
  - apply handleOAuthCallback_keeps_salt.
  - apply restoreSession_keeps_salt.
  - apply logout_keeps_salt.
  - apply getBalance_readOnly.
  - apply sendTransaction_readOnly.
  - apply getTransactionHistory_readOnly.
Qed.

Lemma performAll_keeps_salt ops : forall s ev,
  saltIs p sub salt s -> saltIs p sub salt (fst (performAll lib ledger ops s ev)).
Proof.
  induction ops as [| op rest IH]; intros s ev H; cbn [performAll]; [exact H |].
  apply IH. apply keeps_after; [apply perform_keeps_salt | exact H].
Qed.
End Salt.

(** *** The ephemeral key pair *)

Lemma restoreSession_keeps_noKey now : keeps noEphemeralKey (restoreSession lib now).
Proof.
  unfold restoreSession.
  repeat first [ keeps_step
               | (intros ? ? Hkey; exact Hkey)
               | (intros ? ? Hkey; reflexivity) ].
Qed.

Lemma logout_keeps_noKey : keeps noEphemeralKey logout.
Proof. intros s ev H. reflexivity. Qed.

(** No operation other than a login gives the service an ephemeral key
    pair. *)
Lemma perform_keeps_noKey op :
  isLogin op = false -> keeps noEphemeralKey (perform lib ledger op).
Proof.
  destruct op; cbn [perform isLogin]; intros Hop; try discriminate;
    try apply keeps_drop.
  - apply restoreSession_keeps_noKey.
  - apply logout_keeps_noKey.
  - apply getBalance_readOnly.
  - apply sendTransaction_readOnly.
  - apply getTransactionHistory_readOnly.
Qed.

Lemma performAll_keeps_noKey ops : forall s ev,
  forallb (fun op => negb (isLogin op)) ops = true ->
  noEphemeralKey s -> noEphemeralKey (fst (performAll lib ledger ops s ev)).
Proof.
  induction ops as [| op rest IH]; intros s ev Hops H; cbn [performAll]; [exact H |].
  cbn [forallb] in Hops. apply andb_true_iff in Hops as [Hop Hrest].
  apply IH; [exact Hrest |].
  apply keeps_after; [| exact H].
  apply perform_keeps_noKey. destruct (isLogin op); [discriminate | reflexivity].
Qed.

(** Without an ephemeral key pair a send stops at its first line. *)
Lemma send_without_key recipient amount (s : Service) ev :
  noEphemeralKey s ->
  sendTransaction lib ledger recipient amount s ev
  = (Returns (SendFailure msgNotAuthenticated), s,
     {| calls := calls ev; console := console ev ++ ["Transaction failed"] |}).
Proof.
  intros H. unfold noEphemeralKey in H.
  unfold sendTransaction, tryCatch, bind, get. rewrite H.
  destruct (zkProof s); reflexivity.
Qed.

(** What [restoreSession] does, case by case. *)
Lemma restoreSession_run now (s : Service) ev :
  restoreSession lib now s ev
  = match getTruthy (localStorage (storage s)) sessionKey with
    | None => (Returns false, s, ev)
    | Some data =>
        match parseSession lib data with
        | None => (Returns false, s, ev)
        | Some session =>
            if expired now (sd_sessionExpiry session)
            then (Returns false, loggedOut s, ev)
            else (Returns true, reinstated session s, ev)
        end
    end.
Proof.
  unfold restoreSession, tryCatch, bind, get.
  destruct (getTruthy (localStorage (storage s)) sessionKey) as [data |]; [| reflexivity].
  destruct (parseSession lib data) as [session |]; [| reflexivity].
  destruct (expired now (sd_sessionExpiry session)); reflexivity.
Qed.
End Service.
End Invariants.

(* ===================================================================== *)
(** ** Salts and sessions *)
(* ===================================================================== *)

Module Sessions.
Import JsString JsNumber Effects Browser Reference Hoare Invariants.
Local Open Scope Z_scope.

Lemma digitsFrom_nonempty radix fuel : forall n acc,
  acc <> [] -> digitsFrom radix fuel n acc <> [].
Proof.
  induction fuel as [| fuel IH]; intros n acc Hacc; simpl; [exact Hacc |].
  destruct (n / radix =? 0); [discriminate |]. apply IH. discriminate.
Qed.

(** A printed number is never the empty string. *)
Lemma truthy_toStringRadix radix n : truthy (toStringRadix radix n) = true.
Proof.
  unfold toStringRadix, natDigits.
  pose proof (digitsFrom_nonempty radix (S (Z.to_nat (Z.log2 n))) n
                [digitChar 0] ltac:(discriminate)) as _.
  assert (H : digitsFrom radix (S (Z.to_nat (Z.log2 n))) n [] <> []).
  { simpl. destruct (n / radix =? 0); [discriminate |].
    apply digitsFrom_nonempty. discriminate. }
  destruct (digitsFrom radix (S (Z.to_nat (Z.log2 n))) n []) as [| c l];
    [congruence | reflexivity].
Qed.

Section ZkSessions.
Import ZkLogin.
Context (lib : Library) (ledger : Ledger).

Lemma getUserSalt_stored p sub draw (s : Service) ev v :
  storedSalt p sub s = Some v ->
  getUserSalt sub p draw s ev = (Returns v, s, ev).
Proof.
  intros H. unfold storedSalt in H. unfold getUserSalt, bind, get. rewrite H. reflexivity.
Qed.

Lemma getUserSalt_first p sub draw (s : Service) ev :
  storedSalt p sub s = None ->
  getUserSalt sub p draw s ev
  = (Returns (toStringRadix 10 draw),
     withStorage (setLocal (saltKey p sub) (toStringRadix 10 draw) (storage s)) s, ev).
Proof.
  intros H. unfold storedSalt in H. unfold getUserSalt, bind, get. rewrite H. reflexivity.
Qed.

(** The salt step in one statement: it returns a salt and leaves it
    stored, and the salt is the one stored before if there was one. *)
Lemma salt_step p sub draw (s : Service) ev :
  exists salt s',
    getUserSalt sub p draw s ev = (Returns salt, s', ev)
    /\ getTruthy (localStorage (storage s')) (saltKey p sub) = Some salt
    /\ (forall v, storedSalt p sub s = Some v -> salt = v).
Proof.
  destruct (storedSalt p sub s) as [v |] eqn:Hstored.
  - exists v, s. rewrite (getUserSalt_stored p sub draw s ev v Hstored).
    split; [reflexivity |]. split; [exact Hstored |]. intros v' Hv'. congruence.
  - exists (toStringRadix 10 draw),
      (withStorage (setLocal (saltKey p sub) (toStringRadix 10 draw) (storage s)) s).
    rewrite (getUserSalt_first p sub draw s ev Hstored).
    split; [reflexivity |]. split; [| discriminate].
    cbn. apply getTruthy_insert_eq, truthy_toStringRadix.
Qed.

Lemma logout_run (s : Service) ev : logout s ev = (Returns tt, loggedOut s, ev).
Proof. reflexivity. Qed.

(** A login through [handleOAuthCallback] that succeeds leaves in
    [userSalt] the salt stored for the subject the token names: the one
    that was stored before the login when there was one. *)
Lemma login_takes_stored_salt userToken now draw (s : Service) ev addr :
  let r := handleOAuthCallback lib userToken now draw s ev in
  result r = Returns (CallbackSuccess addr) ->
  exists providerText claim userData salt,
    getTruthy (sessionStorage (storage s)) "zklogin_provider" = Some providerText
    /\ decodeToken lib userToken = Returns claim
    /\ normalizeUserData claim providerText = Returns userData
    /\ userSalt (after r) = Some salt
    /\ saltIs (u_provider userData) (u_sub userData) salt (after r)
    /\ (forall v, storedSalt (u_provider userData) (u_sub userData) s = Some v -> salt = v).
Proof.
  intros r.
  assert (Hrun : r = handleOAuthCallback lib userToken now draw s ev) by reflexivity.
  clearbody r. unfold handleOAuthCallback in Hrun.
  unfold tryCatch at 1, bind at 1, get at 1 in Hrun.
  destruct (getTruthy (sessionStorage (storage s)) "zklogin_provider")
    as [providerText |] eqn:Hprovider; [| rewrite Hrun; discriminate].
  destruct (getTruthy (sessionStorage (storage s)) "zklogin_ephemeral_keypair")
    as [keypairData |]; [| rewrite Hrun; discriminate].
  unfold bind at 1, lift at 1 in Hrun.
  destruct (parseKeyArray lib keypairData) as [fullKeyArray | m];
    [| rewrite Hrun; discriminate].
  unfold bind at 1, lift at 1 in Hrun.
  destruct (privateKeyOf fullKeyArray) as [privateKey | m]; [| rewrite Hrun; discriminate].
  unfold bind at 1, lift at 1 in Hrun.
  destruct (fromSecretKey privateKey) as [kp | m]; [| rewrite Hrun; discriminate].
  unfold bind at 1, setEphemeralKeyPair, bind at 1, get at 1, put at 1 in Hrun.
  unfold bind at 1, lift at 1 in Hrun.
  destruct (decodeToken lib userToken) as [claim | m] eqn:Hclaim;
    [| rewrite Hrun; discriminate].
  unfold bind at 1, lift at 1 in Hrun.
  destruct (normalizeUserData claim providerText) as [userData | m] eqn:Hnormal;
    [| rewrite Hrun; discriminate].
  set (s1 := {| user := user s; walletAddress := walletAddress s;
                ephemeralKeyPair := Some kp; zkProof := zkProof s;
                userSalt := userSalt s; maxEpoch := maxEpoch s;
                sessionExpiry := sessionExpiry s; storage := storage s |}) in Hrun.
  unfold bind at 1 in Hrun.
  pose proof (salt_step (u_provider userData) (u_sub userData) draw s1 ev)
    as (salt & s2 & Hstep & Hkept & Hreuse).
  rewrite Hstep in Hrun.
  intros Hok. exists providerText, claim, userData, salt.
  split; [first [assumption | reflexivity] |].
  split; [first [assumption | reflexivity] |].
  split; [first [assumption | reflexivity] |].
  assert (Hfinal : userSalt (after r) = Some salt
                   /\ saltIs (u_provider userData) (u_sub userData) salt (after r)).
  { rewrite Hrun in Hok |- *. clear Hrun.
    unfold setUserSalt, setWalletAddress, setZkProof, setUser, setSessionExpiry,
      saveSecureSession, updateStorage, generateZkLoginAddress, generateMockZkProof in *.
    unfold result, after, bind, get, put, ret, lift, consoleError in *. cbn in *.
    destruct (jwtToAddress lib userData (u_provider userData) _ now salt);
      cbn in *;
      (destruct (genAddressSeed lib salt (u_sub userData) (clientId lib (u_provider userData)));
       cbn in *; [| discriminate]);
      (split; [reflexivity |]);
      unfold saltIs, storedSalt in *; cbn;
      (rewrite getTruthy_insert_ne;
       [exact Hkept | intros Heq; exact (saltKey_not_sessionKey _ _ (eq_sym Heq))]). }
  destruct Hfinal as [Hsalt Hstored]. split; [exact Hsalt |]. split; [exact Hstored |].
  intros v Hv. apply Hreuse. exact Hv.
Qed.

(** C7. A login's salt step returns the salt stored for the subject when
    there is one, and then changes nothing; it draws and stores a salt
    only when none is stored; and once a salt is stored for a subject,
    every later login of that subject gets the same salt, whatever
    operations of the service ran in between, logout among them. Logout
    removes the session entry, empties the session storage and clears
    the fields of the service, the ephemeral key pair among them, and
    leaves every other entry of the local storage, so every salt, as it
    was. *)
Theorem salt_made_once_and_kept
    (p : Provider) (sub : jsval) (draw : Z) (s : Service) (ev : Events) :
  let r := getUserSalt sub p draw s ev in
  exists salt,
    result r = Returns salt
    /\ saltIs p sub salt (after r)
    /\ (forall v, storedSalt p sub s = Some v -> salt = v /\ after r = s)
    /\ (storedSalt p sub s = None -> salt = toStringRadix 10 draw)
    /\ (forall ops draw',
          let s' := fst (performAll lib ledger ops (after r) (trace r)) in
          let ev' := snd (performAll lib ledger ops (after r) (trace r)) in
          getUserSalt sub p draw' s' ev' = (Returns salt, s', ev'))
    /\ (forall s0 ev0,
          let out := after (logout s0 ev0) in
          (forall k, k <> sessionKey ->
                     localStorage (storage out) !! k = localStorage (storage s0) !! k)
          /\ (forall p0 sub0, storedSalt p0 sub0 out = storedSalt p0 sub0 s0)
          /\ localStorage (storage out) !! sessionKey = None
          /\ sessionStorage (storage out) = ∅
          /\ ephemeralKeyPair out = None
          /\ user out = None
          /\ zkProof out = None).
Proof.
  intros r.
  assert (Hsalt : exists salt,
             result r = Returns salt /\ saltIs p sub salt (after r)
             /\ (forall v, storedSalt p sub s = Some v -> salt = v /\ after r = s)
             /\ (storedSalt p sub s = None -> salt = toStringRadix 10 draw)).
  { subst r. destruct (storedSalt p sub s) as [v |] eqn:Hstored.
    - exists v. rewrite (getUserSalt_stored p sub draw s ev v Hstored).
      split; [reflexivity |]. split; [exact Hstored |].
      split; [| discriminate].
      intros v' Hv'. split; [congruence | reflexivity].
    - exists (toStringRadix 10 draw). rewrite (getUserSalt_first p sub draw s ev Hstored).
      split; [reflexivity |]. split; [| split; [discriminate | reflexivity]].
      unfold saltIs, storedSalt, after. cbn.
      apply getTruthy_insert_eq, truthy_toStringRadix. }
  destruct Hsalt as (salt & Hres & Hkept & Hreuse & Hfirst).
  exists salt. repeat (split; [assumption |]). split.
  - intros ops draw' s' ev'.
    apply getUserSalt_stored.
    apply (performAll_keeps_salt lib ledger p sub salt ops). exact Hkept.
  - intros s0 ev0 out. subst out. rewrite logout_run. unfold after. cbn.
    repeat split.
    + intros k Hk. apply lookup_delete_ne. congruence.
    + intros p0 sub0. unfold storedSalt. cbn.
      apply getTruthy_delete_ne. intros Heq.
      exact (saltKey_not_sessionKey p0 sub0 (eq_sym Heq)).
    + apply lookup_delete_eq.
Qed.

(** C10. A service object just constructed whose [restoreSession]
    succeeds has the user, wallet address, salt, proof, maxEpoch and
    expiry of the persisted session, and no ephemeral key pair; and as
    long as no login follows, whatever else is done with the service,
    every [sendTransaction] returns the not-authenticated failure,
    puts no call to the ledger and leaves the service as it was. *)
Theorem restored_session_cannot_send (sto : Storage) (now : Z) (ev : Events) :
  let r0 := restoreSession lib now (newService sto) ev in
  result r0 = Returns true ->
  (exists data session,
      getTruthy (localStorage sto) sessionKey = Some data
      /\ parseSession lib data = Some session
      /\ user (after r0) = sd_user session
      /\ walletAddress (after r0) = sd_walletAddress session
      /\ userSalt (after r0) = sd_userSalt session
      /\ zkProof (after r0) = sd_zkProof session
      /\ maxEpoch (after r0) = sd_maxEpoch session
      /\ sessionExpiry (after r0) = expiryValue (sd_sessionExpiry session)
      /\ ephemeralKeyPair (after r0) = None
      /\ storage (after r0) = sto)
  /\ forall ops recipient amount,
       forallb (fun op => negb (isLogin op)) ops = true ->
       let s' := fst (performAll lib ledger ops (after r0) (trace r0)) in
       let ev' := snd (performAll lib ledger ops (after r0) (trace r0)) in
       let r := sendTransaction lib ledger recipient amount s' ev' in
       result r = Returns (SendFailure msgNotAuthenticated)
       /\ calls (trace r) = calls ev'
       /\ after r = s'.
Proof.
  intros r0 Hok. subst r0. rewrite restoreSession_run in *. cbn [newService storage] in *.
  destruct (getTruthy (localStorage sto) sessionKey) as [data |] eqn:Hdata;
    [| discriminate].
  destruct (parseSession lib data) as [session |] eqn:Hparse; [| discriminate].
  destruct (expired now (sd_sessionExpiry session)); [discriminate |].
  split.
  - exists data, session. repeat split; assumption || reflexivity.
  - intros ops recipient amount Hops. cbv zeta.
    match goal with
    | |- context [performAll lib ledger ops ?a ?t] =>
        set (run := performAll lib ledger ops a t);
        assert (Hkey : noEphemeralKey (fst run))
          by (apply performAll_keeps_noKey; [exact Hops | reflexivity])
    end.
    rewrite (send_without_key lib ledger recipient amount (fst run) (snd run) Hkey).
    repeat split.
Qed.
End ZkSessions.

Section HybridSessions.
Import Hybrid.
Context (lib : Library).

Lemma fromSecretKey_first32 (keyBytes : bytes) :
  (32 <= length keyBytes)%nat ->
  fromSecretKey (firstn 32 keyBytes) = Returns (firstn 32 keyBytes).
Proof.
  intros Hlen. unfold fromSecretKey.
  rewrite length_firstn, Nat.min_l by exact Hlen. reflexivity.
Qed.

Lemma hybrid_restore_expired now (s : Service) ev data session :
  getTruthy (localStorage (storage s)) sessionKey = Some data ->
  parseSession lib data = Some session ->
  expired now (sd_sessionExpiry session) = true ->
  restoreSession lib now s ev = (Returns false, loggedOutHybrid s, ev).
Proof.
  intros Hdata Hparse Hexp.
  unfold restoreSession, tryCatch, bind, get. rewrite Hdata, Hparse, Hexp. reflexivity.
Qed.

Lemma hybrid_restore_valid now (s : Service) ev data session keyBytes u :
  getTruthy (localStorage (storage s)) sessionKey = Some data ->
  parseSession lib data = Some session ->
  expired now (sd_sessionExpiry session) = false ->
  bufferFromHex lib (sd_privateKey session) = Returns keyBytes ->
  (32 <= length keyBytes)%nat ->
  sd_user session = Some u ->
  restoreSession lib now s ev = (Returns true, reinstatedHybrid lib session keyBytes s, ev).
Proof.
  intros Hdata Hparse Hexp Hhex Hlen Huser.
  unfold restoreSession, tryCatch, bind, get, lift. rewrite Hdata, Hparse, Hexp.
  rewrite Hhex, (fromSecretKey_first32 keyBytes Hlen). cbn.
  unfold reinstatedHybrid. rewrite Huser. reflexivity.
Qed.

End HybridSessions.

Lemma expired_at now time : expired now (ExpiryAt time) = (now >? time).
Proof. reflexivity. Qed.

Lemma expired_expiryOf now sessionExpiry :
  expired now (expiryOf sessionExpiry) = (now >? default 0 sessionExpiry).
Proof. destruct sessionExpiry; reflexivity. Qed.

Lemma expiryValue_expiryOf sessionExpiry : expiryValue (expiryOf sessionExpiry) = sessionExpiry.
Proof. destruct sessionExpiry; reflexivity. Qed.


Import Scenarios.


(** With a library that exports a key as text, the session saved by
    Alice's wallet is restored with another key pair and another
    address. *)
Example restore_rebuilds_other_key :
  let saved := after (Hybrid.saveSession Cases.hybridLibTextKeys hybridService noEvents) in
  let r := Hybrid.restoreSession Cases.hybridLibTextKeys 5000
             (Hybrid.newService (Hybrid.storage saved)) noEvents in
  result r = Returns true
  /\ Hybrid.walletAddress hybridService = Some alice
  /\ Hybrid.walletAddress (after r) = Some bob
  /\ Hybrid.keypair (after r) <> Hybrid.keypair hybridService.
Proof. vm_compute. repeat split. discriminate. Qed.

Lemma login_takes_stored_salt_witness :
  let lib := zkLibDecoding (Returns aliceClaim) in
  let s := ZkLogin.newService callbackPage in
  let r := ZkLogin.handleOAuthCallback lib "token" 1000 7 s noEvents in
  storedSalt github (JStr "1001") s = Some "42"
  /\ result r = Returns (ZkLogin.CallbackSuccess (Some alice))
  /\ ZkLogin.userSalt (after r) = Some "42".
Proof.
  intros lib s r.
  assert (Hstored : storedSalt github (JStr "1001") s = Some "42") by (vm_compute; reflexivity).
  assert (Hok : result r = Returns (ZkLogin.CallbackSuccess (Some alice)))
    by (vm_compute; reflexivity).
  split; [exact Hstored |]. split; [exact Hok |].
  destruct (login_takes_stored_salt lib "token" 1000 7 s noEvents (Some alice) Hok)
    as (providerText & claim & userData & salt & Hprovider & Hclaim & Hnorm & Hsalt & _ & Hv).
  fold r in Hsalt. rewrite Hsalt. f_equal.
  vm_compute in Hprovider. injection Hprovider as <-.
  injection Hclaim as <-.
  vm_compute in Hnorm. injection Hnorm as <-.
  apply Hv. exact Hstored.
Defined.

Lemma restored_session_cannot_send_witness :
  let ledger := ledgerWith [coin "a" (50 * sui)] 5 (Returns okResult) in
  let r0 := ZkLogin.restoreSession zkLib 500 (ZkLogin.newService (pageWithSession 1000))
              noEvents in
  let ops := [OpGetBalance; OpRestoreSession 600; OpGetTransactionHistory 700] in
  let s' := fst (performAll zkLib ledger ops (after r0) (trace r0)) in
  let ev' := snd (performAll zkLib ledger ops (after r0) (trace r0)) in
  let r := ZkLogin.sendTransaction zkLib ledger bob "1" s' ev' in
  result r0 = Returns true
  /\ ZkLogin.walletAddress (after r0) = Some alice
  /\ result r = Returns (ZkLogin.SendFailure ZkLogin.msgNotAuthenticated)
  /\ calls (trace r) = calls ev'.
Proof.
  intros ledger r0 ops s' ev' r.
  assert (Hok : result r0 = Returns true) by reflexivity.
  destruct (restored_session_cannot_send zkLib ledger (pageWithSession 1000) 500 noEvents Hok)
    as [_ Hsend].
  destruct (Hsend ops bob "1" eq_refl) as (Hres & Hcalls & _).
  split; [exact Hok |]. split; [reflexivity |]. split; assumption.
Defined.
End Sessions.

(* ===================================================================== *)
(** ** The read paths: balance and history *)
(* ===================================================================== *)

Module Reads.
Import JsString JsNumber Effects Browser Reference Hoare Sending.
Local Open Scope Z_scope.

Lemma anything_goes {S A} (m : M S A) :
  triple (fun _ => True) m (fun _ _ => True) (fun _ => True).
Proof. intros s ev _. destruct (m s ev) as [[[a | msg] s'] ev']; exact I. Qed.

Lemma tryCatch_neverThrows {S A} (body : M S A) handler :
  (forall message, neverThrows (handler message)) ->
  neverThrows (tryCatch body handler).
Proof.
  intros Hh. unfold neverThrows.
  eapply triple_tryCatch; [apply anything_goes | exact Hh].
Qed.

Lemma logged_default_neverThrows {S A} label (a : A) :
  neverThrows (bind (@consoleError S label) (fun _ => ret a)).
Proof. intros s ev _. exact I. Qed.

Lemma neverThrows_returns {S A} (m : M S A) s ev :
  neverThrows m -> exists a, result (m s ev) = Returns a.
Proof.
  intros Hm. specialize (Hm s ev I). unfold result.
  destruct (m s ev) as [[[a | msg] s'] ev']; [eauto | contradiction].
Qed.

Lemma zk_getBalance_neverThrows ledger : neverThrows (ZkLogin.getBalance ledger).
Proof. apply tryCatch_neverThrows. intros m. apply logged_default_neverThrows. Qed.

Lemma zk_history_neverThrows lib ledger now :
  neverThrows (ZkLogin.getTransactionHistory lib ledger now).
Proof. apply tryCatch_neverThrows. intros m. apply logged_default_neverThrows. Qed.

Lemma hybrid_getBalance_neverThrows ledger : neverThrows (Hybrid.getBalance ledger).
Proof. apply tryCatch_neverThrows. intros m. apply logged_default_neverThrows. Qed.

Lemma hybrid_history_neverThrows lib ledger :
  neverThrows (Hybrid.getTransactionHistory lib ledger).
Proof. apply tryCatch_neverThrows. intros m. apply logged_default_neverThrows. Qed.

Lemma hybrid_getBalance_run ledger (s : Hybrid.Service) ev owner :
  Hybrid.address s = Some owner ->
  Hybrid.getBalance ledger s ev
  = match Effects.getBalance ledger (length (calls ev)) owner with
    | Returns total =>
        (Returns (toFixed 6 (div (ofBigInt total) billion)), s,
         {| calls := calls ev ++ [CallGetBalance owner]; console := console ev |})
    | Throws _ =>
        (Returns "0", s,
         {| calls := calls ev ++ [CallGetBalance owner];
            console := console ev ++ ["Failed to get balance"] |})
    end.
Proof.
  intros Haddr. unfold Hybrid.getBalance. run. rewrite Haddr. cbn.
  destruct (Effects.getBalance ledger (length (calls ev)) owner); reflexivity.
Qed.

(** C5, as amended. The proof-based [getBalance] adds the balances of the
    coins the ledger returned, exactly, as integers in minimal units, in
    whatever order they come; what it returns is that total converted to
    a double, divided by 10^9 and printed with six decimals. The
    direct-key [getBalance] prints the total the ledger reports in the
    same way. *)
Theorem balance_is_printed_total :
  (forall ledger (s : ZkLogin.Service) ev owner coins,
      ZkLogin.address s = Some owner ->
      getCoins ledger (length (calls ev)) owner = Returns coins ->
      ZkLogin.sumBalances coins = totalBalance coins
      /\ result (ZkLogin.getBalance ledger s ev)
         = Returns (toFixed 6 (div (ofBigInt (totalBalance coins)) billion)))
  /\ (forall coins coins', Permutation coins coins' ->
        ZkLogin.sumBalances coins = ZkLogin.sumBalances coins')
  /\ (forall ledger (s : Hybrid.Service) ev owner total,
        Hybrid.address s = Some owner ->
        Effects.getBalance ledger (length (calls ev)) owner = Returns total ->
        result (Hybrid.getBalance ledger s ev)
        = Returns (toFixed 6 (div (ofBigInt total) billion))).
Proof.
  split; [| split].
  - intros ledger s ev owner coins Haddr Hcoins.
    split; [apply sumBalances_total |].
    rewrite (getBalance_run ledger s ev owner Haddr), Hcoins.
    unfold result, reportedBalance. cbn. rewrite sumBalances_total. reflexivity.
  - intros coins coins' Hperm. rewrite !sumBalances_total.
    induction Hperm as [| c l l' _ IH | c c' l | l l' l'' _ IH1 _ IH2]; cbn; lia.
  - intros ledger s ev owner total Haddr Htotal.
    rewrite (hybrid_getBalance_run ledger s ev owner Haddr), Htotal. reflexivity.
Qed.

(** C8, as amended. No read method throws: each returns a value from
    every state and against every ledger. When the query behind a
    balance fails the method logs and returns "0"; when a query behind
    the direct-key history fails it logs and returns the empty list;
    when the query behind the proof-based history fails it logs and
    returns one mock record of a received faucet transaction. *)
Theorem read_failures_degrade :
  (forall ledger (s : ZkLogin.Service) ev,
      (exists b, result (ZkLogin.getBalance ledger s ev) = Returns b)
      /\ forall owner m,
           ZkLogin.address s = Some owner ->
           getCoins ledger (length (calls ev)) owner = Throws m ->
           ZkLogin.getBalance ledger s ev
           = (Returns "0", s,
              {| calls := calls ev ++ [CallGetCoins owner];
                 console := console ev ++ ["Failed to get balance"] |}))
  /\ (forall lib ledger now (s : ZkLogin.Service) ev,
        (exists h, result (ZkLogin.getTransactionHistory lib ledger now s ev) = Returns h)
        /\ forall owner m,
             ZkLogin.address s = Some owner ->
             queryTransactionBlocks ledger (length (calls ev)) (FromOrToAddress owner)
             = Throws m ->
             ZkLogin.getTransactionHistory lib ledger now s ev
             = (Returns [ZkLogin.mockFaucetRecord lib now], s,
                {| calls := calls ev ++ [CallQuery (FromOrToAddress owner)];
                   console := console ev ++ ["Failed to get real transaction history"] |}))
  /\ (forall ledger (s : Hybrid.Service) ev,
        (exists b, result (Hybrid.getBalance ledger s ev) = Returns b)
        /\ forall owner m,
             Hybrid.address s = Some owner ->
             Effects.getBalance ledger (length (calls ev)) owner = Throws m ->
             Hybrid.getBalance ledger s ev
             = (Returns "0", s,
                {| calls := calls ev ++ [CallGetBalance owner];
                   console := console ev ++ ["Failed to get balance"] |}))
  /\ (forall lib ledger (s : Hybrid.Service) ev,
        (exists h, result (Hybrid.getTransactionHistory lib ledger s ev) = Returns h)
        /\ forall owner,
             Hybrid.address s = Some owner ->
             (forall m,
                 queryTransactionBlocks ledger (length (calls ev)) (FromAddress owner)
                 = Throws m ->
                 Hybrid.getTransactionHistory lib ledger s ev
                 = (Returns [], s,
                    {| calls := calls ev ++ [CallQuery (FromAddress owner)];
                       console := console ev ++ ["Failed to get transaction history"] |}))
             /\ (forall sent m,
                   queryTransactionBlocks ledger (length (calls ev)) (FromAddress owner)
                   = Returns sent ->
                   queryTransactionBlocks ledger (S (length (calls ev))) (ToAddress owner)
                   = Throws m ->
                   Hybrid.getTransactionHistory lib ledger s ev
                   = (Returns [], s,
                      {| calls := calls ev ++ [CallQuery (FromAddress owner);
                                               CallQuery (ToAddress owner)];
                         console := console ev ++ ["Failed to get transaction history"] |}))).
Proof.
  split; [| split; [| split]].
  - intros ledger s ev. split.
    + apply neverThrows_returns, zk_getBalance_neverThrows.
    + intros owner m Haddr Hfail.
      rewrite (getBalance_run ledger s ev owner Haddr), Hfail. reflexivity.
  - intros lib ledger now s ev. split.
    + apply neverThrows_returns, zk_history_neverThrows.
    + intros owner m Haddr Hfail. unfold ZkLogin.getTransactionHistory. run.
      rewrite Haddr. cbn. rewrite Hfail. reflexivity.
  - intros ledger s ev. split.
    + apply neverThrows_returns, hybrid_getBalance_neverThrows.
    + intros owner m Haddr Hfail.
      rewrite (hybrid_getBalance_run ledger s ev owner Haddr), Hfail. reflexivity.
  - intros lib ledger s ev. split.
    + apply neverThrows_returns, hybrid_history_neverThrows.
    + intros owner Haddr. split.
      * intros m Hfail. unfold Hybrid.getTransactionHistory. run.
        rewrite Haddr. cbn. rewrite Hfail. reflexivity.
      * intros sent m Hsent Hfail. unfold Hybrid.getTransactionHistory. run.
        rewrite Haddr. cbn. rewrite Hsent. cbn. rewrite length_snoc, Hfail. cbn.
        rewrite <- app_assoc. reflexivity.
Qed.

Import Scenarios.

Lemma balance_is_printed_total_witness :
  let coins := [coin "a" (30 * sui); coin "b" (50 * sui); coin "c" (100 * sui)] in
  let ledger := ledgerWith coins 5 (Returns okResult) in
  totalBalance coins = 180 * sui
  /\ result (ZkLogin.getBalance ledger loggedIn noEvents) = Returns "180.000000"
  /\ result (Hybrid.getBalance ledger hybridService noEvents) = Returns "180.000000".
Proof.
  intros coins ledger.
  destruct balance_is_printed_total as (Hzk & _ & Hhybrid).
  destruct (Hzk ledger loggedIn noEvents alice coins eq_refl eq_refl) as [_ H1].
  pose proof (Hhybrid ledger hybridService noEvents alice (180 * sui) eq_refl eq_refl) as H2.
  split; [reflexivity |]. split; [exact H1 | exact H2].
Defined.

(** C5 fails as stated: wallets that hold 1 MIST and 2 MIST both report
    the balance 0.000000, and a wallet of 2^53 + 1 MIST reports the
    double next to its total. *)
Lemma balance_counterexample :
  let one := [coin "a" 1] in
  let two := [coin "a" 1; coin "b" 1] in
  let big := [coin "a" (2 ^ 53); coin "b" 1] in
  (totalBalance one = 1 /\ totalBalance two = 2 /\ totalBalance big = 9007199254740993)
  /\ result (ZkLogin.getBalance (ledgerWith one 5 (Returns okResult)) loggedIn noEvents)
     = Returns "0.000000"
  /\ result (ZkLogin.getBalance (ledgerWith two 5 (Returns okResult)) loggedIn noEvents)
     = Returns "0.000000"
  /\ ofBigInt (totalBalance big) = ofBigInt (2 ^ 53)
  /\ result (ZkLogin.getBalance (ledgerWith big 5 (Returns okResult)) loggedIn noEvents)
     = Returns "9007199.254741".
Proof. vm_compute. repeat split. Qed.

Lemma read_failures_degrade_witness :
  result (ZkLogin.getBalance offline loggedIn noEvents) = Returns "0"
  /\ console (trace (ZkLogin.getBalance offline loggedIn noEvents))
     = ["Failed to get balance"]
  /\ result (ZkLogin.getTransactionHistory zkLib offline 0 loggedIn noEvents)
     = Returns [ZkLogin.mockFaucetRecord zkLib 0]
  /\ result (Hybrid.getBalance offline hybridService noEvents) = Returns "0"
  /\ result (Hybrid.getTransactionHistory hybridLib offline hybridService noEvents)
     = Returns [].
Proof.
  destruct read_failures_degrade as (Hb & Hh & Hb' & Hh').
  destruct (Hb offline loggedIn noEvents) as [_ H1].
  destruct (Hh zkLib offline 0 loggedIn noEvents) as [_ H2].
  destruct (Hb' offline hybridService noEvents) as [_ H3].
  destruct (Hh' hybridLib offline hybridService noEvents) as [_ H4].
  rewrite (H1 alice "fetch failed" eq_refl eq_refl).
  rewrite (H2 alice "fetch failed" eq_refl eq_refl).
  rewrite (H3 alice "fetch failed" eq_refl eq_refl).
  rewrite (proj1 (H4 alice eq_refl) "fetch failed" eq_refl).
  repeat split.
Defined.

(** C8 fails as stated: when the history query of the proof-based
    service fails, the history returned is not empty but holds one mock
    record. *)
Lemma read_failure_counterexample :
  queryTransactionBlocks offline 0 (FromOrToAddress alice) = Throws "fetch failed"
  /\ result (ZkLogin.getTransactionHistory zkLib offline 0 loggedIn noEvents)
     = Returns [ {| ZkLogin.hr_id := "mock_faucet_tx";
                    ZkLogin.hr_type := "Received";
                    ZkLogin.hr_amount := "1.000";
                    ZkLogin.hr_date := "1/1/1970";
                    ZkLogin.hr_status := "Success";
                    ZkLogin.hr_recipient := None;
                    ZkLogin.hr_sender := Some "Testnet Faucet" |} ].
Proof. split; reflexivity. Qed.
End Reads.

(* ===================================================================== *)
(** ** History reconciliation *)
(* ===================================================================== *)

Module History.
Import JsString JsNumber Effects Browser Reference Hybrid.

Lemma sameDigest_true tx t : sameDigest tx t = true <-> tb_digest t = tb_digest tx.
Proof. unfold sameDigest. apply String.eqb_eq. Qed.

Lemma findIndex_none_before {A} (p : A -> bool) pre x rest :
  Forall (fun y => p y = false) pre ->
  p x = true ->
  findIndex p (pre ++ x :: rest) = Some (length pre).
Proof.
  intros Hpre Hx. induction Hpre as [| y pre' Hy _ IH]; cbn.
  - rewrite Hx. reflexivity.
  - rewrite Hy, IH. reflexivity.
Qed.

Lemma findIndex_some_before {A} (p : A -> bool) pre rest :
  Exists (fun y => p y = true) pre ->
  exists j, findIndex p (pre ++ rest) = Some j /\ j < length pre.
Proof.
  intros Hpre. induction pre as [| y pre' IH]; [inversion Hpre |]. cbn.
  destruct (p y) eqn:Hy.
  - exists 0. split; [reflexivity | lia].
  - inversion Hpre as [? ? Hhead | ? ? Htail]; subst; [congruence |].
    destruct (IH Htail) as (j & Hj & Hlt). exists (S j). rewrite Hj.
    split; [reflexivity | lia].
Qed.

(** The block at position [length pre] is kept exactly when no block
    before it has its digest. *)
Lemma first_occurrence_test pre tx rest :
  bool_decide (findIndex (sameDigest tx) (pre ++ tx :: rest) = Some (length pre))
  = negb (bool_decide (tb_digest tx ∈ map tb_digest pre)).
Proof.
  destruct (decide (tb_digest tx ∈ map tb_digest pre)) as [Hin | Hout].
  - rewrite (bool_decide_eq_true_2 _ Hin). cbn. apply bool_decide_eq_false_2.
    destruct (findIndex_some_before (sameDigest tx) pre (tx :: rest)) as (j & Hj & Hlt).
    { apply list_elem_of_fmap in Hin as (y & Hy & Hmem).
      apply Exists_exists. exists y. split; [exact Hmem |].
      apply sameDigest_true. congruence. }
    rewrite Hj. intros Heq. injection Heq as Heq. lia.
  - rewrite (bool_decide_eq_false_2 _ Hout). cbn. apply bool_decide_eq_true_2.
    apply findIndex_none_before.
    + apply Forall_forall. intros y Hy.
      destruct (sameDigest tx y) eqn:Hsame; [| reflexivity].
      exfalso. apply Hout. apply sameDigest_true in Hsame. rewrite <- Hsame.
      apply list_elem_of_fmap. exists y. split; [reflexivity | exact Hy].
    + apply sameDigest_true. reflexivity.
Qed.

Lemma keepFirst_ext seen seen' txs :
  (forall d, d ∈ seen <-> d ∈ seen') ->
  keepFirst seen txs = keepFirst seen' txs.
Proof.
  revert seen seen'. induction txs as [| tx rest IH]; intros seen seen' Hsame; cbn;
    [reflexivity |].
  rewrite (bool_decide_ext _ _ (Hsame (tb_digest tx))).
  destruct (bool_decide (tb_digest tx ∈ seen')); [apply IH, Hsame |].
  f_equal. apply IH. intros d. rewrite !elem_of_app, Hsame. reflexivity.
Qed.

(** The filter of the source is the deduplication that keeps the first
    occurrence. *)
Lemma filterFrom_keepFirst txs : forall pre,
  filterFrom
    (fun tx index =>
       bool_decide (findIndex (fun t => String.eqb (tb_digest t) (tb_digest tx))
                      (pre ++ txs) = Some index))
    (length pre) txs
  = keepFirst (map tb_digest pre) txs.
Proof.
  induction txs as [| tx rest IH]; intros pre; cbn [filterFrom keepFirst]; [reflexivity |].
  pose proof (first_occurrence_test pre tx rest) as Htest. unfold sameDigest in Htest.
  rewrite Htest.
  specialize (IH (pre ++ [tx])).
  rewrite <- app_assoc, length_app, map_app in IH. cbn in IH.
  rewrite Nat.add_1_r in IH. rewrite IH.
  destruct (bool_decide (tb_digest tx ∈ map tb_digest pre)) eqn:Hseen; cbn; [| reflexivity].
  apply keepFirst_ext. intros d. rewrite elem_of_app, list_elem_of_singleton.
  apply bool_decide_eq_true_1 in Hseen. split; [| tauto].
  intros [H | ->]; assumption.
Qed.

Lemma uniqueTxs_keepFirst txs : uniqueTxs txs = keepFirst [] txs.
Proof. exact (filterFrom_keepFirst txs []). Qed.

Lemma keepFirst_digests seen txs d :
  d ∈ map tb_digest (keepFirst seen txs) <-> d ∈ map tb_digest txs /\ d ∉ seen.
Proof.
  revert seen. induction txs as [| tx rest IH]; intros seen; cbn.
  - rewrite elem_of_nil. tauto.
  - destruct (decide (tb_digest tx ∈ seen)) as [Hin | Hout].
    + rewrite (bool_decide_eq_true_2 _ Hin), IH, elem_of_cons.
      split; [tauto |]. intros [[-> | H] Hd]; [contradiction | tauto].
    + rewrite (bool_decide_eq_false_2 _ Hout). cbn. rewrite !elem_of_cons, IH, elem_of_app,
        list_elem_of_singleton.
      destruct (decide (d = tb_digest tx)) as [-> | Hne]; tauto.
Qed.

Lemma keepFirst_NoDup seen txs : NoDup (map tb_digest (keepFirst seen txs)).
Proof.
  revert seen. induction txs as [| tx rest IH]; intros seen; cbn; [constructor |].
  destruct (bool_decide (tb_digest tx ∈ seen)); [apply IH |]. cbn.
  constructor; [| apply IH].
  rewrite keepFirst_digests, elem_of_app, list_elem_of_singleton. tauto.
Qed.

Lemma keepFirst_first seen txs tx :
  tx ∈ keepFirst seen txs ->
  exists pre post,
    txs = pre ++ tx :: post
    /\ (tb_digest tx ∉ seen)
    /\ (tb_digest tx ∉ map tb_digest pre).
Proof.
  revert seen. induction txs as [| t rest IH]; intros seen; cbn; [intros H; inversion H |].
  destruct (decide (tb_digest t ∈ seen)) as [Hin | Hout].
  - rewrite (bool_decide_eq_true_2 _ Hin). intros H.
    destruct (IH seen H) as (pre & post & -> & Hseen & Hpre).
    exists (t :: pre), post. split; [reflexivity |]. split; [exact Hseen |].
    cbn. rewrite elem_of_cons. intros [Heq | Hmem]; [congruence | contradiction].
  - rewrite (bool_decide_eq_false_2 _ Hout). rewrite elem_of_cons. intros [-> | H].
    + exists [], rest. split; [reflexivity |]. split; [exact Hout |]. cbn. apply not_elem_of_nil.
    + destruct (IH _ H) as (pre & post & -> & Hseen & Hpre).
      rewrite elem_of_app, list_elem_of_singleton in Hseen.
      exists (t :: pre), post. split; [reflexivity |]. split; [tauto |].
      cbn. rewrite elem_of_cons. intros [Heq | Hmem]; [| contradiction].
      apply Hseen. right. exact Heq.
Qed.

Lemma historyRecord_ids lib owner txs :
  map hr_id (map (historyRecord lib owner) txs) = map tb_digest txs.
Proof. rewrite map_map. reflexivity. Qed.

(** The reconciliation of two query results: the first occurrence of
    every id, classified by the sender of its block. *)
Lemma reconcile_first_occurrences
    (lib : Library) (owner : string) (sent received : list TxBlock) :
  let allTxs := sent ++ received in
  let records := reconcile lib owner sent received in
  records = map (historyRecord lib owner) (keepFirst [] allTxs)
  /\ NoDup (map hr_id records)
  /\ (forall d, d ∈ map hr_id records <-> d ∈ map tb_digest allTxs)
  /\ (forall record, record ∈ records ->
        exists pre tx post,
          allTxs = pre ++ tx :: post
          /\ (tb_digest tx ∉ map tb_digest pre)
          /\ record = historyRecord lib owner tx
          /\ hr_id record = tb_digest tx
          /\ (tb_sender tx = Some owner -> hr_type record = "Sent")
          /\ (tb_sender tx <> Some owner -> hr_type record = "Received")).
Proof.
  intros allTxs records. subst records. unfold reconcile. fold allTxs.
  rewrite uniqueTxs_keepFirst.
  split; [reflexivity |]. split; [| split].
  - rewrite historyRecord_ids. apply keepFirst_NoDup.
  - intros d. rewrite historyRecord_ids, keepFirst_digests.
    split; [tauto |]. intros H. split; [exact H | apply not_elem_of_nil].
  - intros record Hrec. apply list_elem_of_fmap in Hrec as (tx & -> & Htx).
    destruct (keepFirst_first [] allTxs tx Htx) as (pre & post & Hsplit & _ & Hfirst).
    exists pre, tx, post. repeat split; try assumption.
    + intros Hsender. cbn. rewrite (bool_decide_eq_true_2 _ Hsender). reflexivity.
    + intros Hsender. cbn. rewrite (bool_decide_eq_false_2 _ Hsender). reflexivity.
Qed.

(** The direct-key history is the reconciliation of its two queries. *)
Lemma history_of_two_queries lib ledger (s : Service) ev owner sent received :
  address s = Some owner ->
  queryTransactionBlocks ledger (length (calls ev)) (FromAddress owner) = Returns sent ->
  queryTransactionBlocks ledger (S (length (calls ev))) (ToAddress owner) = Returns received ->
  result (getTransactionHistory lib ledger s ev)
  = Returns (reconcile lib owner sent received).
Proof.
  intros Haddr Hsent Hreceived.
  unfold getTransactionHistory, tryCatch, bind, get, request, ret, result. cbn.
  rewrite Haddr. cbn. rewrite Hsent. cbn.
  rewrite length_app, Nat.add_1_r, Hreceived. reflexivity.
Qed.

(** C6. [getTransactionHistory] of the direct-key service, once both
    its queries are answered, joins the result of the sent query and
    the result of the received query in that order, keeps of every
    transaction id its first occurrence and drops the later ones, so
    that every id of either result shows in exactly one record; each
    record is made from that first block, and its direction is Sent
    when the sender of the block is the account's address and Received
    otherwise. *)
Theorem history_reconciled
    (lib : Library) (ledger : Ledger) (s : Service) (ev : Events) (owner : string)
    (sent received : list TxBlock) :
  address s = Some owner ->
  queryTransactionBlocks ledger (length (calls ev)) (FromAddress owner) = Returns sent ->
  queryTransactionBlocks ledger (S (length (calls ev))) (ToAddress owner) = Returns received ->
  let allTxs := sent ++ received in
  let r := getTransactionHistory lib ledger s ev in
  exists records,
    result r = Returns records
    /\ records = map (historyRecord lib owner) (keepFirst [] allTxs)
    /\ NoDup (map hr_id records)
    /\ (forall d, d ∈ map hr_id records <-> d ∈ map tb_digest allTxs)
    /\ (forall record, record ∈ records ->
          exists pre tx post,
            allTxs = pre ++ tx :: post
            /\ (tb_digest tx ∉ map tb_digest pre)
            /\ record = historyRecord lib owner tx
            /\ hr_id record = tb_digest tx
            /\ (tb_sender tx = Some owner -> hr_type record = "Sent")
            /\ (tb_sender tx <> Some owner -> hr_type record = "Received")).
Proof.
  intros Haddr Hsent Hreceived allTxs r.
  exists (reconcile lib owner sent received).
  split; [exact (history_of_two_queries lib ledger s ev owner sent received
                   Haddr Hsent Hreceived) |].
  exact (reconcile_first_occurrences lib owner sent received).
Qed.

(** The direct-key history as a whole. When both queries are answered
    the method asks the ledger exactly these two, leaves the service
    unchanged, and returns records whose ids are pairwise distinct and
    are exactly the ids of the two answers. *)
Theorem direct_history_distinct
    lib ledger (s : Service) ev owner (sent received : list TxBlock) :
  address s = Some owner ->
  queryTransactionBlocks ledger (length (calls ev)) (FromAddress owner) = Returns sent ->
  queryTransactionBlocks ledger (S (length (calls ev))) (ToAddress owner) = Returns received ->
  let r := getTransactionHistory lib ledger s ev in
  exists records,
    result r = Returns records
    /\ after r = s
    /\ calls (trace r)
       = calls ev ++ [CallQuery (FromAddress owner); CallQuery (ToAddress owner)]
    /\ NoDup (map hr_id records)
    /\ (forall d, d ∈ map hr_id records <-> d ∈ map tb_digest (sent ++ received))
    /\ (length records <= length sent + length received)%nat.
Proof.
  intros Haddr Hsent Hreceived r. subst r.
  unfold getTransactionHistory, tryCatch, bind, get, request, ret, result, after, trace. cbn.
  rewrite Haddr. cbn. rewrite Hsent. cbn.
  rewrite length_app, Nat.add_1_r, Hreceived. cbn.
  eexists. split; [reflexivity |]. split; [reflexivity |].
  split; [rewrite <- app_assoc; reflexivity |].
  unfold reconcile. rewrite uniqueTxs_keepFirst, historyRecord_ids.
  split; [apply keepFirst_NoDup |]. split.
  - intros d. rewrite keepFirst_digests. split; [tauto |].
    intros H. split; [exact H | apply not_elem_of_nil].
  - rewrite length_map, <- length_app.
    generalize (sent ++ received) as txs. generalize (@nil string) as seen.
    intros seen txs. revert seen.
    induction txs as [| tx txs IH]; intros seen; cbn; [lia |].
    destruct (bool_decide (tb_digest tx ∈ seen)); cbn; [specialize (IH seen); lia |].
    specialize (IH (seen ++ [tb_digest tx])). lia.
Qed.

Import Scenarios.

Lemma direct_history_distinct_witness :
  let sent := [block "abc" alice; block "s1" alice] in
  let received := [block "r1" bob; block "abc" alice; block "r1" bob] in
  exists records,
    result (getTransactionHistory hybridLib (historyLedger sent received) hybridService
              noEvents)
    = Returns records
    /\ map hr_id records = ["abc"; "s1"; "r1"].
Proof.
  intros sent received.
  destruct (direct_history_distinct hybridLib (historyLedger sent received) hybridService
              noEvents alice sent received)
    as (records & Hresult & _); [reflexivity | reflexivity | reflexivity |].
  exists records. split; [exact Hresult |].
  vm_compute in Hresult. injection Hresult as <-. reflexivity.
Defined.

(** Two query results that share the id abc: the history holds one
    record for abc, made from the block of the sent query. *)
Lemma history_reconciled_witness :
  let sent := [block "abc" alice; block "s1" alice] in
  let received := [block "r1" bob; block "abc" alice; block "r1" bob] in
  exists records,
    result (getTransactionHistory hybridLib (historyLedger sent received) hybridService
              noEvents)
    = Returns records
    /\ map (fun record => (hr_id record, hr_type record)) records
       = [("abc", "Sent"); ("s1", "Sent"); ("r1", "Received")].
Proof.
  intros sent received.
  destruct (history_reconciled hybridLib (historyLedger sent received) hybridService
              noEvents alice sent received)
    as (records & Hresult & Hrecords & _); [reflexivity | reflexivity | reflexivity |].
  exists records. split; [exact Hresult |]. rewrite Hrecords. reflexivity.
Defined.

(** Two query results that share the id abc give one record for abc, made
    from the block of the sent query. *)
Example history_dedup_abc :
  let sent := [block "abc" alice; block "s1" alice] in
  let received := [block "r1" bob; block "abc" alice; block "r1" bob] in
  map (fun r => (hr_id r, hr_type r)) (reconcile hybridLib alice sent received)
  = [("abc", "Sent"); ("s1", "Sent"); ("r1", "Received")].
Proof. reflexivity. Qed.
End History.

(* ===================================================================== *)
(** ** Networks and address formats *)
(* ===================================================================== *)

Module NetworkFacts.
Import JsString JsNumber Effects Browser Reference Network.
Local Open Scope Z_scope.

Lemma startsWith_prefix p : forall s,
  startsWith p s = true <-> exists post, s = p ++ post.
Proof.
  induction p as [| a p IH]; intros s.
  - split; [intros _; exists s; reflexivity | intros _; destruct s; reflexivity].
  - destruct s as [| b s]; simpl.
    + split; [discriminate | intros [post H]; discriminate].
    + destruct (Ascii.eqb_spec a b) as [-> | Hne].
      * rewrite IH. split; intros [post H]; exists post.
        -- rewrite H. reflexivity.
        -- injection H as H. exact H.
      * split; [discriminate |]. intros [post H]. injection H as Hab _. congruence.
Qed.

(** [includes] holds exactly of the substrings. *)
Lemma includes_substring needle : forall hay,
  includes needle hay = true <-> exists pre post, hay = pre ++ needle ++ post.
Proof.
  induction hay as [| c hay IH].
  - simpl. rewrite startsWith_prefix. split.
    + intros [post H]. exists [], post. exact H.
    + intros (pre & post & H). symmetry in H.
      apply app_eq_nil in H as [-> H]. exists post. symmetry. exact H.
  - simpl includes. rewrite orb_true_iff, IH, startsWith_prefix. split.
    + intros [[post H] | (pre & post & H)].
      * exists [], post. exact H.
      * exists (c :: pre), post. rewrite H. reflexivity.
    + intros (pre & post & H). destruct pre as [| c' pre].
      * left. exists post. exact H.
      * right. injection H as _ H. exists pre, post. exact H.
Qed.

Lemma includes_inner before needle behind hay :
  includes (before ++ needle ++ behind) hay = true -> includes needle hay = true.
Proof.
  rewrite !includes_substring. intros (pre & post & ->).
  exists (pre ++ before), (behind ++ post). rewrite <- !app_assoc. reflexivity.
Qed.

Lemma testnet_host rpcUrl :
  stringIncludes rpcUrl "fullnode.testnet.sui.io" = true ->
  stringIncludes rpcUrl "testnet" = true.
Proof.
  unfold stringIncludes.
  apply (includes_inner (chars "fullnode.") (chars "testnet") (chars ".sui.io")).
Qed.

Lemma devnet_host rpcUrl :
  stringIncludes rpcUrl "fullnode.devnet.sui.io" = true ->
  stringIncludes rpcUrl "devnet" = true.
Proof.
  unfold stringIncludes.
  apply (includes_inner (chars "fullnode.") (chars "devnet") (chars ".sui.io")).
Qed.

Lemma zk_isTestnet rpcUrl : Zk.isTestnet rpcUrl = Direct.isTestnet rpcUrl.
Proof.
  unfold Zk.isTestnet, Direct.isTestnet.
  destruct (stringIncludes rpcUrl "testnet") eqn:Hshort; [reflexivity |].
  destruct (stringIncludes rpcUrl "fullnode.testnet.sui.io") eqn:Hlong; [| reflexivity].
  apply testnet_host in Hlong. congruence.
Qed.

Lemma zk_isDevnet rpcUrl : Zk.isDevnet rpcUrl = Direct.isDevnet rpcUrl.
Proof.
  unfold Zk.isDevnet, Direct.isDevnet.
  destruct (stringIncludes rpcUrl "devnet") eqn:Hshort; [reflexivity |].
  destruct (stringIncludes rpcUrl "fullnode.devnet.sui.io") eqn:Hlong; [| reflexivity].
  apply devnet_host in Hlong. congruence.
Qed.

(** The two services name the network of every RPC URL alike, the test
    for the host name in the proof-based service adding nothing to the
    test for the network's name; a URL that names both networks is
    Testnet; and the faucet is offered exactly when the name is not
    Mainnet. *)
Theorem network_names_agree (rpcUrl : string) :
  Zk.isTestnet rpcUrl = stringIncludes rpcUrl "testnet"
  /\ Zk.isDevnet rpcUrl = stringIncludes rpcUrl "devnet"
  /\ Zk.getNetworkName rpcUrl = Direct.getNetworkName rpcUrl
  /\ Zk.isFaucetAvailable rpcUrl = Direct.isFaucetAvailable rpcUrl
  /\ (stringIncludes rpcUrl "testnet" = true -> Zk.getNetworkName rpcUrl = "Testnet")
  /\ (Zk.isFaucetAvailable rpcUrl = false <-> Zk.getNetworkName rpcUrl = "Mainnet").
Proof.
  unfold Zk.getNetworkName, Direct.getNetworkName, Zk.isFaucetAvailable,
    Direct.isFaucetAvailable.
  rewrite zk_isTestnet, zk_isDevnet. unfold Direct.isTestnet, Direct.isDevnet.
  repeat split; try reflexivity.
  - intros ->. reflexivity.
  - destruct (stringIncludes rpcUrl "testnet"), (stringIncludes rpcUrl "devnet");
      reflexivity || discriminate.
  - destruct (stringIncludes rpcUrl "testnet"), (stringIncludes rpcUrl "devnet");
      reflexivity || discriminate.
Qed.

End NetworkFacts.

(* ===================================================================== *)
(** ** The fallback address of the proof-based service *)
(* ===================================================================== *)

Module AddressFacts.
Import JsString JsNumber Effects Browser Reference Network ZkLogin.
Local Open Scope Z_scope.

Lemma natDigits_padded k n :
  (1 <= k)%nat -> 0 <= n < 16 ^ Z.of_nat k ->
  padStart0 k (natDigits 16 n) = hexFixed k n.
Proof.
  intros Hk Hn. unfold natDigits. apply KeySpace.padStart0_digits; try lia.
  rewrite Nat2Z.inj_succ, Z2Nat.id by apply Z.log2_nonneg.
  destruct (Z.eq_dec n 0) as [-> | Hpos]; [reflexivity |].
  apply Z.log2_spec. lia.
Qed.

Lemma length_hexFixed k : forall n, length (hexFixed k n) = k.
Proof.
  induction k as [| k IH]; intros n; [reflexivity |].
  change (hexFixed (S k) n) with (hexFixed k (n / 16) ++ [digitChar (n mod 16)]).
  rewrite length_app, IH. simpl. lia.
Qed.

Lemma isHexDigit_digitChar d : 0 <= d < 16 -> isHexDigit (digitChar d) = true.
Proof.
  intros Hd.
  assert (Hcases : d = 0 \/ d = 1 \/ d = 2 \/ d = 3 \/ d = 4 \/ d = 5 \/ d = 6
                   \/ d = 7 \/ d = 8 \/ d = 9 \/ d = 10 \/ d = 11 \/ d = 12
                   \/ d = 13 \/ d = 14 \/ d = 15) by lia.
  repeat (destruct Hcases as [-> | Hcases]; [reflexivity |]).
  subst d. reflexivity.
Qed.

Lemma hexFixed_hex k : forall n, forallb isHexDigit (hexFixed k n) = true.
Proof.
  induction k as [| k IH]; intros n; [reflexivity |].
  change (hexFixed (S k) n) with (hexFixed k (n / 16) ++ [digitChar (n mod 16)]).
  rewrite forallb_app, IH. simpl.
  rewrite isHexDigit_digitChar by (apply Z.mod_pos_bound; lia). reflexivity.
Qed.

(** [hashString] gives 56 zeros and the eight hexadecimal digits of
    the absolute value of the 32-bit hash. *)
Lemma hashString_shape text :
  let n := Z.abs (hashUnits (units text)) in
  0 <= n <= 2 ^ 31
  /\ hashString text = str (repeat "0"%char 56 ++ hexFixed 8 n).
Proof.
  intros n. pose proof (KeySpace.hashUnits_range (units text)) as Hrange.
  assert (Hn : 0 <= n <= 2 ^ 31) by (subst n; lia).
  split; [exact Hn |].
  unfold hashString. fold n. f_equal.
  rewrite natDigits_padded;
    [| lia | split; [lia | apply Z.le_lt_trans with (2 ^ 31); [lia | reflexivity]]].
  change (hexFixed 64 n) with (hexFixed (56 + 8) n).
  rewrite KeySpace.hexFixed_app.
  rewrite (Z.div_small n (16 ^ Z.of_nat 8)) by (change (16 ^ Z.of_nat 8) with (2 ^ 32); lia).
  rewrite KeySpace.hexFixed_zero. reflexivity.
Qed.

Lemma isSuiAddress_padded n :
  isSuiAddress ("0x" +:+ str (repeat "0"%char 56 ++ hexFixed 8 n)) = true.
Proof.
  unfold isSuiAddress, chars, str.
  change ("0x" +:+ string_of_list_ascii (repeat "0"%char 56 ++ hexFixed 8 n))
    with (String "0" (String "x"
            (string_of_list_ascii (repeat "0"%char 56 ++ hexFixed 8 n)))).
  cbn [list_ascii_of_string]. rewrite list_ascii_of_string_of_list_ascii.
  rewrite length_app, repeat_length, length_hexFixed, forallb_app, hexFixed_hex.
  reflexivity.
Qed.

(** When the SDK refuses the pseudo-token, the address of a login is
    0x, 56 zeros and the eight hexadecimal digits of the absolute value
    of the 32-bit hash of subject, salt and provider; it has the format
    the faucet asks for. *)
Theorem fallback_address_wellformed
    lib (userData : UserData) (salt : string) (provider : Provider) (now : Z)
    (s : Service) ev m :
  jwtToAddress lib userData provider
    (default (providerName provider +:+ "-nonce")
       (getTruthy (sessionStorage (storage s)) "zklogin_nonce")) now salt
  = Throws m ->
  let n := Z.abs (hashUnits (units (template (u_sub userData) +:+ salt
                                      +:+ providerName provider))) in
  let addr := "0x" +:+ str (repeat "0"%char 56 ++ hexFixed 8 n) in
  0 <= n <= 2 ^ 31
  /\ generateZkLoginAddress lib userData salt provider now s ev = (Returns addr, s, ev)
  /\ isSuiAddress addr = true.
Proof.
  intros Hjwt n addr.
  destruct (hashString_shape (template (u_sub userData) +:+ salt +:+ providerName provider))
    as [Hn Hshape].
  fold n in Hn, Hshape.
  split; [exact Hn |]. split; [| apply isSuiAddress_padded].
  unfold generateZkLoginAddress, bind, get, ret. rewrite Hjwt, Hshape.
  unfold chars, str, substring0. rewrite list_ascii_of_string_of_list_ascii.
  rewrite firstn_all2; [reflexivity |].
  rewrite length_app, repeat_length, length_hexFixed. lia.
Qed.

Import Scenarios Cases.

Lemma fallback_address_wellformed_witness :
  generateZkLoginAddress (zkLibRefusing (Returns aliceClaim)) aliceData "42" github 1000
    (newService callbackPage) noEvents
  = (Returns "0x0000000000000000000000000000000000000000000000000000000048c993bf",
     newService callbackPage, noEvents).
Proof.
  destruct (fallback_address_wellformed (zkLibRefusing (Returns aliceClaim)) aliceData "42"
              github 1000 (newService callbackPage) noEvents "Invalid JWT" eq_refl)
    as (_ & Hrun & _).
  rewrite Hrun. vm_compute. reflexivity.
Defined.

End AddressFacts.

(* ===================================================================== *)
(** ** The faucet: the two clients and the route *)
(* ===================================================================== *)

Module FaucetFacts.
Import JsString JsNumber Effects Browser Reference Network Faucet FaucetRoute Expected.
Local Open Scope Z_scope.

Ltac split_matches :=
  repeat match goal with
         | |- context [match ?x with _ => _ end] =>
             lazymatch x with
             | context [match _ with _ => _ end] => fail
             | _ => destruct x eqn:?; cbn
             end
         end.

Lemma isSuiAddress_truthy address : isSuiAddress address = true -> truthy address = true.
Proof. destruct address; [discriminate | reflexivity]. Qed.

Lemma zk_unavailable_is_mainnet rpcUrl :
  Zk.isFaucetAvailable rpcUrl = false -> Zk.getNetworkName rpcUrl = "Mainnet".
Proof.
  unfold Zk.isFaucetAvailable, Zk.getNetworkName.
  destruct (Zk.isTestnet rpcUrl), (Zk.isDevnet rpcUrl); reflexivity || discriminate.
Qed.

(** A request of the proof-based client that passes the three checks
    is posted once, whatever comes back. *)
Lemma zk_faucet_posts rpcUrl fetch address posted ev :
  Zk.isFaucetAvailable rpcUrl = true -> isSuiAddress address = true ->
  after (requestFaucetSuiZk rpcUrl fetch (Some address) posted ev) = posted ++ [address].
Proof.
  intros Havail Hformat.
  unfold requestFaucetSuiZk, tryCatch, bind, post, lift, throw, ret, consoleError, after.
  rewrite (isSuiAddress_truthy _ Hformat), Havail, Hformat. cbn.
  split_matches; reflexivity.
Qed.

(** The proof-based [requestFaucetSui] never throws. It posts nothing
    unless the service has a wallet address of the format 0x and 64
    hexadecimal digits and the RPC URL names testnet or devnet, and then
    posts that address once. Without a wallet address, and with one of
    another format, the error returned is the invalid-wallet-address
    text; on any other network it is the network-connection text. *)
Theorem faucet_request_guarded
    (rpcUrl : string) (fetch : string -> outcome Response)
    (walletAddress : option string) (posted : Posts) (ev : Events) :
  let r := requestFaucetSuiZk rpcUrl fetch walletAddress posted ev in
  let refused message :=
    (Returns (FaucetFailure message), posted, logged "Faucet request failed" ev) in
  (exists outcome, result r = Returns outcome)
  /\ (after r = posted
      \/ exists address,
           walletAddress = Some address /\ isSuiAddress address = true
           /\ Zk.isFaucetAvailable rpcUrl = true /\ after r = posted ++ [address])
  /\ (walletAddress = None -> r = refused msgCheckWallet)
  /\ (forall address,
        walletAddress = Some address -> truthy address = true ->
        Zk.isFaucetAvailable rpcUrl = false -> r = refused msgConnection)
  /\ (forall address,
        walletAddress = Some address ->
        Zk.isFaucetAvailable rpcUrl = true -> isSuiAddress address = false ->
        r = refused msgCheckWallet).
Proof.
  intros r refused. split; [| split; [| split; [| split]]].
  - subst r. unfold requestFaucetSuiZk, tryCatch, result.
    match goal with
    | |- context [match ?body posted ev with _ => _ end] =>
        destruct (body posted ev) as [[[a | m] s'] ev']
    end; eexists; reflexivity.
  - destruct walletAddress as [address |]; [| left; reflexivity].
    destruct (truthy address) eqn:Htruthy;
      [| left; subst r; unfold requestFaucetSuiZk; rewrite Htruthy; reflexivity].
    destruct (Zk.isFaucetAvailable rpcUrl) eqn:Havail;
      [| left; subst r; unfold requestFaucetSuiZk; rewrite Htruthy, Havail; reflexivity].
    destruct (isSuiAddress address) eqn:Hformat.
    + right. exists address. repeat split; try reflexivity.
      * exact Hformat.
      * apply zk_faucet_posts; assumption.
    + left. subst r. unfold requestFaucetSuiZk.
      rewrite Htruthy, Havail, Hformat. reflexivity.
  - intros ->. reflexivity.
  - intros address -> Htruthy Havail. subst r refused.
    unfold requestFaucetSuiZk. rewrite Htruthy, Havail.
    unfold tryCatch, throw, bind, consoleError, ret. cbn [negb].
    rewrite (zk_unavailable_is_mainnet rpcUrl Havail). reflexivity.
  - intros address -> Havail Hformat. subst r refused.
    unfold requestFaucetSuiZk. rewrite Havail, Hformat.
    destruct (truthy address); reflexivity.
Qed.

(** The faucet the route turns to: by the SDK first, and directly only
    after the SDK call failed. *)
Lemma serve_run env up address made ev :
  let devnet := stringIncludes (rpcUrlOf env devnetRpc) "devnet" in
  let network := if devnet then "devnet" else "testnet" in
  let url := if devnet then devnetFaucet else testnetFaucet in
  let r := serve env up address made ev in
  (forall payload,
      sdk up network address = Returns payload ->
      r = (Returns (granted payload "sdk" network), made ++ [CallSdk network address], ev))
  /\ (forall m,
        sdk up network address = Throws m ->
        after r = made ++ [CallSdk network address; CallDirect url address]
        /\ match result r with
           | Returns reply =>
               reply = refusal 429 msgRateLimit
               \/ exists payload, reply = granted payload "direct" network
           | Throws _ => True
           end).
Proof.
  intros devnet network url r. subst r. unfold serve. fold devnet. fold network. fold url.
  unfold tryCatch, bind, callSdk, callDirect, lift, ret, throw, consoleError, after, result.
  split.
  - intros payload ->. reflexivity.
  - intros m ->. cbn. rewrite <- app_assoc. cbn [app].
    destruct (direct up url address) as [response | m']; cbn; [| split; [reflexivity | exact I]].
    destruct (d_ok response); cbn.
    + destruct (d_json response) as [payload | m']; cbn;
        [| split; [reflexivity | exact I]].
      split; [reflexivity |]. right. exists payload. subst network. reflexivity.
    + destruct (d_text response) as [errorText | m']; cbn;
        [| split; [reflexivity | exact I]].
      destruct (d_status response =? 429); cbn; split; try reflexivity; try exact I.
      left. reflexivity.
Qed.

Ltac refused_before_faucet :=
  eexists; split; [reflexivity |];
  split; [split; intros H; discriminate H |];
  split; [auto |];
  split; [left; reflexivity |];
  intros H; first [discriminate H | split; reflexivity].

(** The route always answers, with status 200, 400, 429 or 500, and with
    success exactly under 200; it turns to a faucet only for an address
    of the format 0x and 64 hexadecimal digits: to the SDK first, and to
    the faucet service directly only when the SDK call failed. *)
Lemma route_answers
    (env : option string) (up : Upstream) (requestJson : outcome RequestJson)
    (made : list RouteCall) (ev : Events) :
  let r := POST env up requestJson made ev in
  let devnet := stringIncludes (rpcUrlOf env devnetRpc) "devnet" in
  let network := if devnet then "devnet" else "testnet" in
  let url := if devnet then devnetFaucet else testnetFaucet in
  (statusNetwork env = "mainnet" -> network = "testnet")
  /\ exists reply,
       result r = Returns reply
       /\ (rb_success (rr_body reply) = true <-> rr_status reply = 200)
       /\ (rr_status reply = 200 \/ rr_status reply = 400
           \/ rr_status reply = 429 \/ rr_status reply = 500)
       /\ (after r = made
           \/ exists address,
                requestJson = Returns (RequestObject (JStr address))
                /\ isSuiAddress address = true
                /\ ((exists payload, sdk up network address = Returns payload)
                    /\ after r = made ++ [CallSdk network address]
                    \/ (exists m, sdk up network address = Throws m)
                       /\ after r = made ++ [CallSdk network address;
                                            CallDirect url address]))
       /\ (rr_status reply = 400 ->
           after r = made /\ rb_error (rr_body reply) = Some msgInvalidAddress).
Proof.
  intros r devnet network url. split.
  { unfold statusNetwork. fold devnet. subst network.
    destruct devnet; [discriminate | reflexivity]. }
  subst r. unfold POST, tryCatch, bind, lift, throw, ret, consoleError.
  destruct requestJson as [[| address] | m]; cbn -[serve]; try refused_before_faucet.
  destruct address as [| | text | n]; cbn -[serve]; try refused_before_faucet.
  - destruct (truthy text && isSuiAddress text) eqn:Hcheck; cbn -[serve];
      [| refused_before_faucet].
    apply andb_true_iff in Hcheck as [_ Hformat].
    destruct (serve_run env up text made ev) as [Hsdk Hdirect].
    fold devnet in Hsdk, Hdirect. fold network in Hsdk, Hdirect. fold url in Hdirect.
    destruct (sdk up network text) as [payload | m] eqn:Hanswer.
    + rewrite (Hsdk payload eq_refl). cbn -[serve].
      eexists. split; [reflexivity |].
      split; [split; reflexivity |]. split; [auto |].
      split; [| intros H; discriminate H].
      right. exists text. split; [reflexivity |]. split; [exact Hformat |].
      left. split; [exists payload; exact Hanswer | reflexivity].
    + destruct (Hdirect m eq_refl) as [Hafter Hreply].
      unfold after, result in Hafter, Hreply.
      destruct (serve env up text made ev) as [[[reply | m'] made'] ev']; cbn -[serve] in *.
      * subst made'. exists reply. split; [reflexivity |].
        assert (Hcalls :
          made ++ [CallSdk network text; CallDirect url text] = made
          \/ exists address,
               Returns (RequestObject (JStr text)) = Returns (RequestObject (JStr address))
               /\ isSuiAddress address = true
               /\ ((exists payload, sdk up network address = Returns payload)
                   /\ made ++ [CallSdk network text; CallDirect url text]
                      = made ++ [CallSdk network address]
                   \/ (exists m0, sdk up network address = Throws m0)
                      /\ made ++ [CallSdk network text; CallDirect url text]
                         = made ++ [CallSdk network address; CallDirect url address])).
        { right. exists text. split; [reflexivity |]. split; [exact Hformat |].
          right. split; [exists m; exact Hanswer | reflexivity]. }
        destruct Hreply as [-> | [payload ->]]; cbn.
        -- split; [split; intros H; discriminate H |]. split; [auto |].
           split; [exact Hcalls | intros H; discriminate H].
        -- split; [split; reflexivity |]. split; [auto |].
           split; [exact Hcalls | intros H; discriminate H].
      * subst made'. eexists. split; [reflexivity |].
        split; [split; intros H; discriminate H |]. split; [auto |].
        split; [| intros H; discriminate H].
        right. exists text. split; [reflexivity |]. split; [exact Hformat |].
        right. split; [exists m; exact Hanswer | reflexivity].
  - destruct (n =? 0); cbn; refused_before_faucet.
Qed.

(** The requests the route refuses before any faucet is asked, and the
    only ones it answers 400. *)
Lemma route_refusals
    (env : option string) (up : Upstream) (requestJson : outcome RequestJson)
    (made : list RouteCall) (ev : Events) :
  let r := POST env up requestJson made ev in
  (forall address,
      requestJson = Returns (RequestObject address) -> malformed address ->
      result r = Returns (refusal 400 msgInvalidAddress) /\ after r = made)
  /\ (forall n,
        requestJson = Returns (RequestObject (JNum n)) -> n <> 0 ->
        result r = Returns (refusal 500 msgNoMatchMethod) /\ after r = made)
  /\ (requestJson = Returns RequestNull ->
      result r = Returns (refusal 500 msgDestructure) /\ after r = made)
  /\ (forall m,
        requestJson = Throws m ->
        result r = Returns (refusal 500 m) /\ after r = made)
  /\ (forall reply,
        result r = Returns reply -> rr_status reply = 400 ->
        exists address, requestJson = Returns (RequestObject address) /\ malformed address).
Proof.
  intros r. subst r. unfold POST, tryCatch, bind, lift, throw, ret, consoleError, malformed.
  split; [| split; [| split; [| split]]].
  - intros address -> [Hfalsy | (text & -> & Hformat)].
    + destruct address as [| | text | n]; cbn -[serve] in *; try (split; reflexivity).
      * rewrite Hfalsy. cbn. split; reflexivity.
      * apply negb_false_iff in Hfalsy. rewrite Hfalsy. split; reflexivity.
    + cbn -[serve]. rewrite Hformat, andb_false_r. split; reflexivity.
  - intros n -> Hn. cbn. destruct (Z.eqb_spec n 0); [contradiction |]. split; reflexivity.
  - intros ->. split; reflexivity.
  - intros m ->. split; reflexivity.
  - intros reply.
    destruct requestJson as [[| address] | m]; cbn -[serve];
      try (intros H; injection H as <-; discriminate).
    destruct address as [| | text | n]; cbn -[serve].
    + intros _ _. eexists. split; [reflexivity | left; reflexivity].
    + intros _ _. eexists. split; [reflexivity | left; reflexivity].
    + destruct (truthy text) eqn:Htruthy; cbn -[serve];
        [| intros _ _; eexists; split; [reflexivity | left; exact Htruthy]].
      destruct (isSuiAddress text) eqn:Hformat; cbn -[serve];
        [| intros _ _; eexists; split; [reflexivity | right; exists text; split; auto]].
      destruct (serve_run env up text made ev) as [Hsdk Hdirect]. cbv zeta in Hsdk, Hdirect.
      match type of Hsdk with
      | forall payload, sdk up ?network text = _ -> _ =>
          destruct (sdk up network text) as [payload | m] eqn:Hanswer
      end.
      * rewrite (Hsdk payload eq_refl). cbn. intros H. injection H as <-. discriminate.
      * destruct (Hdirect m eq_refl) as [_ Hreply]. unfold result in Hreply.
        destruct (serve env up text made ev) as [[[served | m'] made'] ev']; cbn in *.
        -- intros H. injection H as <-.
           destruct Hreply as [-> | [payload ->]]; discriminate.
        -- intros H. injection H as <-. discriminate.
    + destruct (Z.eqb_spec n 0) as [-> | Hn]; cbn.
      * intros _ _. eexists. split; [reflexivity | left; reflexivity].
      * intros H. injection H as <-. discriminate.
Qed.

(** The route always answers, with status 200, 400, 429 or 500, and with
    success exactly under 200. It turns to a faucet only for an address
    of the format 0x and 64 hexadecimal digits: to the SDK first, and to
    the faucet service directly only when the SDK call failed. It
    answers 400, with the invalid-format error, exactly when the body
    is an object whose address is falsy or a string not of that
    format; a body that is [null], a body that cannot be read and an
    address that is a number other than 0 are answered 500 with the
    message of the error; in none of these cases is a faucet asked.
    The faucet asked is devnet's when the RPC URL names devnet and
    testnet's otherwise, also where [GET] reports mainnet. *)
Theorem route_checks_address
    (env : option string) (up : Upstream) (requestJson : outcome RequestJson)
    (made : list RouteCall) (ev : Events) :
  let r := POST env up requestJson made ev in
  let devnet := stringIncludes (rpcUrlOf env devnetRpc) "devnet" in
  let network := if devnet then "devnet" else "testnet" in
  let url := if devnet then devnetFaucet else testnetFaucet in
  ((statusNetwork env = "mainnet" -> network = "testnet")
   /\ exists reply,
        result r = Returns reply
        /\ (rb_success (rr_body reply) = true <-> rr_status reply = 200)
        /\ (rr_status reply = 200 \/ rr_status reply = 400
            \/ rr_status reply = 429 \/ rr_status reply = 500)
        /\ (after r = made
            \/ exists address,
                 requestJson = Returns (RequestObject (JStr address))
                 /\ isSuiAddress address = true
                 /\ ((exists payload, sdk up network address = Returns payload)
                     /\ after r = made ++ [CallSdk network address]
                     \/ (exists m, sdk up network address = Throws m)
                        /\ after r = made ++ [CallSdk network address;
                                             CallDirect url address]))
        /\ (rr_status reply = 400 ->
            after r = made /\ rb_error (rr_body reply) = Some msgInvalidAddress))
  /\ (forall address,
        requestJson = Returns (RequestObject address) -> malformed address ->
        result r = Returns (refusal 400 msgInvalidAddress) /\ after r = made)
  /\ (forall n,
        requestJson = Returns (RequestObject (JNum n)) -> n <> 0 ->
        result r = Returns (refusal 500 msgNoMatchMethod) /\ after r = made)
  /\ (requestJson = Returns RequestNull ->
      result r = Returns (refusal 500 msgDestructure) /\ after r = made)
  /\ (forall m,
        requestJson = Throws m ->
        result r = Returns (refusal 500 m) /\ after r = made)
  /\ (forall reply,
        result r = Returns reply -> rr_status reply = 400 ->
        exists address, requestJson = Returns (RequestObject address) /\ malformed address).
Proof.
  intros r devnet network url.
  split; [exact (route_answers env up requestJson made ev) |].
  exact (route_refusals env up requestJson made ev).
Qed.

Lemma post_accepted env up address :
  isSuiAddress address = true ->
  result (POST env up (Returns (RequestObject (JStr address))) [] noEvents)
  = match result (serve env up address [] noEvents) with
    | Returns reply => Returns reply
    | Throws m => Returns (refusal 500 m)
    end.
Proof.
  intros Hformat. unfold POST, tryCatch, bind, lift, result.
  rewrite (isSuiAddress_truthy _ Hformat), Hformat. cbn -[serve].
  destruct (serve env up address [] noEvents) as [[[reply | m] made] ev]; reflexivity.
Qed.

(** What the browser gets when the SDK call of the route succeeds. *)
Lemma viaRoute_granted env up address payload :
  let devnet := stringIncludes (rpcUrlOf env devnetRpc) "devnet" in
  let network := if devnet then "devnet" else "testnet" in
  isSuiAddress address = true ->
  sdk up network address = Returns payload ->
  viaRoute env up address
  = Returns {| r_ok := true; r_status := 200;
               r_json := Returns (JsonObject {| b_success := true; b_error := JUndefined;
                                                b_result := payload;
                                                b_method := JStr "sdk" |}) |}.
Proof.
  intros devnet network Hformat Hsdk. unfold viaRoute.
  rewrite (post_accepted env up address Hformat).
  destruct (serve_run env up address [] noEvents) as [Hrun _].
  rewrite (Hrun payload Hsdk). reflexivity.
Qed.

(** What the browser gets when the SDK call failed and the faucet
    service answers 429. *)
Lemma viaRoute_rate_limited env up address m response errorText :
  let devnet := stringIncludes (rpcUrlOf env devnetRpc) "devnet" in
  let network := if devnet then "devnet" else "testnet" in
  let url := if devnet then devnetFaucet else testnetFaucet in
  isSuiAddress address = true ->
  sdk up network address = Throws m ->
  direct up url address = Returns response ->
  d_ok response = false -> d_text response = Returns errorText ->
  d_status response = 429 ->
  viaRoute env up address
  = Returns {| r_ok := false; r_status := 429;
               r_json := Returns (JsonObject {| b_success := false;
                                                b_error := JStr msgRateLimit;
                                                b_result := None;
                                                b_method := JUndefined |}) |}.
Proof.
  intros devnet network url Hformat Hsdk Hdirect Hok Htext Hstatus. unfold viaRoute.
  rewrite (post_accepted env up address Hformat).
  unfold serve. fold devnet. fold network. fold url.
  unfold tryCatch, bind, callSdk, callDirect, lift, ret, throw, consoleError, result.
  rewrite Hsdk. cbn. rewrite Hdirect. cbn. rewrite Hok. cbn. rewrite Htext. cbn.
  rewrite Hstatus. reflexivity.
Qed.

(** The proof-based client against the route. A request from a wallet
    whose address has the format, on testnet or devnet, is posted once.
    When the route's SDK call succeeds the client returns success with
    the transaction id read from the payload and the amount 1.0. When
    the SDK call fails and the faucet service answers 429, the client
    returns the failed-to-get text around the route's rate-limit
    message, not its own too-many-requests text. *)
Theorem faucet_end_to_end
    (env : option string) (fallback : string) (up : Upstream) (address : string)
    (posted : Posts) (ev : Events) :
  let rpcUrl := rpcUrlOf env fallback in
  let devnet := stringIncludes (rpcUrlOf env devnetRpc) "devnet" in
  let network := if devnet then "devnet" else "testnet" in
  let url := if devnet then devnetFaucet else testnetFaucet in
  isSuiAddress address = true ->
  Zk.isFaucetAvailable rpcUrl = true ->
  let r := requestFaucetSuiZk rpcUrl (viaRoute env up) (Some address) posted ev in
  after r = posted ++ [address]
  /\ (forall payload,
        sdk up network address = Returns payload ->
        r = (Returns (FaucetSuccess (grantedTxId payload "sdk") "1.0"),
             posted ++ [address], ev))
  /\ (forall m response errorText,
        sdk up network address = Throws m ->
        direct up url address = Returns response ->
        d_ok response = false -> d_text response = Returns errorText ->
        d_status response = 429 ->
        r = (Returns (FaucetFailure (msgFailedToGet msgRateLimit)),
             posted ++ [address],
             logged "Faucet request failed" (logged "Server responded with error" ev))).
Proof.
  intros rpcUrl devnet network url Hformat Havail r.
  split; [apply zk_faucet_posts; assumption |]. split.
  - intros payload Hsdk. subst r. unfold requestFaucetSuiZk.
    rewrite (isSuiAddress_truthy _ Hformat), Havail, Hformat.
    unfold tryCatch, bind, post, lift, ret.
    rewrite (viaRoute_granted env up address payload Hformat Hsdk). cbn.
    destruct payload as [p |]; reflexivity.
  - intros m response errorText Hsdk Hdirect Hok Htext Hstatus. subst r.
    unfold requestFaucetSuiZk.
    rewrite (isSuiAddress_truthy _ Hformat), Havail, Hformat.
    unfold tryCatch, bind, post, lift, ret, throw, consoleError.
    rewrite (viaRoute_rate_limited env up address m response errorText
               Hformat Hsdk Hdirect Hok Htext Hstatus).
    reflexivity.
Qed.

(** The direct-key client posts every wallet address it has, once and
    unchecked; through the route, an address of another format comes
    back as the route's own invalid-address message. *)
Theorem direct_faucet_unchecked
    (env : option string) (up : Upstream) (address : string)
    (posted : Posts) (ev : Events) :
  truthy address = true ->
  (forall fetch,
      after (requestFaucetSuiDirect fetch (Some address) posted ev) = posted ++ [address])
  /\ (isSuiAddress address = false ->
      requestFaucetSuiDirect (viaRoute env up) (Some address) posted ev
      = (Returns (FaucetFailure msgInvalidAddress), posted ++ [address],
         logged "Faucet failed" ev)).
Proof.
  intros Htruthy. split.
  - intros fetch.
    unfold requestFaucetSuiDirect, tryCatch, bind, post, lift, throw, ret, consoleError, after.
    rewrite Htruthy. cbn. split_matches; reflexivity.
  - intros Hformat.
    unfold requestFaucetSuiDirect, tryCatch, bind, post, lift, throw, ret, consoleError.
    rewrite Htruthy. cbn -[viaRoute].
    unfold viaRoute, POST, tryCatch, bind, lift, result.
    rewrite Htruthy, Hformat. reflexivity.
Qed.

Import Cases.

Lemma faucet_end_to_end_witness :
  requestFaucetSuiZk testnetRpc (viaRoute (Some testnetRpc) openFaucet) (Some carol)
    [] noEvents
  = (Returns (FaucetSuccess (JStr "0xgas") "1.0"), [carol], noEvents)
  /\ requestFaucetSuiZk testnetRpc (viaRoute (Some testnetRpc) busyFaucet) (Some carol)
       [] noEvents
     = (Returns (FaucetFailure (msgFailedToGet msgRateLimit)), [carol],
        logged "Faucet request failed" (logged "Server responded with error" noEvents)).
Proof.
  split.
  - destruct (faucet_end_to_end (Some testnetRpc) "unused" openFaucet carol [] noEvents)
      as (_ & Hgranted & _); [vm_compute; reflexivity | vm_compute; reflexivity |].
    apply (Hgranted (Some gasPayload)). reflexivity.
  - destruct (faucet_end_to_end (Some testnetRpc) "unused" busyFaucet carol [] noEvents)
      as (_ & _ & Hbusy); [vm_compute; reflexivity | vm_compute; reflexivity |].
    eapply Hbusy; reflexivity.
Defined.

Lemma direct_faucet_unchecked_witness :
  requestFaucetSuiDirect (viaRoute (Some testnetRpc) openFaucet) (Some "0xa11ce")
    [] noEvents
  = (Returns (FaucetFailure msgInvalidAddress), ["0xa11ce"], logged "Faucet failed" noEvents).
Proof.
  destruct (direct_faucet_unchecked (Some testnetRpc) openFaucet "0xa11ce" [] noEvents)
    as [_ Hrefused]; [reflexivity |].
  apply Hrefused. vm_compute. reflexivity.
Defined.

End FaucetFacts.

(* ===================================================================== *)
(** ** Wallet checks and the direct-key send *)
(* ===================================================================== *)

Module WalletFacts.
Import JsString JsNumber Effects Browser Reference Expected.
Local Open Scope Z_scope.

#[local] Arguments parseFloat : simpl never.
#[local] Arguments toFixed : simpl never.
#[local] Arguments ofBigInt : simpl never.
#[local] Arguments div : simpl never.
#[local] Arguments mul : simpl never.
#[local] Arguments floorToBigInt : simpl never.
#[local] Arguments ZkLogin.sumBalances : simpl never.
#[local] Arguments ZkLogin.totalGas : simpl never.
#[local] Arguments ZkLogin.msgNotAnInteger : simpl never.
#[local] Arguments ZkLogin.msgTransactionFailed : simpl never.
#[local] Arguments String.eqb : simpl never.
#[local] Arguments pureU64 : simpl never.

Ltac step :=
  unfold tryCatch, bind, get, put, ret, throw, lift, request, consoleError,
    result, after, trace in *;
  cbn in *.

(** [validateWallet] never throws and changes nothing. The balance it
    reports is the one [getBalance] returns from the same state against
    the same ledger, through the same single coin query; it reports
    coins exactly when the count is positive, and an invalid wallet
    exactly when there is no wallet address or the coin query threw. *)
Theorem validateWallet_reports (ledger : Ledger) (s : ZkLogin.Service) (ev : Events) :
  let v := ZkWallet.validateWallet ledger s ev in
  let b := ZkLogin.getBalance ledger s ev in
  exists info,
    result v = Returns info
    /\ after v = s
    /\ result b = Returns (ZkWallet.w_balance info)
    /\ calls (trace v) = calls (trace b)
    /\ ZkWallet.w_hasCoins info = (0 <? ZkWallet.w_coinCount info)%nat
    /\ (ZkWallet.w_isValid info = true -> ZkWallet.w_error info = None)
    /\ (ZkWallet.w_isValid info = false <->
        ZkLogin.address s = None
        \/ exists owner m,
             ZkLogin.address s = Some owner
             /\ getCoins ledger (length (calls ev)) owner = Throws m).
Proof.
  intros v b. subst v b. unfold ZkWallet.validateWallet, ZkLogin.getBalance. step.
  destruct (ZkLogin.address s) as [owner |] eqn:Haddr; cbn.
  - destruct (getCoins ledger (length (calls ev)) owner) as [coins | m] eqn:Hcoins; cbn.
    + eexists. repeat split; try reflexivity; try discriminate.
      intros [H | (owner' & m & H & H')]; [discriminate |].
      injection H as <-. congruence.
    + eexists. repeat split; try reflexivity; try discriminate.
      intros _. right. exists owner, m. split; [reflexivity | exact Hcoins].
  - eexists. repeat split; try reflexivity; try discriminate.
    intros _. left. reflexivity.
Qed.

(** The direct-key [sendTransaction] never throws and changes nothing
    in the service. It asks the ledger for no coin and no balance.
    Without key pair or address it fails with the not-initialised
    error; with an amount that does not scale to a number, and with an
    amount or a recipient the builder refuses, it fails with that
    error; in all three cases no ledger call is made. An amount that
    is no unsigned 64-bit integer, a negative one for instance, is
    always refused. In every other case the send makes exactly one
    ledger call, the one that signs and executes the split of the
    amount off the gas coin and its transfer, and an error the ledger
    throws there comes back as the failure's message, unchanged. *)
Theorem hybrid_send_once
    (lib : Hybrid.Library) (ledger : Ledger) (recipient amount : string)
    (s : Hybrid.Service) (ev : Events) :
  let r := Hybrid.sendTransaction lib ledger recipient amount s ev in
  let cmds amountInMist :=
    [ SplitCoins GasCoin [amountInMist]; TransferObjects [NestedResult 0 0] recipient ] in
  let payment amountInMist :=
    {| commands := cmds amountInMist;
       sender := None; gasPrice := None; gasBudget := None |} in
  (exists outcome, result r = Returns outcome)
  /\ after r = s
  /\ (Hybrid.keypair s = None \/ Hybrid.address s = None ->
      r = (Returns (Hybrid.SendFailure Hybrid.msgNotInitialized), s,
           logged "Real transaction failed" ev))
  /\ (forall kp owner,
        Hybrid.keypair s = Some kp -> Hybrid.address s = Some owner ->
        match floorToBigInt (mul (parseFloat amount) billion) with
        | None =>
            calls (trace r) = calls ev
            /\ result r
               = Returns (Hybrid.SendFailure
                            (ZkLogin.msgNotAnInteger (mul (parseFloat amount) billion)))
        | Some amountInMist =>
            match addCommands (Hybrid.builder lib) (cmds amountInMist) with
            | Throws message =>
                calls (trace r) = calls ev
                /\ result r = Returns (Hybrid.SendFailure message)
            | Returns _ =>
                calls (trace r)
                = calls ev ++ [CallSignAndExecute kp (payment amountInMist)]
                /\ result r
                   = Returns
                       match signAndExecuteTransaction ledger (length (calls ev)) kp
                               (payment amountInMist) with
                       | Returns res =>
                           match status res with
                           | Some st =>
                               if String.eqb st "success"
                               then Hybrid.SendSuccess (digest res)
                                      (ZkLogin.totalGas (gasUsed res))
                               else Hybrid.SendFailure
                                      (ZkLogin.msgTransactionFailed (error res))
                           | None =>
                               Hybrid.SendFailure (ZkLogin.msgTransactionFailed (error res))
                           end
                       | Throws message => Hybrid.SendFailure message
                       end
            end
        end)
  /\ (forall kp owner amountInMist,
        Hybrid.keypair s = Some kp -> Hybrid.address s = Some owner ->
        floorToBigInt (mul (parseFloat amount) billion) = Some amountInMist ->
        amountInMist < 0 \/ u64Max < amountInMist ->
        calls (trace r) = calls ev
        /\ result r = Returns (Hybrid.SendFailure (msgInvalidU64 amountInMist))).
Proof.
  intros r cmds payment.
  assert (Hidle : Hybrid.keypair s = None \/ Hybrid.address s = None ->
                  r = (Returns (Hybrid.SendFailure Hybrid.msgNotInitialized), s,
                       logged "Real transaction failed" ev)).
  { intros Hnone. subst r. unfold Hybrid.sendTransaction. step.
    destruct Hnone as [-> | ->]; [reflexivity |].
    destruct (Hybrid.keypair s); reflexivity. }
  assert (Hrun : forall kp owner,
             Hybrid.keypair s = Some kp -> Hybrid.address s = Some owner ->
             after r = s
             /\ (exists outcome, result r = Returns outcome)
             /\ match floorToBigInt (mul (parseFloat amount) billion) with
                | None =>
                    calls (trace r) = calls ev
                    /\ result r
                       = Returns (Hybrid.SendFailure
                                    (ZkLogin.msgNotAnInteger (mul (parseFloat amount) billion)))
                | Some amountInMist =>
                    match addCommands (Hybrid.builder lib) (cmds amountInMist) with
                    | Throws message =>
                        calls (trace r) = calls ev
                        /\ result r = Returns (Hybrid.SendFailure message)
                    | Returns _ =>
                        calls (trace r)
                        = calls ev ++ [CallSignAndExecute kp (payment amountInMist)]
                        /\ result r
                           = Returns
                               match signAndExecuteTransaction ledger (length (calls ev)) kp
                                       (payment amountInMist) with
                               | Returns res =>
                                   match status res with
                                   | Some st =>
                                       if String.eqb st "success"
                                       then Hybrid.SendSuccess (digest res)
                                              (ZkLogin.totalGas (gasUsed res))
                                       else Hybrid.SendFailure
                                              (ZkLogin.msgTransactionFailed (error res))
                                   | None =>
                                       Hybrid.SendFailure
                                         (ZkLogin.msgTransactionFailed (error res))
                                   end
                               | Throws message => Hybrid.SendFailure message
                               end
                    end
                end).
  { intros kp owner Hkey Haddr. clear Hidle. subst r cmds payment.
    unfold Hybrid.sendTransaction. step. rewrite Hkey, Haddr.
    destruct (floorToBigInt (mul (parseFloat amount) billion)) as [amountInMist |]; cbn;
      [| split; [reflexivity | split; [eexists; reflexivity | split; reflexivity]]].
    destruct (pureU64 amountInMist); cbn;
      [| split; [reflexivity | split; [eexists; reflexivity | split; reflexivity]]].
    destruct (splitCoins (Hybrid.builder lib) GasCoin [amountInMist]); cbn;
      [| split; [reflexivity | split; [eexists; reflexivity | split; reflexivity]]].
    destruct (transferObjects (Hybrid.builder lib) [NestedResult 0 0] recipient); cbn;
      [| split; [reflexivity | split; [eexists; reflexivity | split; reflexivity]]].
    match goal with
    | |- context [signAndExecuteTransaction ledger ?n kp ?tx] =>
        destruct (signAndExecuteTransaction ledger n kp tx) as [res | m]; cbn;
          [| split; [reflexivity | split; [eexists; reflexivity | split; reflexivity]]]
    end.
    destruct (status res) as [st |]; cbn;
      [| split; [reflexivity | split; [eexists; reflexivity | split; reflexivity]]].
    destruct (String.eqb st "success"); cbn;
      (split; [reflexivity | split; [eexists; reflexivity | split; reflexivity]]). }
  assert (Hcases : (Hybrid.keypair s = None \/ Hybrid.address s = None)
                   \/ exists kp owner,
                        Hybrid.keypair s = Some kp /\ Hybrid.address s = Some owner).
  { destruct (Hybrid.keypair s) as [kp |]; [| left; left; reflexivity].
    destruct (Hybrid.address s) as [owner |]; [| left; right; reflexivity].
    right. exists kp, owner. split; reflexivity. }
  destruct Hcases as [Hnone | (kp & owner & Hkey & Haddr)].
  - pose proof (Hidle Hnone) as Hr.
    split; [rewrite Hr; eexists; reflexivity |].
    split; [rewrite Hr; reflexivity |].
    split; [exact Hidle |].
    split; intros kp owner; intros; destruct Hnone as [Hno | Hno]; congruence.
  - destruct (Hrun kp owner Hkey Haddr) as (Hafter & Hreturns & _).
    split; [exact Hreturns |]. split; [exact Hafter |]. split; [exact Hidle |].
    split; [intros kp' owner' Hkey' Haddr'; apply (Hrun kp' owner' Hkey' Haddr') |].
    intros kp' owner' amountInMist Hkey' Haddr' Hamount Hrange.
    destruct (Hrun kp' owner' Hkey' Haddr') as (_ & _ & Hcase).
    rewrite Hamount in Hcase. subst cmds. cbn in Hcase.
    rewrite (Sending.pureU64_refuses amountInMist Hrange) in Hcase. exact Hcase.
Qed.

(** The proof-based history gives one record for every block the
    ledger returned, in the ledger's order and with the block's id,
    duplicates included. A block sent by the wallet gives a Sent record
    without sender; any other gives a Received record without recipient
    whose sender is never empty. The service is left unchanged and the
    ledger asked once. *)
Theorem zk_history_per_block
    (lib : ZkLogin.Library) (ledger : Ledger) (now : Z) (s : ZkLogin.Service) (ev : Events)
    (owner : string) (txs : list TxBlock) :
  ZkLogin.address s = Some owner ->
  queryTransactionBlocks ledger (length (calls ev)) (FromOrToAddress owner) = Returns txs ->
  let r := ZkLogin.getTransactionHistory lib ledger now s ev in
  exists records,
    result r = Returns records
    /\ after r = s
    /\ calls (trace r) = calls ev ++ [CallQuery (FromOrToAddress owner)]
    /\ map ZkLogin.hr_id records = map tb_digest txs
    /\ Forall2
         (fun tx record =>
            (tb_sender tx = Some owner ->
             ZkLogin.hr_type record = "Sent" /\ ZkLogin.hr_sender record = None)
            /\ (tb_sender tx <> Some owner ->
                ZkLogin.hr_type record = "Received"
                /\ ZkLogin.hr_recipient record = None
                /\ exists who, ZkLogin.hr_sender record = Some who /\ truthy who = true))
         txs records.
Proof.
  intros Haddr Hquery r. subst r. unfold ZkLogin.getTransactionHistory. step.
  rewrite Haddr. cbn. rewrite Hquery. cbn.
  eexists. split; [reflexivity |]. split; [reflexivity |]. split; [reflexivity |].
  split; [rewrite map_map; reflexivity |].
  clear Hquery. induction txs as [| tx txs IH]; cbn [map]; constructor; [| exact IH].
  unfold ZkLogin.processTx. split.
  - intros Hsender. rewrite (bool_decide_eq_true_2 _ Hsender). split; reflexivity.
  - intros Hsender. rewrite (bool_decide_eq_false_2 _ Hsender). cbn.
    split; [reflexivity |]. split; [reflexivity |].
    destruct (tb_sender tx) as [a |]; [| exists "Unknown"; split; reflexivity].
    destruct (truthy a) eqn:Ha; [exists a | exists "Unknown"]; split; auto.
Qed.

Import Scenarios Cases.

Lemma zk_history_per_block_witness :
  let txs := [block "abc" alice; block "r1" bob; block "abc" alice] in
  let ledger := historyLedger [block "abc" alice] [block "r1" bob; block "abc" alice] in
  map (fun record => (ZkLogin.hr_id record, ZkLogin.hr_type record))
    match result (ZkLogin.getTransactionHistory zkLib ledger 0 loggedIn noEvents) with
    | Returns records => records
    | Throws _ => []
    end
  = [("abc", "Sent"); ("r1", "Received"); ("abc", "Sent")].
Proof.
  intros txs ledger.
  destruct (zk_history_per_block zkLib ledger 0 loggedIn noEvents alice txs)
    as (records & Hresult & _); [reflexivity | reflexivity |].
  rewrite Hresult. vm_compute in Hresult. injection Hresult as <-. reflexivity.
Defined.

(** A negative amount is refused by the builder: the direct-key send
    fails with the builder's message and asks the ledger nothing. *)
Example hybrid_negative_amount :
  let ledger := ledgerWith [coin "a" (50 * sui)] 5 (Returns okResult) in
  let r := Hybrid.sendTransaction hybridLib ledger bob "-1" hybridService noEvents in
  result r = Returns (Hybrid.SendFailure (msgInvalidU64 (- sui)))
  /\ calls (trace r) = [].
Proof. vm_compute. split; reflexivity. Qed.

End WalletFacts.

(* ===================================================================== *)
(** ** Logging in: the OAuth state, the keys and the sessions *)
(* ===================================================================== *)

Module LoginFacts.
Import JsString JsNumber Effects Browser Reference Network CallbackRoute Expected.
Local Open Scope Z_scope.

Lemma digitsFrom_all (P : ascii -> Prop) radix fuel :
  (forall n, P (digitChar (n mod radix))) ->
  forall n acc, Forall P acc -> Forall P (digitsFrom radix fuel n acc).
Proof.
  intros Hdigit. induction fuel as [| fuel IH]; intros n acc Hacc; simpl; [exact Hacc |].
  assert (Hhead : Forall P (digitChar (n mod radix) :: acc))
    by (constructor; [apply Hdigit | exact Hacc]).
  destruct (n / radix =? 0); [exact Hhead | apply IH, Hhead].
Qed.

Lemma strip_all (P : ascii -> Prop) l :
  Forall P l -> Forall P (stripTrailingZeros l).
Proof.
  induction 1 as [| c l Hc Hl IH]; simpl; [constructor |].
  destruct (Ascii.eqb c "0"); [exact IH | constructor; assumption].
Qed.

Lemma natDigits_no_g m : Forall (fun c => Ascii.eqb "g" c = false) (natDigits 10 m).
Proof.
  assert (Hdigit : forall k, Ascii.eqb "g" (digitChar (k mod 10)) = false).
  { intros k. pose proof (Z.mod_pos_bound k 10 ltac:(lia)) as Hd.
    assert (Hcases : k mod 10 = 0 \/ k mod 10 = 1 \/ k mod 10 = 2 \/ k mod 10 = 3
                     \/ k mod 10 = 4 \/ k mod 10 = 5 \/ k mod 10 = 6 \/ k mod 10 = 7
                     \/ k mod 10 = 8 \/ k mod 10 = 9) by lia.
    repeat (destruct Hcases as [-> | Hcases]; [reflexivity |]).
    rewrite Hcases. reflexivity. }
  unfold natDigits. apply digitsFrom_all; [exact Hdigit | constructor].
Qed.

Lemma exponential_no_g X x :
  Forall (fun c => Ascii.eqb "g" c = false) (exponential X x).
Proof.
  unfold exponential.
  set (ds := natDigits 10 (shortestDecimal 17 1 _ X x)).
  assert (Hex : Forall (fun c => Ascii.eqb "g" c = false)
                  (chars "e+" ++ natDigits 10 (Z.of_nat (length ds) - 1))).
  { apply Forall_app. split; [repeat constructor | apply natDigits_no_g]. }
  assert (Hsig : Forall (fun c => Ascii.eqb "g" c = false)
                   (rev (stripTrailingZeros (rev ds)))).
  { apply Forall_rev, strip_all, Forall_rev. apply natDigits_no_g. }
  destruct (rev (stripTrailingZeros (rev ds))) as [| d [| d' more]]; [exact Hex | |].
  - inversion Hsig; subst. constructor; assumption.
  - inversion Hsig as [| ? ? Hd Hmore]; subst.
    constructor; [exact Hd |]. constructor; [reflexivity |].
    apply Forall_app. split; assumption.
Qed.

(** No character of a printed integer is the letter g, in digits or in
    exponent form. *)
Lemma decimal_no_g n : Forall (fun c => Ascii.eqb "g" c = false) (chars (decimal n)).
Proof.
  unfold decimal, integerToString.
  destruct (ofBigInt n) as [sign | sign | | sign m e];
    try (destruct sign; repeat constructor); try (repeat constructor).
  all: unfold chars, str; rewrite list_ascii_of_string_of_list_ascii.
  all: match goal with
       | |- context [if ?test then exponential ?X ?x else natDigits 10 ?Y] =>
           assert (Hbody : Forall (fun a => Ascii.eqb "g" a = false)
                             (if test then exponential X x else natDigits 10 Y))
             by (destruct test; [apply exponential_no_g | apply natDigits_no_g])
       end.
  all: first [exact Hbody | constructor; [reflexivity | exact Hbody]].
Qed.

Lemma includes_without_head a rest hay :
  Forall (fun c => Ascii.eqb a c = false) hay -> includes (a :: rest) hay = false.
Proof.
  induction 1 as [| c hay Hc _ IH]; [reflexivity |].
  simpl. rewrite Hc, IH. reflexivity.
Qed.

Lemma decimal_names_no_provider n :
  stringIncludes (decimal n) "github" = false /\ stringIncludes (decimal n) "google" = false.
Proof.
  unfold stringIncludes.
  split; apply includes_without_head, decimal_no_g.
Qed.

(** The callback route reads from the [state] that either service put
    into its authorisation URL the provider the login was started
    with, at every clock reading. *)
Theorem state_names_provider (provider : Provider) (now : Z) :
  getProviderFromState (Some (zkLoginState provider now)) = Some provider
  /\ getProviderFromState (Some (hybridState provider now)) = Some provider.
Proof.
  destruct (decimal_names_no_provider now) as [Hgithub Hgoogle].
  unfold stringIncludes, chars in Hgithub, Hgoogle.
  cbn [list_ascii_of_string] in Hgithub, Hgoogle.
  unfold getProviderFromState, zkLoginState, hybridState, stringIncludes, chars.
  destruct provider; split; simpl;
    change (EmptyString +:+ decimal now) with (decimal now);
    rewrite ?Hgithub, ?Hgoogle; reflexivity.
Qed.

Lemma natDigits_cons radix m : exists c rest, natDigits radix m = c :: rest.
Proof.
  pose proof (Sessions.truthy_toStringRadix radix m) as H.
  unfold toStringRadix, str in H.
  destruct (natDigits radix m) as [| c rest]; [discriminate | exists c, rest; reflexivity].
Qed.

Lemma truthy_decimal n : truthy (decimal n) = true.
Proof.
  unfold decimal, integerToString.
  destruct (ofBigInt n) as [sign | sign | | sign m e]; try (destruct sign; reflexivity);
    try reflexivity.
  set (X := if 0 <=? e then _ else _).
  assert (Hbody : exists c rest,
             (if 10 ^ 21 <=? X then exponential X (S754_finite false m e)
              else natDigits 10 X) = c :: rest).
  { destruct (10 ^ 21 <=? X); [| apply natDigits_cons].
    unfold exponential.
    destruct (rev (stripTrailingZeros (rev (natDigits 10 _)))) as [| d [| d' more]];
      eexists _, _; reflexivity. }
  destruct Hbody as (c & rest & ->). destruct sign; reflexivity.
Qed.

Lemma decimal_cons n : exists c rest, decimal n = String c rest.
Proof.
  pose proof (truthy_decimal n) as H.
  destruct (decimal n) as [| c rest]; [discriminate | exists c, rest; reflexivity].
Qed.


Section ZkLogins.
Import ZkLogin.
Context (lib : Library) (ledger : Ledger).

Ltac run_login :=
  unfold initiateLogin, setEphemeralKeyPair, setMaxEpoch, updateStorage, tryCatch, bind,
    get, put, ret, throw, lift, request, consoleError, result, after, trace, logged in *.

(** The page after a login was started: the five entries of
    [sessionStorage]. *)
Lemma initiateLogin_run provider fresh randomness now (s : Service) ev epoch nonce :
  truthy (clientId lib provider) = true ->
  getLatestSuiSystemState ledger (length (calls ev)) = Returns epoch ->
  generateNonce lib fresh (epoch + 10) randomness = Returns nonce ->
  initiateLogin lib ledger provider fresh randomness now s ev
  = (Returns (LoginUrl provider (clientId lib provider) nonce now),
     {| user := user s; walletAddress := walletAddress s;
        ephemeralKeyPair := Some fresh; zkProof := zkProof s; userSalt := userSalt s;
        maxEpoch := Some (epoch + 10); sessionExpiry := sessionExpiry s;
        storage :=
          setSession "zklogin_provider" (providerName provider)
            (setSession "zklogin_nonce" nonce
               (setSession "zklogin_randomness" randomness
                  (setSession "zklogin_max_epoch" (decimal (epoch + 10))
                     (setSession "zklogin_ephemeral_keypair" (secretKeyJson lib fresh)
                        (storage s))))) |},
     {| calls := calls ev ++ [CallSystemState]; console := console ev |}).
Proof.
  intros Hconfigured Hepoch Hnonce. run_login.
  rewrite Hconfigured. cbn. rewrite Hepoch. cbn. rewrite Hnonce. reflexivity.
Qed.

(** [initiateLogin] of the proof-based service never throws. For a
    provider without client id, which is one [getAvailableProviders]
    leaves out, it fails with the not-configured message and touches
    nothing. For any other it asks the ledger for the epoch, once, and
    by then has replaced the ephemeral key pair with a fresh one, also
    when the query then fails and the login with it; when query and
    nonce succeed, [maxEpoch] is the epoch plus 10 and the session
    storage holds the provider and the key. The local storage is never
    written. *)
Theorem login_needs_client_id
    (provider : Provider) (fresh : Keypair) (randomness : string) (now : Z)
    (s : Service) (ev : Events) :
  let r := initiateLogin lib ledger provider fresh randomness now s ev in
  (In provider (ZkWallet.getAvailableProviders lib) <-> truthy (clientId lib provider) = true)
  /\ (exists outcome, result r = Returns outcome)
  /\ localStorage (storage (after r)) = localStorage (storage s)
  /\ (truthy (clientId lib provider) = false ->
      r = (Returns (LoginError (msgNotConfigured provider)), s,
           logged "Failed to initiate login" ev))
  /\ (truthy (clientId lib provider) = true ->
      calls (trace r) = calls ev ++ [CallSystemState]
      /\ ephemeralKeyPair (after r) = Some fresh
      /\ (forall m,
            getLatestSuiSystemState ledger (length (calls ev)) = Throws m ->
            result r = Returns (LoginError m)
            /\ storage (after r) = storage s /\ maxEpoch (after r) = maxEpoch s)
      /\ (forall epoch nonce,
            getLatestSuiSystemState ledger (length (calls ev)) = Returns epoch ->
            generateNonce lib fresh (epoch + 10) randomness = Returns nonce ->
            result r = Returns (LoginUrl provider (clientId lib provider) nonce now)
            /\ maxEpoch (after r) = Some (epoch + 10)
            /\ getTruthy (sessionStorage (storage (after r))) "zklogin_provider"
               = Some (providerName provider)
            /\ sessionStorage (storage (after r)) !! "zklogin_ephemeral_keypair"
               = Some (secretKeyJson lib fresh))).
Proof.
  intros r. split; [| split; [| split; [| split]]].
  - unfold ZkWallet.getAvailableProviders, ZkWallet.isProviderConfigured.
    rewrite filter_In. split; [intros [_ H]; exact H |].
    intros H. split; [destruct provider; simpl; auto | exact H].
  - subst r. unfold initiateLogin, tryCatch, result.
    match goal with
    | |- context [match ?body s ev with _ => _ end] =>
        destruct (body s ev) as [[[a | m] s'] ev']
    end; eexists; reflexivity.
  - subst r. run_login.
    destruct (truthy (clientId lib provider)); cbn; [| reflexivity].
    destruct (getLatestSuiSystemState ledger (length (calls ev))) as [epoch | m]; cbn;
      [| reflexivity].
    destruct (generateNonce lib fresh (epoch + 10) randomness); reflexivity.
  - intros Hnone. subst r. run_login. rewrite Hnone. reflexivity.
  - intros Hconfigured. split; [| split; [| split]].
    + subst r. run_login. rewrite Hconfigured. cbn.
      destruct (getLatestSuiSystemState ledger (length (calls ev))) as [epoch | m]; cbn;
        [| reflexivity].
      destruct (generateNonce lib fresh (epoch + 10) randomness); reflexivity.
    + subst r. run_login. rewrite Hconfigured. cbn.
      destruct (getLatestSuiSystemState ledger (length (calls ev))) as [epoch | m]; cbn;
        [| reflexivity].
      destruct (generateNonce lib fresh (epoch + 10) randomness); reflexivity.
    + intros m Hfail. subst r. run_login. rewrite Hconfigured. cbn. rewrite Hfail.
      repeat split.
    + intros epoch nonce Hepoch Hnonce. subst r.
      rewrite (initiateLogin_run provider fresh randomness now s ev epoch nonce
                 Hconfigured Hepoch Hnonce).
      unfold result, after. cbn.
      split; [reflexivity |]. split; [reflexivity |]. split.
      * unfold getTruthy. rewrite lookup_insert_eq.
        destruct provider; reflexivity.
      * rewrite !lookup_insert_ne by discriminate. apply lookup_insert_eq.
Qed.

Lemma salt_step_fields p sub draw (s : Service) ev :
  exists salt sto,
    getUserSalt sub p draw s ev = (Returns salt, withStorage sto s, ev)
    /\ sessionStorage sto = sessionStorage (storage s).
Proof.
  unfold getUserSalt, bind, get, updateStorage, put, ret.
  destruct (getTruthy (localStorage (storage s)) (saltKey p sub)) as [salt |].
  - exists salt, (storage s). destruct s. split; reflexivity.
  - eexists _, _. split; reflexivity.
Qed.

Lemma privateKeyOf_first32 fullKeyArray privateKey :
  privateKeyOf fullKeyArray = Returns privateKey ->
  (32 <= length fullKeyArray)%nat /\ privateKey = firstn 32 fullKeyArray
  /\ fromSecretKey privateKey = Returns privateKey.
Proof.
  unfold privateKeyOf, fromSecretKey.
  destruct (Nat.eqb_spec (length fullKeyArray) 32) as [Hlen | Hlen].
  - intros H. injection H as <-. rewrite Hlen, firstn_all2 by lia.
    split; [lia |]. split; reflexivity.
  - destruct (Nat.leb_spec 32 (length fullKeyArray)) as [Hle | Hlt]; [| discriminate].
    intros H. injection H as <-.
    rewrite length_firstn, Nat.min_l by lia.
    split; [lia |]. split; reflexivity.
Qed.

Lemma providerOf_name provider : providerOf (providerName provider) = Some provider.
Proof. destruct provider; reflexivity. Qed.

(** What a callback that succeeds has read and left. *)
Lemma callback_success_state userToken now draw (s : Service) ev addr :
  let r := handleOAuthCallback lib userToken now draw s ev in
  result r = Returns (CallbackSuccess addr) ->
  exists providerText keypairData fullKeyArray proof u,
    getTruthy (sessionStorage (storage s)) "zklogin_provider" = Some providerText
    /\ getTruthy (sessionStorage (storage s)) "zklogin_ephemeral_keypair" = Some keypairData
    /\ parseKeyArray lib keypairData = Returns fullKeyArray
    /\ (32 <= length fullKeyArray)%nat
    /\ ephemeralKeyPair (after r) = Some (firstn 32 fullKeyArray)
    /\ maxEpoch (after r) = maxEpoch s
    /\ sessionExpiry (after r) = Some (now + 24 * 60 * 60 * 1000)
    /\ walletAddress (after r) = addr
    /\ zkProof (after r) = Some proof
    /\ user (after r) = Some u
    /\ providerOf providerText = Some (provider u)
    /\ sessionStorage (storage (after r)) = sessionStorage (storage s)
    /\ calls (trace r) = calls ev.
Proof.
  intros r.
  assert (Hrun : r = handleOAuthCallback lib userToken now draw s ev) by reflexivity.
  clearbody r. unfold handleOAuthCallback in Hrun.
  unfold tryCatch at 1, bind at 1, get at 1 in Hrun.
  destruct (getTruthy (sessionStorage (storage s)) "zklogin_provider")
    as [providerText |] eqn:Hprovider; [| rewrite Hrun; discriminate].
  destruct (getTruthy (sessionStorage (storage s)) "zklogin_ephemeral_keypair")
    as [keypairData |] eqn:Hdata; [| rewrite Hrun; discriminate].
  unfold bind at 1, lift at 1 in Hrun.
  destruct (parseKeyArray lib keypairData) as [fullKeyArray | m] eqn:Hparse;
    [| rewrite Hrun; discriminate].
  unfold bind at 1, lift at 1 in Hrun.
  destruct (privateKeyOf fullKeyArray) as [privateKey | m] eqn:Hkey;
    [| rewrite Hrun; discriminate].
  destruct (privateKeyOf_first32 fullKeyArray privateKey Hkey) as (Hlen & -> & Hsecret).
  unfold bind at 1, lift at 1 in Hrun. rewrite Hsecret in Hrun.
  unfold bind at 1, setEphemeralKeyPair, bind at 1, get at 1, put at 1 in Hrun.
  unfold bind at 1, lift at 1 in Hrun.
  destruct (decodeToken lib userToken) as [claim | m] eqn:Hclaim;
    [| rewrite Hrun; discriminate].
  unfold bind at 1, lift at 1 in Hrun.
  destruct (normalizeUserData claim providerText) as [userData | m] eqn:Hnormal;
    [| rewrite Hrun; discriminate].
  assert (Hnamed : providerOf providerText = Some (u_provider userData)).
  { unfold normalizeUserData in Hnormal.
    destruct (providerOf providerText) as [[|] |]; [| | discriminate].
    - injection Hnormal as <-. reflexivity.
    - destruct (c_email claim); try discriminate; injection Hnormal as <-; reflexivity. }
  unfold bind at 1 in Hrun.
  match type of Hrun with
  | context [getUserSalt _ _ _ ?s1 ev] =>
      destruct (salt_step_fields (u_provider userData) (u_sub userData) draw s1 ev)
        as (salt & sto & Hstep & Hsession)
  end.
  rewrite Hstep in Hrun.
  intros Hok. rewrite Hrun in Hok |- *. clear Hrun.
  unfold setUserSalt, setWalletAddress, setZkProof, setUser, setSessionExpiry,
    saveSecureSession, updateStorage, generateZkLoginAddress, generateMockZkProof in *.
  unfold result, after, trace, bind, get, put, ret, lift, consoleError in *. cbn in *.
  destruct (jwtToAddress lib userData (u_provider userData) _ now salt);
    cbn in *;
    (destruct (genAddressSeed lib salt (u_sub userData) (clientId lib (u_provider userData)));
     cbn in *; [| discriminate]);
    injection Hok as <-;
    (eexists providerText, keypairData, fullKeyArray, _, _;
     repeat (split; [first [eassumption | reflexivity] |]);
     first [eassumption | reflexivity]).
Qed.

(** A login across the redirect. [initiateLogin] runs on one page; the
    provider sends the browser back, and the callback runs on a service
    object made afresh over the storage the first page left. When the
    start and that callback succeed, the ephemeral key pair of the new
    service is the first 32 bytes of what the stored key array parses
    to, which is the key pair of the start exactly when these bytes
    are that key. The [maxEpoch] of the start, the epoch plus 10, was
    stored in the session storage but is not read back: the new
    service holds none. The session ends 24 hours after the callback,
    the user carries the provider the login was started with, and the
    callback has asked the ledger nothing. *)
Theorem login_restores_ephemeral_key
    (provider : Provider) (fresh : Keypair) (randomness userToken : string)
    (now later draw epoch : Z) (nonce : string) (fullKeyArray : bytes)
    (s : Service) (ev ev' : Events) (addr : option string) :
  truthy (clientId lib provider) = true ->
  getLatestSuiSystemState ledger (length (calls ev)) = Returns epoch ->
  generateNonce lib fresh (epoch + 10) randomness = Returns nonce ->
  truthy (secretKeyJson lib fresh) = true ->
  parseKeyArray lib (secretKeyJson lib fresh) = Returns fullKeyArray ->
  let started := initiateLogin lib ledger provider fresh randomness now s ev in
  let page := newService (storage (after started)) in
  let r := handleOAuthCallback lib userToken later draw page ev' in
  result r = Returns (CallbackSuccess addr) ->
  (32 <= length fullKeyArray)%nat
  /\ ephemeralKeyPair (after r) = Some (firstn 32 fullKeyArray)
  /\ (ephemeralKeyPair (after r) = Some fresh <-> firstn 32 fullKeyArray = fresh)
  /\ maxEpoch (after started) = Some (epoch + 10)
  /\ sessionStorage (storage (after started)) !! "zklogin_max_epoch"
     = Some (decimal (epoch + 10))
  /\ maxEpoch (after r) = None
  /\ sessionExpiry (after r) = Some (later + 24 * 60 * 60 * 1000)
  /\ walletAddress (after r) = addr
  /\ (exists proof, zkProof (after r) = Some proof)
  /\ ZkWallet.getCurrentProvider (after r) = Some provider
  /\ calls (trace r) = calls ev'.
Proof.
  intros Hconfigured Hepoch Hnonce Htruthy Hparse started page r Hok.
  assert (Hstarted : started = _)
    by exact (initiateLogin_run provider fresh randomness now s ev epoch nonce
                Hconfigured Hepoch Hnonce).
  destruct (callback_success_state userToken later draw page ev' addr Hok)
    as (providerText & keypairData & arr & proof & u & Hprovider & Hdata & Harr & Hlen
        & Hkey & Hmax & Hexpiry & Haddr & Hproof & Huser & Hnamed & _ & Hcalls).
  fold r in Hkey, Hmax, Hexpiry, Haddr, Hproof, Huser, Hcalls.
  subst page. cbn [newService storage maxEpoch] in Hprovider, Hdata, Hmax.
  assert (Hepochs : maxEpoch (after started) = Some (epoch + 10)
                    /\ sessionStorage (storage (after started)) !! "zklogin_max_epoch"
                       = Some (decimal (epoch + 10))).
  { rewrite Hstarted. unfold after. cbn. split; [reflexivity |].
    rewrite !lookup_insert_ne by discriminate. apply lookup_insert_eq. }
  rewrite Hstarted in Hprovider, Hdata.
  unfold after in Hprovider, Hdata. cbn in Hprovider, Hdata.
  unfold getTruthy in Hprovider, Hdata.
  rewrite lookup_insert_eq in Hprovider.
  rewrite !lookup_insert_ne, lookup_insert_eq in Hdata by discriminate.
  rewrite Htruthy in Hdata. injection Hdata as <-.
  assert (arr = fullKeyArray) by congruence. subst arr.
  assert (providerText = providerName provider)
    by (destruct provider; cbn in Hprovider |- *; congruence).
  subst providerText. rewrite providerOf_name in Hnamed. injection Hnamed as Hnamed.
  split; [exact Hlen |]. split; [exact Hkey |].
  split.
  { rewrite Hkey. split; intros H; [injection H as H; exact H | rewrite H; reflexivity]. }
  split; [apply Hepochs |]. split; [apply Hepochs |].
  split; [exact Hmax |].
  split; [exact Hexpiry |]. split; [exact Haddr |].
  split; [exists proof; exact Hproof |].
  split; [unfold ZkWallet.getCurrentProvider; rewrite Huser, Hnamed; reflexivity |].
  exact Hcalls.
Qed.

(** A session saved and read back. When the JSON text of the session
    of a service parses back to that session, a service object made
    afterwards in the same page restores, up to the expiry, the user,
    wallet address, salt, proof, maxEpoch and expiry that were saved,
    and no ephemeral key pair; after the expiry it restores nothing and
    removes the entry. Saving writes the one entry and nothing else. *)
Theorem saved_session_restores (s : Service) (ev ev' : Events) (now : Z) :
  let d := ZkWallet.sessionOf s in
  truthy (stringifySession lib d) = true ->
  parseSession lib (stringifySession lib d) = Some d ->
  let saved := after (saveSecureSession lib s ev) in
  let r := restoreSession lib now (newService (storage saved)) ev' in
  storage saved = setLocal sessionKey (stringifySession lib d) (storage s)
  /\ (now <= default 0 (sessionExpiry s) ->
      result r = Returns true
      /\ user (after r) = user s /\ walletAddress (after r) = walletAddress s
      /\ userSalt (after r) = userSalt s /\ zkProof (after r) = zkProof s
      /\ maxEpoch (after r) = maxEpoch s /\ sessionExpiry (after r) = sessionExpiry s
      /\ ephemeralKeyPair (after r) = None
      /\ storage (after r) = storage saved)
  /\ (default 0 (sessionExpiry s) < now ->
      result r = Returns false
      /\ after r = loggedOut (newService (storage saved))
      /\ localStorage (storage (after r)) !! sessionKey = None).
Proof.
  intros d Htruthy Hparse saved r.
  assert (Hsaved : storage saved = setLocal sessionKey (stringifySession lib d) (storage s))
    by reflexivity.
  split; [exact Hsaved |].
  subst r. rewrite (Invariants.restoreSession_run lib).
  cbn [newService storage]. rewrite Hsaved.
  unfold getTruthy, setLocal. cbn [localStorage]. rewrite lookup_insert_eq, Htruthy, Hparse.
  assert (Hexpiry : expired now (sd_sessionExpiry d) = (now >? default 0 (sessionExpiry s)))
    by (subst d; apply Sessions.expired_expiryOf).
  rewrite Hexpiry.
  split.
  - intros Hvalid.
    destruct (Z.gtb_spec now (default 0 (sessionExpiry s))) as [Hgt | _]; [lia |].
    unfold result, after. cbn. rewrite Sessions.expiryValue_expiryOf. repeat split.
  - intros Hexpired.
    destruct (Z.gtb_spec now (default 0 (sessionExpiry s))) as [_ | Hle]; [| lia].
    unfold result, after. cbn. repeat split. apply lookup_delete_eq.
Qed.
End ZkLogins.

Section HybridLogins.
Import Hybrid.
Context (lib : Library).

(** The direct-key session saved and read back. From a service that
    holds a key pair and a user, [saveSession] stores the key as
    [exportPrivateKey] gives it. When the JSON text parses back and
    the stored key decodes to at least 32 bytes, a service object made
    afterwards in the same page restores, up to the expiry, the user and
    the expiry, and rebuilds key pair and address from the first 32 of
    those bytes: the wallet is the one that was saved exactly when
    these bytes are its key. After the expiry it restores nothing and
    removes the entry. *)
Theorem hybrid_session_restores
    (s : Service) (ev ev' : Events) (now : Z) (kp : Keypair) (u : User) (keyBytes : bytes) :
  keypair s = Some kp -> user s = Some u ->
  let d := HybridWallet.sessionOf lib kp s in
  truthy (stringifySession lib d) = true ->
  parseSession lib (stringifySession lib d) = Some d ->
  bufferFromHex lib (HybridWallet.exportPrivateKey lib s) = Returns keyBytes ->
  (32 <= length keyBytes)%nat ->
  let saved := after (saveSession lib s ev) in
  let r := restoreSession lib now (newService (storage saved)) ev' in
  sd_privateKey d = HybridWallet.exportPrivateKey lib s
  /\ (now <= default 0 (sessionExpiry s) ->
      result r = Returns true
      /\ keypair (after r) = Some (firstn 32 keyBytes)
      /\ walletAddress (after r) = Some (toSuiAddress lib (firstn 32 keyBytes))
      /\ user (after r) = Some u
      /\ sessionExpiry (after r) = sessionExpiry s
      /\ (keypair (after r) = keypair s <-> firstn 32 keyBytes = kp))
  /\ (default 0 (sessionExpiry s) < now ->
      result r = Returns false
      /\ keypair (after r) = None
      /\ localStorage (storage (after r)) !! sessionKey = None).
Proof.
  intros Hkey Huser d Htruthy Hparse Hhex Hlen saved r.
  assert (Hexport : sd_privateKey d = HybridWallet.exportPrivateKey lib s)
    by (unfold HybridWallet.exportPrivateKey; rewrite Hkey; reflexivity).
  split; [exact Hexport |].
  assert (Hsaved : storage saved = setLocal sessionKey (stringifySession lib d) (storage s)).
  { subst saved d. unfold saveSession, HybridWallet.sessionOf, bind, get, put, after.
    rewrite Hkey, Huser. reflexivity. }
  assert (Hdata : getTruthy (localStorage (storage (newService (storage saved)))) sessionKey
                  = Some (stringifySession lib d)).
  { cbn [newService storage]. rewrite Hsaved. unfold getTruthy, setLocal.
    cbn [localStorage]. rewrite lookup_insert_eq, Htruthy. reflexivity. }
  rewrite <- Hexport in Hhex.
  assert (Hexpiry : expired now (sd_sessionExpiry d) = (now >? default 0 (sessionExpiry s)))
    by (subst d; apply Sessions.expired_expiryOf).
  split.
  - intros Hvalid. subst r.
    rewrite (Sessions.hybrid_restore_valid lib now _ ev' _ d keyBytes u Hdata Hparse);
      [| rewrite Hexpiry; lia | exact Hhex | exact Hlen | exact Huser].
    unfold result, after, reinstatedHybrid. cbn.
    rewrite Sessions.expiryValue_expiryOf.
    repeat (split; [first [assumption | reflexivity] |]).
    rewrite Hkey. split; intros H; [injection H as H; exact H | rewrite H; reflexivity].
  - intros Hexpired. subst r.
    rewrite (Sessions.hybrid_restore_expired lib now _ ev' _ d Hdata Hparse);
      [| rewrite Hexpiry; lia].
    unfold result, after, loggedOutHybrid. cbn. repeat split. apply lookup_delete_eq.
Qed.

(** A direct-key login from its start to its end. Once [initiateLogin]
    has run for a configured provider, a callback whose token decodes
    and normalises always succeeds: the key derivation cannot fail. It
    leaves the derived key pair and its address in the service, returns
    the key as [exportPrivateKey] then gives it, and neither step asks
    the ledger anything. *)
Theorem direct_login_flow
    (clientId : Provider -> string) (provider : Provider) (now later : Z)
    (userToken : string) (claim : Claim) (userData : UserData)
    (s : Service) (ev : Events) :
  truthy (clientId provider) = true ->
  decodeToken lib userToken = Returns claim ->
  normalizeUserData claim (providerName provider) = Returns userData ->
  let started := HybridWallet.initiateLogin clientId provider now s ev in
  let r := handleOAuthCallback lib userToken later (after started) (trace started) in
  exists key,
    createKeypairFromSeed (createDeterministicSeed userData (providerName provider))
    = Returns key
    /\ length key = 32%nat
    /\ result started = Returns (HybridWallet.LoginUrl provider (clientId provider) now)
    /\ result r = Returns (LoginSuccess (toSuiAddress lib key)
                             (bufferToHex lib (secretKeyBytes lib key)))
    /\ keypair (after r) = Some key
    /\ walletAddress (after r) = Some (toSuiAddress lib key)
    /\ HybridWallet.exportPrivateKey lib (after r)
       = Some (bufferToHex lib (secretKeyBytes lib key))
    /\ sessionExpiry (after r) = Some (later + 24 * 60 * 60 * 1000)
    /\ calls (trace r) = calls ev.
Proof.
  intros Hconfigured Hclaim Hnormal started r.
  destruct (KeyDerivation.derivation_total userData (providerName provider))
    as (key & Hkey & Hlen & _).
  exists key. split; [exact Hkey |]. split; [exact Hlen |].
  assert (Hstarted : started
                     = (Returns (HybridWallet.LoginUrl provider (clientId provider) now),
                        {| keypair := keypair s; user := user s;
                           walletAddress := walletAddress s;
                           sessionExpiry := sessionExpiry s;
                           storage := setSession "oauth_provider" (providerName provider)
                                        (storage s) |}, ev)).
  { subst started. unfold HybridWallet.initiateLogin, tryCatch, bind, get, put, ret.
    rewrite Hconfigured. reflexivity. }
  split; [rewrite Hstarted; reflexivity |].
  subst r. rewrite Hstarted. unfold after, trace. cbn [fst snd].
  unfold handleOAuthCallback, tryCatch, bind, get, lift, put, ret, saveSession,
    walletAddressOf, HybridWallet.exportPrivateKey, result, after, trace.
  cbn [storage sessionStorage setSession]. unfold getTruthy. rewrite lookup_insert_eq.
  assert (Hname : truthy (providerName provider) = true) by (destruct provider; reflexivity).
  rewrite Hname, Hclaim, Hnormal, Hkey. cbn. repeat split.
Qed.
End HybridLogins.

Import Scenarios Cases.


(** An id from 10^21 on prints in exponent form, and an id that no
    double holds prints as the double nearest to it. *)
Example large_ids_print_as_numbers :
  decimal 1001 = "1001"
  /\ decimal (10 ^ 21) = "1e+21"
  /\ decimal (2 ^ 53 + 1) = "9007199254740992"
  /\ decimal 123456789012345678901234567890 = "1.2345678901234568e+29".
Proof. vm_compute. repeat split. Qed.

(** A login with a library that exports keys as text: the callback on
    the new page succeeds, with a key pair that is not the one of the
    start and without [maxEpoch]. *)
Lemma login_restores_ephemeral_key_witness :
  let lib := zkLibTextKeys (Returns aliceClaim) in
  let ledger := ledgerWith [] 7 (Returns okResult) in
  let started := ZkLogin.initiateLogin lib ledger github someKey "r" 1000
                   (ZkLogin.newService emptyStorage) noEvents in
  let page := ZkLogin.newService (ZkLogin.storage (after started)) in
  let r := ZkLogin.handleOAuthCallback lib "token" 2000 5 page noEvents in
  result r = Returns (ZkLogin.CallbackSuccess (Some alice))
  /\ ZkLogin.ephemeralKeyPair (after r) <> Some someKey
  /\ ZkLogin.maxEpoch (after started) = Some 17
  /\ ZkLogin.maxEpoch (after r) = None.
Proof.
  intros lib ledger started page r.
  assert (Hok : result r = Returns (ZkLogin.CallbackSuccess (Some alice)))
    by (vm_compute; reflexivity).
  split; [exact Hok |].
  pose proof (login_restores_ephemeral_key lib ledger github someKey "r" "token" 1000 2000 5
                7 "nonce"
                (bytesOfCharacters (ZkLogin.secretKeyJson lib someKey))
                (ZkLogin.newService emptyStorage) noEvents noEvents (Some alice)) as H.
  cbv zeta in H.
  repeat (lapply H; [clear H; intros H | solve [vm_compute; reflexivity | exact Hok]]).
  destruct H as (_ & _ & Hsame & Hstart & _ & Hmax & _).
  fold lib ledger in Hsame, Hstart, Hmax. fold started in Hsame, Hstart, Hmax.
  fold page in Hsame, Hmax. fold r in Hsame, Hmax.
  split; [| split; [exact Hstart | exact Hmax]].
  intros Hkey. apply Hsame in Hkey. vm_compute in Hkey. discriminate Hkey.
Defined.

Lemma saved_session_restores_witness :
  let saved := after (ZkLogin.saveSecureSession zkLib loggedIn noEvents) in
  let r := ZkLogin.restoreSession zkLib 5000 (ZkLogin.newService (ZkLogin.storage saved))
             noEvents in
  result r = Returns true
  /\ ZkLogin.walletAddress (after r) = Some alice
  /\ ZkLogin.ephemeralKeyPair (after r) = None.
Proof.
  intros saved r.
  destruct (saved_session_restores zkLib loggedIn noEvents noEvents 5000)
    as (_ & Hvalid & _); [reflexivity | vm_compute; reflexivity |].
  destruct Hvalid as (Hok & _ & Haddr & _ & _ & _ & _ & Hkey & _); [vm_compute; discriminate |].
  fold saved in Hok, Haddr, Hkey. fold r in Hok, Haddr, Hkey.
  split; [exact Hok |]. split; [exact Haddr | exact Hkey].
Defined.

Lemma hybrid_session_restores_witness :
  let saved := after (Hybrid.saveSession hybridLib hybridService noEvents) in
  let r := Hybrid.restoreSession hybridLib 5000 (Hybrid.newService (Hybrid.storage saved))
             noEvents in
  result r = Returns true
  /\ Hybrid.keypair (after r) = Hybrid.keypair hybridService.
Proof.
  intros saved r.
  destruct (hybrid_session_restores hybridLib hybridService noEvents noEvents 5000
              someKey someUser (someKey ++ someKey))
    as (_ & Hvalid & _);
    try solve [reflexivity | vm_compute; reflexivity | vm_compute; lia].
  destruct Hvalid as (Hok & _ & _ & _ & _ & Hsame); [vm_compute; discriminate |].
  fold saved in Hok, Hsame. fold r in Hok, Hsame.
  split; [exact Hok |]. apply Hsame. reflexivity.
Defined.

Lemma direct_login_flow_witness :
  let lib := hybridLibDecoding (Returns aliceClaim) in
  let started := HybridWallet.initiateLogin (fun _ => "client") github 1000
                   (Hybrid.newService emptyStorage) noEvents in
  let r := Hybrid.handleOAuthCallback lib "token" 2000 (after started) (trace started) in
  result r = Returns (Hybrid.LoginSuccess alice "key") /\ calls (trace r) = [].
Proof.
  intros lib started r.
  destruct (direct_login_flow lib (fun _ => "client") github 1000 2000 "token" aliceClaim
              {| Hybrid.u_sub := JStr "1001"; Hybrid.u_id := JNum 1001;
                 Hybrid.u_email := JStr "alice@example.org";
                 Hybrid.u_login := JStr "alice"; Hybrid.u_name := JStr "Alice";
                 Hybrid.u_picture := JStr "https://example.org/a.png";
                 Hybrid.u_provider := github |}
              (Hybrid.newService emptyStorage) noEvents)
    as (key & _ & _ & _ & Hok & _ & _ & _ & _ & Hcalls);
    [reflexivity | reflexivity | reflexivity |].
  fold lib in Hok, Hcalls. fold started in Hok, Hcalls. fold r in Hok, Hcalls.
  split; [exact Hok | exact Hcalls].
Defined.

End LoginFacts.

(* ===================================================================== *)
(** ** The OAuth callback route *)
(* ===================================================================== *)

Module CallbackFacts.
Import JsString JsNumber Effects Browser Reference Network CallbackRoute.
Local Open Scope Z_scope.

Lemma handleIdToken_run services idToken provider (made : list GitHubCall) ev :
  let r := handleIdToken services idToken provider made ev in
  after r = made
  /\ ((exists userToken, result r = Returns (ProcessToken userToken provider))
      \/ result r = Throws msgIdToken).
Proof.
  unfold handleIdToken, tryCatch, bind, lift, ret, throw, consoleError, after, result.
  destruct (decodeIdToken services idToken) as [decoded |]; cbn.
  - destruct (encodeToken services _) as [userToken | message]; cbn.
    + split; [reflexivity | left; exists userToken; reflexivity].
    + split; [reflexivity | right; reflexivity].
  - split; [reflexivity | right; reflexivity].
Qed.

Lemma handleGoogleCode_run services code (made : list GitHubCall) ev :
  let r := handleGoogleCode services code made ev in
  after r = made
  /\ ((exists userToken, result r = Returns (ProcessToken userToken "google"))
      \/ exists message, result r = Throws message).
Proof.
  unfold handleGoogleCode, tryCatch, bind, lift, ret, throw, consoleError.
  destruct (googleExchange services code) as [tokenData | message]; cbn;
    [| split; [reflexivity | right; eexists; reflexivity]].
  destruct (gt_ok tokenData); cbn.
  - destruct (gt_body tokenData) as [body |]; cbn;
      [| split; [reflexivity | right; eexists; reflexivity]].
    destruct (gb_id_token body) as [idToken |]; cbn;
      [| split; [reflexivity | right; eexists; reflexivity]].
    pose proof (handleIdToken_run services idToken "google" made ev) as Hid.
    cbv zeta in Hid. unfold after, result in Hid |- *.
    destruct (handleIdToken services idToken "google" made ev) as [[answer made'] ev'].
    cbn in Hid. destruct Hid as [-> [[userToken ->] | ->]]; cbn.
    + split; [reflexivity | left; exists userToken; reflexivity].
    + split; [reflexivity | right; eexists; reflexivity].
  - destruct (gt_body tokenData) as [body |]; cbn;
      split; try reflexivity; right; eexists; reflexivity.
Qed.

Lemma exchangeCode_run services provider code (made : list GitHubCall) ev :
  let r := exchangeCode services provider code made ev in
  ((exists userToken, result r = Returns (ProcessToken userToken (providerName provider)))
   \/ result r = Returns (ProcessError "token_exchange_failed" (providerName provider)))
  /\ (provider = google -> after r = made).
Proof.
  unfold exchangeCode. destruct provider.
  - split; [| discriminate].
    unfold tryCatch, bind, lift, ret, consoleError, result.
    destruct (handleGitHubCode (github_api services) code made ev)
      as [[[claim | message] made'] ev']; cbn.
    + destruct (encodeToken services claim) as [userToken | message]; cbn.
      * left. exists userToken. reflexivity.
      * right. reflexivity.
    + right. reflexivity.
  - pose proof (handleGoogleCode_run services code made ev) as Hgoogle.
    cbv zeta in Hgoogle. unfold tryCatch, ret, bind, consoleError, after, result in Hgoogle |- *.
    destruct (handleGoogleCode services code made ev) as [[answer made'] ev'].
    cbn in Hgoogle. destruct Hgoogle as [-> [[userToken ->] | [message ->]]]; cbn.
    + split; [left; exists userToken; reflexivity | reflexivity].
    + split; [right; reflexivity | reflexivity].
Qed.

(** The state of a login started by either service names its provider. *)
Lemma login_state_provider provider now state :
  state = zkLoginState provider now \/ state = hybridState provider now ->
  getProviderFromState (Some state) = Some provider.
Proof.
  destruct (LoginFacts.decimal_names_no_provider now) as [Hgithub Hgoogle].
  unfold stringIncludes, chars in Hgithub, Hgoogle.
  cbn [list_ascii_of_string] in Hgithub, Hgoogle.
  intros [-> | ->];
    unfold getProviderFromState, zkLoginState, hybridState, stringIncludes, chars;
    destruct provider; simpl;
    change (EmptyString +:+ decimal now) with (decimal now);
    rewrite ?Hgithub, ?Hgoogle; reflexivity.
Qed.

(** How the callback route answers. A truthy [error] parameter is
    passed on to the process page and nothing is asked of GitHub. With
    no error and a truthy code, the state decides: if it names a
    provider, the answer is a token for that provider or
    token_exchange_failed for that provider, whatever the provider's
    services do; if it names none, the answer is no_code for null,
    although a code was sent. GitHub is asked only when the state names
    github. The route throws, rather than redirects, only in the
    implicit flow (an identity token and no code), and then with the
    one message of [handleIdToken]. *)
Theorem callback_dispatch (services : Services) (query : Query)
    (made : list GitHubCall) (ev : Events) :
  let r := GET services query made ev in
  let provider := getProviderFromState (q_state query) in
  (present (q_error query) = true ->
   result r = Returns (ProcessError (default EmptyString (q_error query))
                                    (providerText provider))
   /\ after r = made)
  /\ (present (q_error query) = false -> present (q_code query) = true ->
      match provider with
      | Some p =>
          (exists userToken, result r = Returns (ProcessToken userToken (providerName p)))
          \/ result r = Returns (ProcessError "token_exchange_failed" (providerName p))
      | None => result r = Returns (ProcessError "no_code" "null") /\ after r = made
      end)
  /\ (provider <> Some github -> after r = made)
  /\ (forall message, result r = Throws message ->
      message = msgIdToken
      /\ present (q_error query) = false
      /\ present (q_id_token query) = true
      /\ present (q_code query) = false).
Proof.
  intros r provider. subst r. unfold GET. fold provider.
  assert (Hcoded : forall p,
             let r := exchangeCode services p (default EmptyString (q_code query)) made ev in
             ((exists userToken, result r = Returns (ProcessToken userToken (providerName p)))
              \/ result r = Returns (ProcessError "token_exchange_failed" (providerName p)))
             /\ (Some p <> Some github -> after r = made)
             /\ (forall message, result r = Throws message -> False)).
  { intros p. pose proof (exchangeCode_run services p (default EmptyString (q_code query))
                            made ev) as [Hanswer Hafter].
    split; [exact Hanswer | split].
    - intros Hp. apply Hafter. destruct p; [congruence | reflexivity].
    - intros message Hthrows.
      destruct Hanswer as [[t Ht] | Ht]; rewrite Ht in Hthrows; discriminate. }
  destruct (present (q_error query)) eqn:Herror.
  { cbn. split; [intros _; split; reflexivity |].
    split; [discriminate |]. split; [reflexivity | discriminate]. }
  split; [discriminate |].
  destruct (present (q_id_token query)) eqn:Hid;
    destruct (present (q_code query)) eqn:Hcode; cbn [andb negb].
  - destruct provider as [p |].
    + destruct (Hcoded p) as (Hanswer & Hafter & Hthrows).
      split; [intros _ _; exact Hanswer |].
      split; [exact Hafter | intros message H; destruct (Hthrows message H)].
    + cbn. split; [intros _ _; split; reflexivity |].
      split; [reflexivity | discriminate].
  - match goal with
    | |- context [handleIdToken services ?t ?p made ev] =>
        pose proof (handleIdToken_run services t p made ev) as [Hafter Hanswer]
    end.
    split; [discriminate |]. split; [intros _; exact Hafter |].
    intros message H.
    destruct Hanswer as [[t Ht] | Ht]; rewrite Ht in H; [discriminate |].
    injection H as <-. repeat split; reflexivity.
  - destruct provider as [p |].
    + destruct (Hcoded p) as (Hanswer & Hafter & Hthrows).
      split; [intros _ _; exact Hanswer |].
      split; [exact Hafter | intros message H; destruct (Hthrows message H)].
    + cbn. split; [intros _ _; split; reflexivity |].
      split; [reflexivity | discriminate].
  - split; [discriminate |].
    destruct provider as [p |]; cbn; split; try reflexivity; discriminate.
Qed.

(** A login comes back to its own provider. When the provider sends the
    browser back with a code and the state that [initiateLogin] of
    either service wrote, at any clock reading, the route answers with
    a token for the provider the login was started with, or with
    token_exchange_failed for that provider: never with no_code, never
    for the other provider, and never by throwing. *)
Theorem login_comes_back (services : Services) (provider : Provider) (now : Z)
    (query : Query) (state : string) (made : list GitHubCall) (ev : Events) :
  state = zkLoginState provider now \/ state = hybridState provider now ->
  q_state query = Some state ->
  present (q_error query) = false ->
  present (q_code query) = true ->
  let r := GET services query made ev in
  (exists userToken, result r = Returns (ProcessToken userToken (providerName provider)))
  \/ result r = Returns (ProcessError "token_exchange_failed" (providerName provider)).
Proof.
  intros Hstate Hquery Herror Hcode r. subst r.
  unfold GET. rewrite Hquery, (login_state_provider provider now state Hstate).
  rewrite Herror, Hcode, Bool.andb_false_r.
  apply exchangeCode_run.
Qed.

Import Cases.

Lemma login_comes_back_witness :
  let query := {| q_code := Some "4/0Ab"; q_state := Some (hybridState github 1700000000000);
                  q_error := None; q_id_token := None |} in
  let r := GET octocatServices query [] noEvents in
  ((exists userToken, result r = Returns (ProcessToken userToken "github"))
   \/ result r = Returns (ProcessError "token_exchange_failed" "github"))
  /\ result r = Returns (ProcessToken "token-of-1001" "github")
  /\ after r = [CallExchange "4/0Ab"; CallUser (JStr "gho_token");
                CallEmails (JStr "gho_token")].
Proof.
  intros query r. split.
  - apply (login_comes_back octocatServices github 1700000000000 query
             (hybridState github 1700000000000) [] noEvents);
      [right; reflexivity | reflexivity | reflexivity | reflexivity].
  - split; vm_compute; reflexivity.
Defined.

End CallbackFacts.
